(** * SearchMind (mcphost fork): conversation engine, history pruner, tool dispatch

    A shallow embedding of [cmd/root.go] and of the MCP helper file of the
    same package ([createMCPClients], [mcpToolsToAnthropicTools],
    [handleSlashCommand]), with the properties the specification states
    about them.

    Conventions.
    - Go [string] is [string]; Go [int] is [Z]; [time.Duration] is [Z]
      nanoseconds, wrapped to 64 bits where the code multiplies.
    - [map[string]V] is [gmap string V]; a Go [range] over a map visits the
      entries in an unspecified order, so where the order is observable it
      is an input of the model.
    - A run-time panic and "recursion budget exhausted" are explicit results.
    - The external collaborators (LLM provider, MCP clients, terminal) are
      deterministic oracles passed as arguments. *)

From Stdlib Require Import ZArith Lia Bool List Ascii String.
From stdpp Require Import base option list gmap strings fin_maps.
Import ListNotations.

#[local] Set Warnings "-clear-no-such-hyp".

Local Open Scope string_scope.
Local Open Scope Z_scope.

(* ===================================================================== *)
(** * Data model ([pkg/history], [pkg/llm], [mcp-go]) *)
(* ===================================================================== *)

(** [mcp.Content]: the structured items a tool returns. Only
    [mcp.TextContent] is inspected by the engine. *)
Inductive McpContent : Type :=
| TextContent (text : string)
| ImageContent (data mimeType : string)
| EmbeddedResource (uri : string).

(** The [interface{}] stored in [ContentBlock.Content]: absent, a slice of
    history blocks (the synthesized error result) or the tool's own
    content slice. *)
Inductive ContentValue (B : Type) : Type :=
| ContentNil
| ContentBlocks (blocks : list B)
| ContentMcp (items : list McpContent).
Arguments ContentNil {B}.
Arguments ContentBlocks {B} blocks.
Arguments ContentMcp {B} items.

(** [json.RawMessage] holding an encoded argument object; [None] is the
    nil slice [json.Marshal] leaves behind when it fails. *)
Definition RawMessage : Type := option (list (string * string)).

(** [history.ContentBlock]. *)
#[warnings="-register-all"]
Inductive ContentBlock : Type :=
| Build_ContentBlock
    (Type_ Text ID ToolUseID Name : string)
    (Input : RawMessage)
    (BlockContent : ContentValue ContentBlock).

Definition Type_ (b : ContentBlock) : string :=
  match b with Build_ContentBlock t _ _ _ _ _ _ => t end.
Definition Text (b : ContentBlock) : string :=
  match b with Build_ContentBlock _ t _ _ _ _ _ => t end.
Definition ID (b : ContentBlock) : string :=
  match b with Build_ContentBlock _ _ i _ _ _ _ => i end.
Definition ToolUseID (b : ContentBlock) : string :=
  match b with Build_ContentBlock _ _ _ i _ _ _ => i end.
Definition Name (b : ContentBlock) : string :=
  match b with Build_ContentBlock _ _ _ _ n _ _ => n end.
Definition Input (b : ContentBlock) : RawMessage :=
  match b with Build_ContentBlock _ _ _ _ _ i _ => i end.
Definition BlockContent (b : ContentBlock) : ContentValue ContentBlock :=
  match b with Build_ContentBlock _ _ _ _ _ _ c => c end.

(** The three block literals the engine writes. *)
Definition textBlock (text : string) : ContentBlock :=
  Build_ContentBlock "text" text "" "" "" None ContentNil.
Definition toolUseBlock (id name : string) (input : RawMessage) : ContentBlock :=
  Build_ContentBlock "tool_use" "" id "" name input ContentNil.
Definition toolResultBlock (toolUseID text : string)
    (content : ContentValue ContentBlock) : ContentBlock :=
  Build_ContentBlock "tool_result" text "" toolUseID "" None content.

(** [history.HistoryMessage]. *)
Record HistoryMessage : Type := Build_HistoryMessage {
  Role : string;
  Content : list ContentBlock
}.

(* ===================================================================== *)
(** * History pruner: [pruneMessages] *)
(* ===================================================================== *)

Module Pruner.

(** [m[k]] on a [map[string]bool]: the zero value [false] when absent. *)
Definition index (m : gmap string bool) (k : string) : bool :=
  default false (m !! k).

(** First pass, inner loop body. *)
Definition collectBlock (acc : gmap string bool * gmap string bool)
    (block : ContentBlock) : gmap string bool * gmap string bool :=
  let '(toolUseIds, toolResultIds) := acc in
  if String.eqb (Type_ block) "tool_use" then
    (<[ID block := true]> toolUseIds, toolResultIds)
  else if String.eqb (Type_ block) "tool_result" then
    (toolUseIds, <[ToolUseID block := true]> toolResultIds)
  else acc.

(** First pass: [(toolUseIds, toolResultIds)] over the kept slice. *)
Definition collectIds (messages : list HistoryMessage)
    : gmap string bool * gmap string bool :=
  fold_left (fun acc msg => fold_left collectBlock (Content msg) acc)
            messages (∅, ∅).

(** Second pass, the [keep] flag of one block. *)
Definition keep (toolUseIds toolResultIds : gmap string bool)
    (block : ContentBlock) : bool :=
  if String.eqb (Type_ block) "tool_use" then index toolResultIds (ID block)
  else if String.eqb (Type_ block) "tool_result" then
    index toolUseIds (ToolUseID block)
  else true.

Definition pruneBlocks (toolUseIds toolResultIds : gmap string bool)
    (content : list ContentBlock) : list ContentBlock :=
  List.filter (keep toolUseIds toolResultIds) content.

Definition hasTextBlock (content : list ContentBlock) : bool :=
  existsb (fun block => String.eqb (Type_ block) "text") content.

(** Second pass, the retention test of one message as the code writes it. *)
Definition retained (role : string) (prunedBlocks original : list ContentBlock)
    : bool :=
  (((0 <? length prunedBlocks)%nat && String.eqb role "assistant")
   || negb (String.eqb role "assistant"))
  && ((0 <? length prunedBlocks)%nat || hasTextBlock original).

(** Second pass, one message: zero or one message appended. *)
Definition pruneMessage (toolUseIds toolResultIds : gmap string bool)
    (msg : HistoryMessage) : list HistoryMessage :=
  let prunedBlocks := pruneBlocks toolUseIds toolResultIds (Content msg) in
  if retained (Role msg) prunedBlocks (Content msg) then
    [ {| Role := Role msg; Content := prunedBlocks |} ]
  else [].

(** The body after the early return, on the already sliced window. *)
Definition pruneWindow (messages : list HistoryMessage) : list HistoryMessage :=
  let '(toolUseIds, toolResultIds) := collectIds messages in
  flat_map (pruneMessage toolUseIds toolResultIds) messages.

(** [pruneMessages] with the global [messageWindow] as first argument.
    [None] is the slice-bounds panic of [messages[len(messages)-messageWindow:]]
    for a negative window. *)
Definition pruneMessages (messageWindow : Z) (messages : list HistoryMessage)
    : option (list HistoryMessage) :=
  if Z.of_nat (length messages) <=? messageWindow then Some messages
  else if messageWindow <? 0 then None
  else
    Some (pruneWindow
            (drop (Z.to_nat (Z.of_nat (length messages) - messageWindow))
                  messages)).

(** The uniform retention rule: keep a message exactly when one of its
    blocks survives the block filter. *)
Definition pruneMessage_uniform (toolUseIds toolResultIds : gmap string bool)
    (msg : HistoryMessage) : list HistoryMessage :=
  let prunedBlocks := pruneBlocks toolUseIds toolResultIds (Content msg) in
  match prunedBlocks with
  | [] => []
  | _ :: _ => [ {| Role := Role msg; Content := prunedBlocks |} ]
  end.

Definition pruneWindow_uniform (messages : list HistoryMessage)
    : list HistoryMessage :=
  let '(toolUseIds, toolResultIds) := collectIds messages in
  flat_map (pruneMessage_uniform toolUseIds toolResultIds) messages.

Definition pruneMessages_uniform (messageWindow : Z)
    (messages : list HistoryMessage) : option (list HistoryMessage) :=
  if Z.of_nat (length messages) <=? messageWindow then Some messages
  else if messageWindow <? 0 then None
  else
    Some (pruneWindow_uniform
            (drop (Z.to_nat (Z.of_nat (length messages) - messageWindow))
                  messages)).

(** Ids of the top-level [tool_use] blocks of a history, and the ids the
    top-level [tool_result] blocks refer to. *)
Definition isToolUse (b : ContentBlock) : bool := String.eqb (Type_ b) "tool_use".
Definition isToolResult (b : ContentBlock) : bool :=
  String.eqb (Type_ b) "tool_result".

Definition toolUseIdsOf (h : list HistoryMessage) : list string :=
  flat_map (fun msg => map ID (List.filter isToolUse (Content msg))) h.
Definition toolResultRefsOf (h : list HistoryMessage) : list string :=
  flat_map (fun msg => map ToolUseID (List.filter isToolResult (Content msg))) h.

(** No dangling [tool_use] and no dangling [tool_result]. *)
Definition Paired (h : list HistoryMessage) : Prop :=
  (forall i, In i (toolUseIdsOf h) -> In i (toolResultRefsOf h))
  /\ (forall i, In i (toolResultRefsOf h) -> In i (toolUseIdsOf h)).

End Pruner.

(* ===================================================================== *)
(** * The Go [strings] functions the engine calls *)
(* ===================================================================== *)

(** Strings are byte strings, as in Go; text in them is UTF-8. *)
Module strings.

Definition HasPrefix (s prefix : string) : bool := String.prefix prefix s.

Fixpoint Contains (s substr : string) : bool :=
  String.prefix substr s
  || match s with
     | EmptyString => false
     | String _ s' => Contains s' substr
     end.

(** The scan of [strings.Split] for a non-empty separator: leftmost,
    non-overlapping occurrences. [skip] counts the bytes of a separator
    just matched that are still to be passed over; [cur] is the part read
    so far. *)
Fixpoint splitFrom (sep : string) (skip : nat) (cur s : string) : list string :=
  match s with
  | EmptyString => [cur]
  | String c s' =>
      match skip with
      | S k => splitFrom sep k cur s'
      | O =>
          if String.prefix sep s
          then cur :: splitFrom sep (String.length sep - 1) EmptyString s'
          else splitFrom sep 0 (cur ++ String c EmptyString) s'
      end
  end.

(** With an empty separator Go cuts after every UTF-8 sequence, this
    model after every byte; the engine never splits that way, the case
    is kept for totality. *)
Definition Split (s sep : string) : list string :=
  match sep with
  | EmptyString => map (fun c => String c EmptyString) (list_ascii_of_string s)
  | _ => splitFrom sep 0 EmptyString s
  end.

(** [strings.SplitN(s, sep, 2)]: cut at the first occurrence only. *)
Fixpoint splitFirst (sep cur s : string) : list string :=
  match s with
  | EmptyString => [cur]
  | String c s' =>
      if String.prefix sep s
      then [cur; string_of_list_ascii
                   (drop (String.length sep) (list_ascii_of_string s))]
      else splitFirst sep (cur ++ String c EmptyString) s'
  end.
Definition SplitN2 (s sep : string) : list string := splitFirst sep EmptyString s.

(** [unicode.IsSpace] on the UTF-8 encodings of its runes. One byte:
    tab, line feed, vertical tab, form feed, carriage return, space. *)
Definition isSpace (c : ascii) : bool :=
  let n := nat_of_ascii c in
  ((9 <=? n) && (n <=? 13) || (n =? 32))%nat.

(** Two bytes: U+0085 (C2 85) and U+00A0 (C2 A0). *)
Definition isSpace2 (a b : ascii) : bool :=
  let a := nat_of_ascii a in
  let b := nat_of_ascii b in
  ((a =? 194) && ((b =? 133) || (b =? 160)))%nat.

(** Three bytes: U+1680 (E1 9A 80), U+2000 to U+200A (E2 80 80 to
    E2 80 8A), U+2028, U+2029, U+202F (E2 80 A8, A9, AF), U+205F
    (E2 81 9F) and U+3000 (E3 80 80). No rune of four bytes is a space. *)
Definition isSpace3 (a b c : ascii) : bool :=
  let a := nat_of_ascii a in
  let b := nat_of_ascii b in
  let c := nat_of_ascii c in
  ((a =? 225) && (b =? 154) && (c =? 128)
   || (a =? 226) && (b =? 128)
      && ((128 <=? c) && (c <=? 138) || (c =? 168) || (c =? 169) || (c =? 175))
   || (a =? 226) && (b =? 129) && (c =? 159)
   || (a =? 227) && (b =? 128) && (c =? 128))%nat.

(** [strings.TrimLeftFunc(s, unicode.IsSpace)]: runes are decoded from
    the left while they are spaces. A byte that starts no valid encoding
    decodes as U+FFFD, which is no space, and ends the scan. *)
Fixpoint trimLeft (s : string) : string :=
  match s with
  | EmptyString => EmptyString
  | String a s1 =>
      if isSpace a then trimLeft s1
      else
        match s1 with
        | EmptyString => s
        | String b s2 =>
            if isSpace2 a b then trimLeft s2
            else
              match s2 with
              | EmptyString => s
              | String c s3 => if isSpace3 a b c then trimLeft s3 else s
              end
        end
  end.

(** The same from the right, on the bytes in reverse order:
    [utf8.DecodeLastRuneInString] yields a space exactly when the string
    ends with the encoding of one. *)
Fixpoint trimReversed (l : list ascii) : list ascii :=
  match l with
  | [] => []
  | c :: l1 =>
      if isSpace c then trimReversed l1
      else
        match l1 with
        | [] => l
        | b :: l2 =>
            if isSpace2 b c then trimReversed l2
            else
              match l2 with
              | [] => l
              | a :: l3 => if isSpace3 a b c then trimReversed l3 else l
              end
        end
  end.

Definition trimRight (s : string) : string :=
  string_of_list_ascii (rev (trimReversed (rev (list_ascii_of_string s)))).

(** [strings.TrimSpace]: its fast path for ASCII and its fall-back
    [TrimFunc(s, unicode.IsSpace)] both trim the left end, then the right. *)
Definition TrimSpace (s : string) : string := trimRight (trimLeft s).

Definition toLowerByte (c : ascii) : ascii :=
  let n := nat_of_ascii c in
  if ((65 <=? n) && (n <=? 90))%nat then ascii_of_nat (n + 32) else c.

(** The two runes beyond ASCII whose lower case is an ASCII letter:
    U+0130 (C4 B0), lower case [i], and U+212A (E2 84 AA), lower case [k]. *)
Definition isDottedI (a b : ascii) : bool :=
  ((nat_of_ascii a =? 196) && (nat_of_ascii b =? 176))%nat.
Definition isKelvin (a b c : ascii) : bool :=
  ((nat_of_ascii a =? 226) && (nat_of_ascii b =? 132)
   && (nat_of_ascii c =? 170))%nat.

(** [strings.ToLower]. ASCII letters and the two runes above are mapped
    as Go maps them. Every other rune beyond ASCII is left as it is: Go
    maps it to a rune beyond ASCII as well (an invalid byte to U+FFFD),
    so the result here is Go's whenever either of them is an ASCII
    string, and no comparison with an ASCII string tells them apart. *)
Fixpoint ToLower (s : string) : string :=
  match s with
  | EmptyString => EmptyString
  | String a s1 =>
      match s1 with
      | EmptyString => String (toLowerByte a) EmptyString
      | String b s2 =>
          if isDottedI a b then String "i" (ToLower s2)
          else
            match s2 with
            | EmptyString => String (toLowerByte a) (ToLower s1)
            | String c s3 =>
                if isKelvin a b c then String "k" (ToLower s3)
                else String (toLowerByte a) (ToLower s1)
            end
      end
  end.

End strings.

(* ===================================================================== *)
(** * Collaborators of the engine *)
(* ===================================================================== *)

(** A Go [error], identified with its [Error()] text. *)
Definition error : Type := string.

(** [map[string]interface{}] tool arguments as the provider hands them
    over: an object the JSON encoder accepts, or a value it refuses. *)
Inductive JsonArgs : Type :=
| ArgsObject (fields : list (string * string))
| ArgsUnsupported.

(** [json.Marshal] on the arguments; the engine drops its error, so a
    failure is only visible as the nil message. *)
Definition json_Marshal (args : JsonArgs) : RawMessage :=
  match args with
  | ArgsObject fields => Some fields
  | ArgsUnsupported => None
  end.

(** [json.Unmarshal(input, &toolArgs)]. *)
Definition json_Unmarshal (input : RawMessage)
    : list (string * string) + error :=
  match input with
  | Some fields => inl fields
  | None => inr "unexpected end of JSON input"
  end.

(** [llm.ToolCall]. *)
Record ToolCall : Type := Build_ToolCall {
  GetName : string;
  GetID : string;
  GetArguments : JsonArgs
}.

(** [llm.Message], the assistant turn returned by a provider. *)
Record Message : Type := Build_Message {
  GetRole : string;
  GetContent : string;
  GetToolCalls : list ToolCall;
  GetUsage : Z * Z
}.

(** [llm.Schema] and [llm.Tool]; [mcp.Tool] has the same three parts. *)
Record Schema : Type := Build_Schema {
  SchemaType : string;
  Properties : list (string * string);
  Required : list string
}.
Record Tool : Type := Build_Tool {
  ToolName : string;
  Description : string;
  InputSchema : Schema
}.

(** [llm.Provider.CreateMessage]: the answer to the [n]-th call of the
    session, given prompt, history and tool catalogue. *)
Definition Provider : Type :=
  nat -> string -> list HistoryMessage -> list Tool -> Message + error.

(** What [CallTool] hands back: an error, or a result whose [Content]
    slice may be nil. *)
Inductive CallToolOutcome : Type :=
| CallError (err : error)
| CallResult (content : option (list McpContent)).

(** [mcpclient.MCPClient]: [handle] names the connection behind the
    client; [CallTool n toolName arguments] answers the [n]-th tool call
    of the session. *)
Record MCPClient : Type := Build_MCPClient {
  handle : string;
  CallTool : nat -> string -> list (string * string) -> CallToolOutcome
}.

(** The glamour renderer: [updateRenderer] may fail, [Render] may fail. *)
Record Terminal : Type := Build_Terminal {
  updateRenderer : option error;
  Render : string -> string + error
}.

(** What reaches the terminal or the log, one constructor per statement
    of the source that writes. *)
Inductive Output : Type :=
| PrintPrompt (prompt : string)
| PrintRendered (str : string)
| PrintPlain (str : string)
| PrintInvalidToolName (name : string)
| PrintServerNotFound (serverName : string)
| PrintArgsParseFailed (err : error)
| PrintToolError (errMsg : string)
| PrintBlankLine
| PrintSlash (command : string)
| PrintUnknownCommand (prompt : string)
| LogToolCall (name : string)
| LogUsage (input output : Z)
| LogOverloaded (attempt : Z) (backoff : Z)
| LogRenderFailed (err : error).

(** The part of the machine state [runPrompt] reads and writes. *)
Record World : Type := Build_World {
  messages : list HistoryMessage;
  output : list Output;
  providerCalls : nat;
  toolCalls : nat;
  slept : list Z
}.

Definition emit (o : Output) (w : World) : World :=
  {| messages := messages w; output := output w ++ [o];
     providerCalls := providerCalls w; toolCalls := toolCalls w;
     slept := slept w |}.

Definition appendMessage (m : HistoryMessage) (w : World) : World :=
  {| messages := messages w ++ [m]; output := output w;
     providerCalls := providerCalls w; toolCalls := toolCalls w;
     slept := slept w |}.

Definition setMessages (ms : list HistoryMessage) (w : World) : World :=
  {| messages := ms; output := output w;
     providerCalls := providerCalls w; toolCalls := toolCalls w;
     slept := slept w |}.

Definition countProviderCall (w : World) : World :=
  {| messages := messages w; output := output w;
     providerCalls := S (providerCalls w); toolCalls := toolCalls w;
     slept := slept w |}.

Definition countToolCall (w : World) : World :=
  {| messages := messages w; output := output w;
     providerCalls := providerCalls w; toolCalls := S (toolCalls w);
     slept := slept w |}.

Definition sleep (d : Z) (w : World) : World :=
  {| messages := messages w; output := output w;
     providerCalls := providerCalls w; toolCalls := toolCalls w;
     slept := slept w ++ [d] |}.

Definition initialWorld : World :=
  {| messages := []; output := []; providerCalls := 0; toolCalls := 0;
     slept := [] |}.

(* ===================================================================== *)
(** * Conversation engine: [runPrompt] *)
(* ===================================================================== *)

Module Engine.

(** The retry policy constants; durations in nanoseconds. *)
Definition second : Z := 1000000000.
Definition initialBackoff : Z := 1 * second.
Definition maxBackoff : Z := 30 * second.
Definition maxRetries : Z := 5.

(** [int64] arithmetic of [time.Duration]. *)
Definition wrap64 (z : Z) : Z := (z + 2 ^ 63) mod 2 ^ 64 - 2 ^ 63.

Definition LF : string := String (ascii_of_nat 10) EmptyString.

Definition nonEmpty (s : string) : bool := negb (String.eqb s "").

(** [strings.Contains(err.Error(), "overloaded_error")]. *)
Definition isOverloaded (err : error) : bool :=
  strings.Contains err "overloaded_error".

(** [backoff *= 2; if backoff > maxBackoff { backoff = maxBackoff }]. *)
Definition nextBackoff (backoff : Z) : Z :=
  let backoff := wrap64 (backoff * 2) in
  if backoff >? maxBackoff then maxBackoff else backoff.

(** The [for] loop around [provider.CreateMessage]. One unit of [fuel]
    per iteration; [retryFuel] below is enough for every provider. *)
Fixpoint retryLoop (fuel : nat) (provider : Provider) (tools : list Tool)
    (prompt : string) (llmMessages : list HistoryMessage)
    (backoff retries : Z) (w : World) : option (World * (Message + error)) :=
  match fuel with
  | O => None
  | S fuel' =>
      let r := provider (providerCalls w) prompt llmMessages tools in
      let w := countProviderCall w in
      match r with
      | inl message => Some (w, inl message)
      | inr err =>
          if isOverloaded err then
            if retries >=? maxRetries then
              Some (w, inr "claude 当前过载，请稍后重试")
            else
              let w := emit (LogOverloaded (retries + 1) backoff) w in
              let w := sleep backoff w in
              retryLoop fuel' provider tools prompt llmMessages
                        (nextBackoff backoff) (retries + 1) w
          else Some (w, inr err)
      end
  end.

Definition retryFuel : nat := S (Z.to_nat maxRetries).

(** The state of the tool loop of one assistant turn. *)
Record Dispatch : Type := Build_Dispatch {
  messageContent : list ContentBlock;
  toolResults : list ContentBlock;
  world : World
}.

(** [resultText]: every text item followed by one space. *)
Definition resultText (content : list McpContent) : string :=
  fold_left
    (fun acc item =>
       match item with
       | TextContent text => acc ++ text ++ " "
       | _ => acc
       end)
    content "".

(** [parts := strings.Split(name, "__")] accepted only with two parts. *)
Definition resolveToolName (name : string) : option (string * string) :=
  match strings.Split name "__" with
  | [serverName; toolName] => Some (serverName, toolName)
  | _ => None
  end.

(** The [tool_use] block appended for a tool call. *)
Definition toolUseOf (toolCall : ToolCall) : ContentBlock :=
  toolUseBlock (GetID toolCall) (GetName toolCall)
               (json_Marshal (GetArguments toolCall)).

(** The usage line, logged when a counter is positive. *)
Definition logUsage (message : Message) (w : World) : World :=
  let '(inputTokens, outputTokens) := GetUsage message in
  if (inputTokens >? 0) || (outputTokens >? 0)
  then emit (LogUsage inputTokens outputTokens) w else w.

(** One iteration of [for _, toolCall := range message.GetToolCalls()]. *)
Definition dispatchToolCall (mcpClients : gmap string MCPClient)
    (message : Message) (d : Dispatch) (toolCall : ToolCall) : Dispatch :=
  let w := emit (LogToolCall (GetName toolCall)) (world d) in
  let input := json_Marshal (GetArguments toolCall) in
  let messageContent : list ContentBlock :=
    (messageContent d ++ [toolUseOf toolCall])%list in
  let w := logUsage message w in
  match resolveToolName (GetName toolCall) with
  | None =>
      {| messageContent := messageContent; toolResults := toolResults d;
         world := emit (PrintInvalidToolName (GetName toolCall)) w |}
  | Some (serverName, toolName) =>
      match mcpClients !! serverName with
      | None =>
          {| messageContent := messageContent; toolResults := toolResults d;
             world := emit (PrintServerNotFound serverName) w |}
      | Some mcpClient =>
          match json_Unmarshal input with
          | inr err =>
              {| messageContent := messageContent;
                 toolResults := toolResults d;
                 world := emit (PrintArgsParseFailed err) w |}
          | inl toolArgs =>
              let outcome := CallTool mcpClient (toolCalls w) toolName toolArgs in
              let w := countToolCall w in
              match outcome with
              | CallError err =>
                  let errMsg := "调用工具 " ++ toolName ++ " 错误: " ++ err in
                  {| messageContent := messageContent;
                     toolResults :=
                       (toolResults d
                          ++ [toolResultBlock (GetID toolCall) ""
                                (ContentBlocks [textBlock errMsg])])%list;
                     world := emit (PrintToolError errMsg) w |}
              | CallResult None =>
                  {| messageContent := messageContent;
                     toolResults := toolResults d; world := w |}
              | CallResult (Some content) =>
                  {| messageContent := messageContent;
                     toolResults :=
                       (toolResults d
                          ++ [toolResultBlock (GetID toolCall)
                                (strings.TrimSpace (resultText content))
                                (ContentMcp content)])%list;
                     world := w |}
              end
          end
      end
  end.

(** The tool loop over a list of calls, then over those of the message. *)
Definition dispatchList (mcpClients : gmap string MCPClient)
    (message : Message) (toolCalls : list ToolCall) (d : Dispatch) : Dispatch :=
  fold_left (dispatchToolCall mcpClients message) toolCalls d.

Definition dispatchToolCalls (mcpClients : gmap string MCPClient)
    (message : Message) (d : Dispatch) : Dispatch :=
  dispatchList mcpClients message (GetToolCalls message) d.

Definition userMessage (prompt : string) : HistoryMessage :=
  {| Role := "user"; Content := [textBlock prompt] |}.
Definition toolMessage (toolResult : ContentBlock) : HistoryMessage :=
  {| Role := "tool"; Content := [toolResult] |}.

(** Rendering of the returned text: the header, then the text block. The
    result is the new world and the initial [messageContent], or the
    error of [updateRenderer]. *)
Definition renderText (term : Terminal) (message : Message) (w : World)
    : World * (list ContentBlock + error) :=
  let w :=
    match Render term (LF ++ "Assistant: ") with
    | inl str => if nonEmpty (GetContent message)
                 then emit (PrintRendered str) w else w
    | inr _ => w
    end in
  if nonEmpty (GetContent message) then
    match updateRenderer term with
    | Some err => (w, inr ("更新渲染器失败: " ++ err))
    | None =>
        let w :=
          match Render term (GetContent message ++ LF) with
          | inr err =>
              emit (PrintPlain (GetContent message ++ LF))
                   (emit (LogRenderFailed err) w)
          | inl str => emit (PrintRendered str) w
          end in
        (w, inl [textBlock (GetContent message)])
    end
  else (w, inl []).

(** Step 1: a non-empty prompt is echoed and appended as a user message. *)
Definition acceptPrompt (prompt : string) (w : World) : World :=
  if nonEmpty prompt
  then appendMessage (userMessage prompt) (emit (PrintPrompt prompt) w)
  else w.

(** The assistant message appended after the tool loop. *)
Definition assistantMessage (message : Message) (d : Dispatch)
    : HistoryMessage :=
  {| Role := GetRole message; Content := messageContent d |}.

(** One [tool] message per tool result. *)
Definition appendToolMessages (results : list ContentBlock) (w : World)
    : World :=
  fold_left (fun w toolResult => appendMessage (toolMessage toolResult) w)
            results w.

(** The end of the body: the assistant message is appended; with tool
    results, one [tool] message each and the recursive call [again] with
    an empty prompt; without, a blank line and nil. *)
Definition finishTurn (again : string -> World -> option (World * option error))
    (message : Message) (d : Dispatch) : option (World * option error) :=
  let w := appendMessage (assistantMessage message d) (world d) in
  match toolResults d with
  | [] => Some (emit PrintBlankLine w, None)
  | _ :: _ => again "" (appendToolMessages (toolResults d) w)
  end.

(** The body of [runPrompt], with the recursive call as [again]. [None]
    is passed on from [again]; the retry loop itself never yields it. *)
Definition runPromptBody
    (again : string -> World -> option (World * option error))
    (provider : Provider) (term : Terminal)
    (mcpClients : gmap string MCPClient) (tools : list Tool)
    (prompt : string) (w : World) : option (World * option error) :=
  let w := acceptPrompt prompt w in
  let llmMessages := messages w in
  match retryLoop retryFuel provider tools prompt llmMessages
                  initialBackoff 0 w with
  | None => None
  | Some (w, inr err) => Some (w, Some err)
  | Some (w, inl message) =>
      match renderText term message w with
      | (w, inr err) => Some (w, Some err)
      | (w, inl messageContent) =>
          finishTurn again message
            (dispatchToolCalls mcpClients message
               {| messageContent := messageContent; toolResults := [];
                  world := w |})
      end
  end.

(** [runPrompt]. [fuel] bounds the depth of the continuation recursion,
    which the source leaves unbounded; [None] means the bound was hit.
    The result is the final world and the returned [error] ([None] for
    nil). *)
Fixpoint runPrompt (fuel : nat) (provider : Provider) (term : Terminal)
    (mcpClients : gmap string MCPClient) (tools : list Tool)
    (prompt : string) (w : World) : option (World * option error) :=
  match fuel with
  | O => None
  | S fuel' =>
      runPromptBody (runPrompt fuel' provider term mcpClients tools)
                    provider term mcpClients tools prompt w
  end.

(* ------------------------------------------------------------------- *)
(** ** Session loop: the [for] loop of [runMCPHost] *)

(** What the input form hands back: a submitted prompt, the user's
    Ctrl+C ([huh.ErrUserAborted]) or another error. *)
Inductive FormResult : Type :=
| Submitted (prompt : string)
| UserAborted
| FormError (err : error).

(** [handleSlashCommand]: not a command, a command that was handled, or
    [/quit], whose deferred [os.Exit(0)] ends the process. *)
Inductive SlashResult : Type :=
| NotHandled
| Handled (o : Output)
| HandledExit.

Definition handleSlashCommand (prompt : string) : SlashResult :=
  if negb (strings.HasPrefix prompt "/") then NotHandled
  else
    let command := strings.ToLower (strings.TrimSpace prompt) in
    if String.eqb command "/tools" then Handled (PrintSlash "/tools")
    else if String.eqb command "/help" then Handled (PrintSlash "/help")
    else if String.eqb command "/history" then Handled (PrintSlash "/history")
    else if String.eqb command "/servers" then Handled (PrintSlash "/servers")
    else if String.eqb command "/quit" then HandledExit
    else Handled (PrintUnknownCommand prompt).

(** How the loop stops: [runMCPHost] returns (nil or an error), the
    process exits, [pruneMessages] panics, the input script is used up
    and the form waits for the next prompt, or the recursion bound of
    [runPrompt] was hit. *)
Inductive SessionEnd : Type :=
| Returned (err : option error)
| Exited (code : Z)
| Panicked
| AwaitingInput
| OutOfFuel.

(** [if len(messages) > 0 { messages = pruneMessages(messages) }];
    [None] is the panic of [pruneMessages]. *)
Definition pruneBeforeTurn (messageWindow : Z) (w : World) : option World :=
  if (0 <? length (messages w))%nat
  then (fun ms => setMessages ms w)
         <$> Pruner.pruneMessages messageWindow (messages w)
  else Some w.

Fixpoint sessionLoop (fuel : nat) (provider : Provider) (term : Terminal)
    (mcpClients : gmap string MCPClient) (allTools : list Tool)
    (messageWindow : Z) (inputs : list FormResult) (w : World)
    : SessionEnd * World :=
  match inputs with
  | [] => (AwaitingInput, w)
  | UserAborted :: _ =>
      (Returned None, emit (PrintPlain (LF ++ "再见！" ++ LF)) w)
  | FormError err :: _ => (Returned (Some err), w)
  | Submitted prompt :: rest =>
      if String.eqb prompt "" then
        sessionLoop fuel provider term mcpClients allTools messageWindow rest w
      else
        match handleSlashCommand prompt with
        | Handled o =>
            sessionLoop fuel provider term mcpClients allTools messageWindow
                        rest (emit o w)
        | HandledExit =>
            (Exited 0, emit (PrintPlain (LF ++ "Goodbye!" ++ LF)) w)
        | NotHandled =>
            match pruneBeforeTurn messageWindow w with
            | None => (Panicked, w)
            | Some w =>
                match runPrompt fuel provider term mcpClients allTools prompt
                                w with
                | None => (OutOfFuel, w)
                | Some (w, Some err) => (Returned (Some err), w)
                | Some (w, None) =>
                    sessionLoop fuel provider term mcpClients allTools
                                messageWindow rest w
                end
            end
        end
  end.

(** [Execute]: the exit status of the process once the session has
    ended, when it has. A panic ends a Go program with status 2. *)
Definition exitStatus (e : SessionEnd) : option Z :=
  match e with
  | Returned None => Some 0
  | Returned (Some _) => Some 1
  | Exited code => Some code
  | Panicked => Some 2
  | AwaitingInput | OutOfFuel => None
  end.

End Engine.

(* ===================================================================== *)
(** * Tool registry: [mcpToolsToAnthropicTools], [createMCPClients] *)
(* ===================================================================== *)

Module Registry.

Definition transportStdio : string := "stdio".
Definition transportSSE : string := "sse".

(** [fmt.Sprintf("%s__%s", serverName, tool.Name)]. *)
Definition namespacedName (serverName toolName : string) : string :=
  serverName ++ "__" ++ toolName.

Definition mcpToolsToAnthropicTools (serverName : string)
    (mcpTools : list Tool) : list Tool :=
  map (fun tool =>
         {| ToolName := namespacedName serverName (ToolName tool);
            Description := Description tool;
            InputSchema :=
              {| SchemaType := SchemaType (InputSchema tool);
                 Properties := Properties (InputSchema tool);
                 Required := Required (InputSchema tool) |} |})
      mcpTools.

(** The two implementations of the [ServerConfig] interface. [Env] is a
    Go map, given in the order its [range] yields; [Headers] may be nil. *)
Inductive ServerConfig : Type :=
| STDIOServerConfig (Command : string) (Args : list string)
                    (Env : list (string * string))
| SSEServerConfig (Url : string) (Headers : option (list string)).

Definition GetType (c : ServerConfig) : string :=
  match c with
  | STDIOServerConfig _ _ _ => transportStdio
  | SSEServerConfig _ _ => transportSSE
  end.

Record ServerConfigWrapper : Type := Build_ServerConfigWrapper {
  Config : ServerConfig
}.

(** The header map built from ["Key: value"] lines. *)
Definition parseHeaders (headers : list string) : gmap string string :=
  fold_left
    (fun acc header =>
       match strings.SplitN2 header ":" with
       | [key; value] =>
           <[strings.TrimSpace key := strings.TrimSpace value]> acc
       | _ => acc
       end)
    headers ∅.

(** The outside world as seen by [createMCPClients], per configured
    server [name]: whether the constructor, [Start] and [Initialize]
    report an error, and how the server answers tool calls. *)
Record McpWorld : Type := Build_McpWorld {
  NewSSEMCPClient : string -> string -> option (gmap string string)
                    -> option error;
  Start : string -> option error;
  NewStdioMCPClient : string -> string -> list string -> list string
                      -> option error;
  Initialize : string -> option error;
  serve : string -> nat -> string -> list (string * string) -> CallToolOutcome
}.

Definition clientOf (mw : McpWorld) (name : string) : MCPClient :=
  {| handle := name; CallTool := serve mw name |}.

(** What happens to the clients, in order: the constructor of a stdio
    client returned it (its subprocess runs), the constructor of an SSE
    client returned it, [Start] opened its stream, the handshake
    succeeded, [Close] was called on it. *)
Inductive ConnEvent : Type :=
| Spawned (name : string)
| Constructed (name : string)
| Started (name : string)
| Initialized (name : string)
| Closed (name : string).

(** [for _, c := range clients { c.Close() }]. *)
Definition closeAll (clients : gmap string MCPClient) (trace : list ConnEvent)
    : list ConnEvent :=
  (trace ++ map (fun kc => Closed (handle (snd kc))) (map_to_list clients))%list.

(** The creation step of one iteration: the new trace and the client or
    the error. The test [GetType() == transportSSE] followed by the type
    assertion is the match on the variant. *)
Definition newClient (mw : McpWorld) (name : string)
    (server : ServerConfigWrapper) (trace : list ConnEvent)
    : list ConnEvent * (MCPClient + error) :=
  match Config server with
  | SSEServerConfig url headers =>
      let options := parseHeaders <$> headers in
      match NewSSEMCPClient mw name url options with
      | Some err => (trace, inr err)
      | None =>
          let trace := (trace ++ [Constructed name])%list in
          match Start mw name with
          | Some err => (trace, inr err)
          | None => ((trace ++ [Started name])%list, inl (clientOf mw name))
          end
      end
  | STDIOServerConfig command args env =>
      let env := map (fun kv => fst kv ++ "=" ++ snd kv) env in
      match NewStdioMCPClient mw name command env args with
      | Some err => (trace, inr err)
      | None => ((trace ++ [Spawned name])%list, inl (clientOf mw name))
      end
  end.

(** The loop of [createMCPClients] over the entries of
    [config.MCPServers] in [range] order. *)
Fixpoint createLoop (mw : McpWorld)
    (servers : list (string * ServerConfigWrapper))
    (clients : gmap string MCPClient) (trace : list ConnEvent)
    : list ConnEvent * (gmap string MCPClient + error) :=
  match servers with
  | [] => (trace, inl clients)
  | (name, server) :: rest =>
      match newClient mw name server trace with
      | (trace, inr err) =>
          (closeAll clients trace,
           inr ("创建 MCP 客户端失败（" ++ name ++ "）: " ++ err))
      | (trace, inl client) =>
          match Initialize mw name with
          | Some err =>
              (closeAll clients (trace ++ [Closed (handle client)])%list,
               inr ("初始化 MCP 客户端失败（" ++ name ++ "）: " ++ err))
          | None =>
              createLoop mw rest (<[name := client]> clients)
                         (trace ++ [Initialized name])%list
          end
      end
  end.

Definition createMCPClients (mw : McpWorld)
    (servers : list (string * ServerConfigWrapper))
    : list ConnEvent * (gmap string MCPClient + error) :=
  createLoop mw servers ∅ [].

(** The clients that a trace has created and not closed. A client counts
    from the moment its constructor returns it: what an unclosed client
    still holds (a subprocess, an event stream and its reader) is the
    client library's business, that [Close] was not called on it is the
    code's. *)
Definition liveStep (live : gset string) (e : ConnEvent) : gset string :=
  match e with
  | Spawned name | Constructed name | Started name => live ∪ {[name]}
  | Closed name => live ∖ {[name]}
  | Initialized _ => live
  end.

Definition live (trace : list ConnEvent) : gset string :=
  fold_left liveStep trace ∅.

End Registry.

(* ===================================================================== *)
(** * Vocabulary of the statements *)
(* ===================================================================== *)

Module Spec.
Import Engine.

(** Every call of the provider reports a transient overload. *)
Definition alwaysOverloaded (provider : Provider) : Prop :=
  forall n prompt llmMessages tools,
    exists err, provider n prompt llmMessages tools = inr err
                /\ isOverloaded err = true.

(** The delays [initial * 2^k] for [k < maxRetries]. *)
Definition backoffSchedule : list Z :=
  map (fun k => initialBackoff * 2 ^ Z.of_nat k) (seq 0 (Z.to_nat maxRetries)).

Definition total (delays : list Z) : Z := fold_right Z.add 0 delays.

(** A tool call the engine cannot route, with the line it prints: the
    name does not split into exactly [server__tool], or no client is
    registered under the server part. *)
Definition unresolved (mcpClients : gmap string MCPClient)
    (toolCall : ToolCall) : option Output :=
  match resolveToolName (GetName toolCall) with
  | None => Some (PrintInvalidToolName (GetName toolCall))
  | Some (serverName, _) =>
      match mcpClients !! serverName with
      | None => Some (PrintServerNotFound serverName)
      | Some _ => None
      end
  end.

(** A tool call whose server part names no registered client. *)
Definition unknownServer (mcpClients : gmap string MCPClient)
    (toolCall : ToolCall) : Prop :=
  exists serverName toolName,
    resolveToolName (GetName toolCall) = Some (serverName, toolName)
    /\ mcpClients !! serverName = None.

(** The world a tool-loop iteration has reached when it looks at the
    name: the call and the usage are logged. *)
Definition announced (message : Message) (toolCall : ToolCall) (w : World)
    : World :=
  logUsage message (emit (LogToolCall (GetName toolCall)) w).

(** The server [name] can be brought up: its client is created (and, for
    SSE, started) and the protocol handshake succeeds. *)
Definition serverUp (mw : Registry.McpWorld)
    (entry : string * Registry.ServerConfigWrapper) : bool :=
  match snd (Registry.newClient mw (fst entry) (snd entry) []) with
  | inl _ =>
      match Registry.Initialize mw (fst entry) with
      | None => true
      | Some _ => false
      end
  | inr _ => false
  end.

(** The server is an SSE server whose client is constructed and whose
    [Start] then fails. *)
Definition startFails (mw : Registry.McpWorld)
    (entry : string * Registry.ServerConfigWrapper) : bool :=
  match Registry.Config (snd entry) with
  | Registry.SSEServerConfig url headers =>
      match Registry.NewSSEMCPClient mw (fst entry) url
                                     (Registry.parseHeaders <$> headers),
            Registry.Start mw (fst entry) with
      | None, Some _ => true
      | _, _ => false
      end
  | Registry.STDIOServerConfig _ _ _ => false
  end.

End Spec.

(* ===================================================================== *)
(** * Concrete histories, providers and servers used as test inputs *)
(* ===================================================================== *)

Module Samples.

(** A history that holds a tool call without a result. *)
Definition danglingHistory : list HistoryMessage :=
  [ {| Role := "assistant"; Content := [toolUseBlock "t1" "calc__add" None] |} ].

(** A four-message history whose tool call "t0" and tool result for "t9"
    do not match. *)
Definition sampleHistory : list HistoryMessage :=
  [ {| Role := "user"; Content := [textBlock "add 1 and 2"] |};
    {| Role := "assistant"; Content := [toolUseBlock "t0" "calc__add" None] |};
    {| Role := "tool"; Content := [toolResultBlock "t9" "3" ContentNil] |};
    {| Role := "assistant"; Content := [textBlock "3"] |} ].

(** No rendering failure: the terminal prints what it is given. *)
Definition plainTerminal : Terminal :=
  {| updateRenderer := None; Render := fun str => inl str |}.

(** A provider that reports overload on every call. *)
Definition overloadedProvider : Provider :=
  fun _ _ _ _ => inr "anthropic: overloaded_error (529)".

(** One server, [calc]: [add] answers "3", [noop] succeeds with nil
    content, anything else is an error. *)
Definition calcClient : MCPClient :=
  {| handle := "calc";
     CallTool := fun _ toolName _ =>
       if String.eqb toolName "add" then CallResult (Some [TextContent "3"])
       else if String.eqb toolName "noop" then CallResult None
       else CallError "no such tool" |}.

Definition calcOnly : gmap string MCPClient := {[ "calc" := calcClient ]}.

Definition callAdd : ToolCall :=
  {| GetName := "calc__add"; GetID := "t1";
     GetArguments := ArgsObject [("a", "1"); ("b", "2")] |}.
Definition callGhost : ToolCall :=
  {| GetName := "ghost__run"; GetID := "t2"; GetArguments := ArgsObject [] |}.
Definition callBadName : ToolCall :=
  {| GetName := "badname"; GetID := "t3"; GetArguments := ArgsObject [] |}.
Definition callNoop : ToolCall :=
  {| GetName := "calc__noop"; GetID := "t4"; GetArguments := ArgsObject [] |}.

Definition toolTurn (calls : list ToolCall) : Message :=
  {| GetRole := "assistant"; GetContent := ""; GetToolCalls := calls;
     GetUsage := (0, 0) |}.
Definition finalTurn (text : string) : Message :=
  {| GetRole := "assistant"; GetContent := text; GetToolCalls := [];
     GetUsage := (0, 0) |}.

(** A provider that first requests the given tool calls and then, on
    every later call, answers with a final text. *)
Definition scriptedProvider (calls : list ToolCall) : Provider :=
  fun n _ _ _ =>
    match n with
    | O => inl (toolTurn calls)
    | S _ => inl (finalTurn "done")
    end.

Definition emptyDispatch : Engine.Dispatch :=
  {| Engine.messageContent := []; Engine.toolResults := [];
     Engine.world := initialWorld |}.

(** The tool loop of a turn that asks for [noop] and then [add]. *)
Definition noopAddDispatch : Engine.Dispatch :=
  Engine.dispatchToolCalls calcOnly (toolTurn [callNoop; callAdd])
    {| Engine.messageContent := []; Engine.toolResults := [];
       Engine.world :=
         countProviderCall (Engine.acceptPrompt "tidy up" initialWorld) |}.

(** A provider whose every call fails for good. *)
Definition brokenProvider : Provider :=
  fun _ _ _ _ => inr "connection refused".

(** Three configured servers; the handshake with the third fails. *)
Definition threeServers : list (string * Registry.ServerConfigWrapper) :=
  [ ("files", {| Registry.Config := Registry.STDIOServerConfig "mcp-files" [] [] |});
    ("search", {| Registry.Config :=
                    Registry.SSEServerConfig "http://localhost:8080/sse"
                      (Some ["Authorization: Bearer k"]) |});
    ("calc", {| Registry.Config := Registry.STDIOServerConfig "mcp-calc" [] [] |}) ].

Definition allUp : Registry.McpWorld :=
  {| Registry.NewSSEMCPClient := fun _ _ _ => None;
     Registry.Start := fun _ => None;
     Registry.NewStdioMCPClient := fun _ _ _ _ => None;
     Registry.Initialize := fun _ => None;
     Registry.serve := fun _ _ _ _ => CallResult None |}.

Definition calcDown : Registry.McpWorld :=
  {| Registry.NewSSEMCPClient := fun _ _ _ => None;
     Registry.Start := fun _ => None;
     Registry.NewStdioMCPClient := fun _ _ _ _ => None;
     Registry.Initialize := fun name =>
       if String.eqb name "calc" then Some "handshake failed" else None;
     Registry.serve := fun _ _ _ _ => CallResult None |}.

End Samples.

(* ===================================================================== *)
(** * Provider selection: [createProvider] *)
(* ===================================================================== *)

Module ProviderSetup.

(** The command-line flags [createProvider] reads. *)
Record Flags : Type := Build_Flags {
  anthropicAPIKey : string;
  anthropicBaseURL : string;
  openaiAPIKey : string;
  openaiBaseURL : string;
  googleAPIKey : string
}.

(** The constructors of the four provider packages. Those of [ollama]
    and [google] return an error besides the provider. *)
Record Backends : Type := Build_Backends {
  anthropic_NewProvider : string -> string -> string -> string -> Provider;
  ollama_NewProvider : string -> string -> Provider + error;
  openai_NewProvider : string -> string -> string -> string -> Provider;
  google_NewProvider : string -> string -> string -> Provider + error
}.

(** [apiKey := flag; if apiKey == "" { apiKey = os.Getenv(name) }]. *)
Definition orEnv (Getenv : string -> string) (apiKey name : string) : string :=
  if String.eqb apiKey "" then Getenv name else apiKey.

(** [createProvider]; [Getenv] is [os.Getenv], empty for an unset name. *)
Definition createProvider (backends : Backends) (flags : Flags)
    (Getenv : string -> string) (modelString systemPrompt : string)
    : Provider + error :=
  match strings.SplitN2 modelString ":" with
  | [provider; model] =>
      if String.eqb provider "anthropic" then
        let apiKey := orEnv Getenv (anthropicAPIKey flags) "ANTHROPIC_API_KEY" in
        if String.eqb apiKey "" then
          inr "未提供 Anthropic API 密钥，请使用 --anthropic-api-key 或设置 ANTHROPIC_API_KEY 环境变量"
        else inl (anthropic_NewProvider backends apiKey
                    (anthropicBaseURL flags) model systemPrompt)
      else if String.eqb provider "ollama" then
        ollama_NewProvider backends model systemPrompt
      else if String.eqb provider "openai" then
        let apiKey := orEnv Getenv (openaiAPIKey flags) "OPENAI_API_KEY" in
        if String.eqb apiKey "" then
          inr "未提供 OpenAI API 密钥，请使用 --openai-api-key 或设置 OPENAI_API_KEY 环境变量"
        else inl (openai_NewProvider backends apiKey
                    (openaiBaseURL flags) model systemPrompt)
      else if String.eqb provider "google" then
        let apiKey := orEnv Getenv (googleAPIKey flags) "GOOGLE_API_KEY" in
        let apiKey := orEnv Getenv apiKey "GEMINI_API_KEY" in
        google_NewProvider backends apiKey model systemPrompt
      else inr ("不支持的模型提供方: " ++ provider)
  | _ =>
      inr ("模型参数格式错误，应为 provider:model，实际收到 " ++ modelString)
  end.

End ProviderSetup.

(* ===================================================================== *)
(** * Slash commands: the text of [handleServersCommand] *)
(* ===================================================================== *)

Module Commands.
Import Engine Registry.

(** [strings.Join]. *)
Fixpoint Join (elems : list string) (sep : string) : string :=
  match elems with
  | [] => ""
  | [s] => s
  | s :: rest => s ++ sep ++ Join rest sep
  end.

(** One header of the listing: only the name is shown. A line without
    colon is left out. *)
Definition writeHeader (markdown header : string) : string :=
  match strings.SplitN2 header ":" with
  | [key; _] => markdown ++ "`" ++ strings.TrimSpace key ++ ": [REDACTED]`" ++ LF
  | _ => markdown
  end.

(** The body of the loop over [config.MCPServers] for one server. *)
Definition writeServer (markdown : string)
    (entry : string * ServerConfigWrapper) : string :=
  let markdown := markdown ++ "# " ++ fst entry ++ LF ++ LF in
  let markdown :=
    match Config (snd entry) with
    | SSEServerConfig url headers =>
        let markdown := markdown ++ "*Url*" ++ LF in
        let markdown := markdown ++ "`" ++ url ++ "`" ++ LF ++ LF in
        let markdown := markdown ++ "*headers*" ++ LF in
        match headers with
        | Some headers => fold_left writeHeader headers markdown
        | None => markdown ++ "*None*" ++ LF
        end
    | STDIOServerConfig command args _ =>
        let markdown := markdown ++ "*Command*" ++ LF in
        let markdown := markdown ++ "`" ++ command ++ "`" ++ LF ++ LF in
        let markdown := markdown ++ "*Arguments*" ++ LF in
        if (0 <? length args)%nat
        then markdown ++ "`" ++ Join args " " ++ "`" ++ LF
        else markdown ++ "*None*" ++ LF
    end in
  markdown ++ LF.

(** The markdown [handleServersCommand] builds before rendering it; the
    servers come in the [range] order of the map. *)
Definition serversMarkdown (servers : list (string * ServerConfigWrapper))
    : string :=
  match servers with
  | [] => "No servers configured." ++ LF
  | _ :: _ => fold_left writeServer servers ""
  end.

(** What [handleServersCommand] prints: an error line when the renderer
    cannot be updated or cannot render, the rendered listing otherwise. *)
Definition handleServersCommand (term : Terminal)
    (servers : list (string * ServerConfigWrapper)) : Output :=
  match updateRenderer term with
  | Some err => PrintPlain (LF ++ "Error updating renderer: " ++ err ++ LF)
  | None =>
      match Render term (serversMarkdown servers) with
      | inr err => PrintPlain (LF ++ "Error rendering servers: " ++ err ++ LF)
      | inl rendered => PrintRendered (LF ++ rendered ++ LF)
      end
  end.

End Commands.

(* ===================================================================== *)
(** * Start-up and shutdown: [loadSystemPrompt], [runMCPHost] *)
(* ===================================================================== *)

Module Host.
Import Engine Registry ProviderSetup.

(** Everything [runMCPHost] asks of its surroundings: the flags, the
    file system and the JSON decoder behind [loadSystemPrompt], the
    outcome of [loadMCPConfig], the provider constructors, the tool
    servers, the terminal and the user's input. [Close] is the error a
    client's [Close] reports, [ListTools] the catalogue of a server. *)
Record HostEnv : Type := Build_HostEnv {
  systemPromptFile : string;
  ReadFile : string -> string + error;
  decodeSystemPrompt : string -> string + error;
  modelFlag : string;
  flags : Flags;
  Getenv : string -> string;
  backends : Backends;
  providerName : string;
  loadMCPConfig : list (string * ServerConfigWrapper) + error;
  mcp : McpWorld;
  ListTools : string -> list Tool + error;
  Close : string -> option error;
  term : Terminal;
  messageWindow : Z
}.

(** [loadSystemPrompt]. *)
Definition loadSystemPrompt (env : HostEnv) (filePath : string)
    : string + error :=
  if String.eqb filePath "" then inl ""
  else
    match ReadFile env filePath with
    | inr err => inr ("读取配置文件失败: " ++ err)
    | inl data =>
        match decodeSystemPrompt env data with
        | inr err => inr ("解析配置文件失败: " ++ err)
        | inl systemPrompt => inl systemPrompt
        end
    end.

(** The lines [runMCPHost] itself prints and logs. *)
Inductive HostEvent : Type :=
| Println (line : string)
| LogModelLoaded (provider model : string)
| LogServerConnected (name : string)
| LogListToolsFailed (server : string) (err : error)
| LogToolsLoaded (server : string) (count : nat)
| LogClosing
| LogCloseFailed (name : string) (err : error)
| LogServerClosed (name : string).

(** One iteration of the loop that collects the tools: a server whose
    [ListTools] fails is logged and skipped. *)
Definition collectStep (env : HostEnv) (acc : list Tool * list HostEvent)
    (entry : string * MCPClient) : list Tool * list HostEvent :=
  let '(allTools, log) := acc in
  let serverName := fst entry in
  match ListTools env (handle (snd entry)) with
  | inr err => (allTools, (log ++ [LogListToolsFailed serverName err])%list)
  | inl tools =>
      ((allTools ++ mcpToolsToAnthropicTools serverName tools)%list,
       (log ++ [LogToolsLoaded serverName (length tools)])%list)
  end.

(** The loop over [mcpClients] that fills [allTools]. *)
Definition collectTools (env : HostEnv) (mcpClients : gmap string MCPClient)
    : list Tool * list HostEvent :=
  fold_left (collectStep env) (map_to_list mcpClients)
            (([] : list Tool), ([] : list HostEvent)).

(** The deferred function: every client of the map is closed. *)
Definition closeClients (env : HostEnv) (mcpClients : gmap string MCPClient)
    : list HostEvent :=
  LogClosing
  :: map (fun entry =>
            match Close env (handle (snd entry)) with
            | Some err => LogCloseFailed (fst entry) err
            | None => LogServerClosed (fst entry)
            end)
         (map_to_list mcpClients).

(** A run of [runMCPHost]: how it ended, the state of the conversation,
    what was printed and logged before and after the loop, and what
    happened to the connections. *)
Record HostRun : Type := Build_HostRun {
  ending : SessionEnd;
  finalWorld : World;
  startup : list HostEvent;
  shutdown : list HostEvent;
  connections : list ConnEvent
}.

Definition startupFailure (err : error) (log : list HostEvent)
    (trace : list ConnEvent) : HostRun :=
  {| ending := Returned (Some err); finalWorld := initialWorld;
     startup := log; shutdown := []; connections := trace |}.

(** [runMCPHost] on a script of form results. The deferred function runs
    when the function returns and when it panics, not when [/quit] ends
    the process with [os.Exit]. *)
Definition runMCPHost (fuel : nat) (env : HostEnv) (inputs : list FormResult)
    : HostRun :=
  match loadSystemPrompt env (systemPromptFile env) with
  | inr err => startupFailure ("加载系统提示失败: " ++ err) [] []
  | inl systemPrompt =>
      let log := [Println "开始创建 provider "] in
      match createProvider (backends env) (flags env) (Getenv env)
                           (modelFlag env) systemPrompt with
      | inr err => startupFailure ("创建提供者失败: " ++ err) log []
      | inl provider =>
          match strings.SplitN2 (modelFlag env) ":" with
          | [_; model] =>
              let log := (log ++ [LogModelLoaded (providerName env) model;
                                  Println "开始加载 MCP 配置"])%list in
              match loadMCPConfig env with
              | inr err => startupFailure ("加载 MCP 配置失败: " ++ err) log []
              | inl servers =>
                  let '(trace, created) := createMCPClients (mcp env) servers in
                  match created with
                  | inr err =>
                      startupFailure ("创建 MCP 客户端失败: " ++ err)
                                     (log ++ [Println "没有 mcpClients "])%list
                                     trace
                  | inl mcpClients =>
                      let log :=
                        if (length (map_to_list mcpClients) =? 0)%nat
                        then (log ++ [Println "没有 mcpClients "])%list
                        else log in
                      let log :=
                        (log ++ map (fun entry => LogServerConnected (fst entry))
                                    (map_to_list mcpClients))%list in
                      let '(allTools, toolLog) := collectTools env mcpClients in
                      let log := (log ++ toolLog)%list in
                      match updateRenderer (term env) with
                      | Some err =>
                          {| ending := Returned (Some ("初始化渲染器失败: " ++ err));
                             finalWorld := initialWorld;
                             startup := log;
                             shutdown := closeClients env mcpClients;
                             connections := closeAll mcpClients trace |}
                      | None =>
                          let '(e, w) :=
                            sessionLoop fuel provider (term env) mcpClients
                                        allTools (messageWindow env) inputs
                                        initialWorld in
                          match e with
                          | Returned _ | Panicked =>
                              {| ending := e; finalWorld := w; startup := log;
                                 shutdown := closeClients env mcpClients;
                                 connections := closeAll mcpClients trace |}
                          | Exited _ | AwaitingInput | OutOfFuel =>
                              {| ending := e; finalWorld := w; startup := log;
                                 shutdown := []; connections := trace |}
                          end
                      end
                  end
              end
          | _ =>
              {| ending := Panicked; finalWorld := initialWorld;
                 startup := log; shutdown := []; connections := [] |}
          end
      end
  end.

End Host.

(* ===================================================================== *)
(** * Further vocabulary *)
(* ===================================================================== *)

Module Props.
Import Engine Registry.

(** [h'] is [h] with some messages left out and, in the messages that
    stay, some blocks left out; roles and order are kept. *)
Inductive Thinned : list HistoryMessage -> list HistoryMessage -> Prop :=
| thinned_nil : Thinned [] []
| thinned_drop m h' h : Thinned h' h -> Thinned h' (m :: h)
| thinned_keep m' m h' h :
    Role m' = Role m -> sublist (Content m') (Content m) ->
    Thinned h' h -> Thinned (m' :: h') (m :: h).

(** The last [w] messages of a history. *)
Definition window (w : Z) (h : list HistoryMessage) : list HistoryMessage :=
  drop (length h - Z.to_nat w) h.

(** Every [tool_result] of the history refers to a [tool_use] of it. *)
Definition NoOrphan (h : list HistoryMessage) : Prop :=
  forall i, In i (Pruner.toolResultRefsOf h) -> In i (Pruner.toolUseIdsOf h).

(** The first [k] delays of a retry loop that starts with [backoff]. *)
Fixpoint backoffs (k : nat) (backoff : Z) : list Z :=
  match k with
  | O => []
  | S k' => backoff :: backoffs k' (nextBackoff backoff)
  end.

(** The text block an answer contributes to the assistant message. *)
Definition textContent (message : Message) : list ContentBlock :=
  if nonEmpty (GetContent message) then [textBlock (GetContent message)]
  else [].

(** The tool call reaches a tool: its name splits in two, the server is
    registered and the arguments can be encoded. *)
Definition routable (mcpClients : gmap string MCPClient) (toolCall : ToolCall)
    : bool :=
  match resolveToolName (GetName toolCall) with
  | Some (serverName, _) =>
      match mcpClients !! serverName, GetArguments toolCall with
      | Some _, ArgsObject _ => true
      | _, _ => false
      end
  | None => false
  end.

(** The server a connection event is about. *)
Definition eventName (e : ConnEvent) : string :=
  match e with
  | Spawned n | Constructed n | Started n | Initialized n | Closed n => n
  end.

(** What the listing shows of a header line. *)
Definition headerKey (header : string) : option string :=
  match strings.SplitN2 header ":" with
  | [key; _] => Some (strings.TrimSpace key)
  | _ => None
  end.

(** Two configured servers that differ at most in what follows the
    first colon of their header lines and in their environment. *)
Definition sameListing (e1 e2 : string * ServerConfigWrapper) : Prop :=
  fst e1 = fst e2
  /\ match Config (snd e1), Config (snd e2) with
     | SSEServerConfig url1 headers1, SSEServerConfig url2 headers2 =>
         url1 = url2
         /\ option_map (omap headerKey) headers1
            = option_map (omap headerKey) headers2
     | STDIOServerConfig command1 args1 _, STDIOServerConfig command2 args2 _ =>
         command1 = command2 /\ args1 = args2
     | _, _ => False
     end.

(** A prompt the session loop does not pass to the model. *)
Definition skipped (input : FormResult) : Prop :=
  match input with
  | Submitted prompt =>
      prompt = "" \/ strings.HasPrefix prompt "/" = true
  | _ => False
  end.

(** The provider is overloaded on the [k] calls that start at call [n]
    and answers the next one. *)
Definition recoversAfter (provider : Provider) (n k : nat) (prompt : string)
    (llmMessages : list HistoryMessage) (tools : list Tool)
    (message : Message) : Prop :=
  (forall i, (i < k)%nat ->
     exists err, provider (n + i)%nat prompt llmMessages tools = inr err
                 /\ isOverloaded err = true)
  /\ provider (n + k)%nat prompt llmMessages tools = inl message.

End Props.

(* ===================================================================== *)
(** * Further sample data *)
(* ===================================================================== *)

Module MoreSamples.
Import Samples.

(** The second server refuses the connection when it is started. *)
Definition searchDown : Registry.McpWorld :=
  {| Registry.NewSSEMCPClient := fun _ _ _ => None;
     Registry.Start := fun name =>
       if String.eqb name "search" then Some "connection refused" else None;
     Registry.NewStdioMCPClient := fun _ _ _ _ => None;
     Registry.Initialize := fun _ => None;
     Registry.serve := fun _ _ _ _ => CallResult None |}.

(** Two spaces beyond ASCII, in UTF-8: U+00A0 and U+3000. *)
Definition NBSP : string :=
  String (ascii_of_nat 194) (String (ascii_of_nat 160) "").
Definition IDEOGRAPHIC_SPACE : string :=
  String (ascii_of_nat 227)
         (String (ascii_of_nat 128) (String (ascii_of_nat 128) "")).

(** A server [calc] whose answers come padded with such spaces. *)
Definition paddedClient : MCPClient :=
  {| handle := "calc";
     CallTool := fun _ _ _ =>
       CallResult (Some [TextContent (NBSP ++ "3" ++ IDEOGRAPHIC_SPACE)]) |}.

Definition paddedOnly : gmap string MCPClient := {[ "calc" := paddedClient ]}.

(** A finished tool round trip after an older question. *)
Definition pairedHistory : list HistoryMessage :=
  [ Engine.userMessage "hello";
    {| Role := "assistant"; Content := [textBlock "hi"] |};
    Engine.userMessage "add 1 and 2";
    {| Role := "assistant";
       Content := [textBlock "let me see"; Engine.toolUseOf callAdd] |};
    Engine.toolMessage (toolResultBlock "t1" "3" (ContentMcp [TextContent "3"]));
    {| Role := "assistant"; Content := [textBlock "3"] |} ].

(** The second server is started and then fails the handshake. *)
Definition searchRefuses : Registry.McpWorld :=
  {| Registry.NewSSEMCPClient := fun _ _ _ => None;
     Registry.Start := fun _ => None;
     Registry.NewStdioMCPClient := fun _ _ _ _ => None;
     Registry.Initialize := fun name =>
       if String.eqb name "search" then Some "handshake failed" else None;
     Registry.serve := fun _ _ _ _ => CallResult None |}.

(** The three servers with another secret in the header. *)
Definition threeServersRotated : list (string * Registry.ServerConfigWrapper) :=
  [ ("files", {| Registry.Config :=
                   Registry.STDIOServerConfig "mcp-files" [] [("TOKEN", "t")] |});
    ("search", {| Registry.Config :=
                    Registry.SSEServerConfig "http://localhost:8080/sse"
                      (Some ["Authorization: Bearer other:key"; "no colon"]) |});
    ("calc", {| Registry.Config := Registry.STDIOServerConfig "mcp-calc" [] [] |}) ].

(** A provider that answers every call with the same text. *)
Definition echoProvider (tag : string) : Provider :=
  fun _ _ _ _ => inl (finalTurn tag).

(** Provider constructors that record what they were given. *)
Definition sampleBackends : ProviderSetup.Backends :=
  {| ProviderSetup.anthropic_NewProvider := fun apiKey _ model _ =>
       echoProvider ("anthropic " ++ apiKey ++ " " ++ model);
     ProviderSetup.ollama_NewProvider := fun model _ =>
       inl (echoProvider ("ollama " ++ model));
     ProviderSetup.openai_NewProvider := fun apiKey _ model _ =>
       echoProvider ("openai " ++ apiKey ++ " " ++ model);
     ProviderSetup.google_NewProvider := fun apiKey model _ =>
       if String.eqb apiKey "" then inr "api key is required"
       else inl (echoProvider ("google " ++ apiKey ++ " " ++ model)) |}.

Definition noFlags : ProviderSetup.Flags :=
  {| ProviderSetup.anthropicAPIKey := ""; ProviderSetup.anthropicBaseURL := "";
     ProviderSetup.openaiAPIKey := ""; ProviderSetup.openaiBaseURL := "";
     ProviderSetup.googleAPIKey := "" |}.

Definition keyFlags : ProviderSetup.Flags :=
  {| ProviderSetup.anthropicAPIKey := "sk-flag";
     ProviderSetup.anthropicBaseURL := "";
     ProviderSetup.openaiAPIKey := "sk-flag"; ProviderSetup.openaiBaseURL := "";
     ProviderSetup.googleAPIKey := "g-flag" |}.

(** An environment without variables, and one that sets every key. *)
Definition noEnv : string -> string := fun _ => "".
Definition keyEnv : string -> string := fun name =>
  if String.eqb name "GEMINI_API_KEY" then "g-gemini" else "sk-env".
Definition geminiEnv : string -> string := fun name =>
  if String.eqb name "GEMINI_API_KEY" then "g-gemini" else "".

(** The catalogues of the three servers; [search] does not answer. *)
Definition sampleCatalogue (name : string) : list Tool + error :=
  if String.eqb name "search" then inr "context deadline exceeded"
  else if String.eqb name "calc" then
    inl [ {| ToolName := "add"; Description := "adds two numbers";
             InputSchema := {| SchemaType := "object";
                               Properties := [("a", "number"); ("b", "number")];
                               Required := ["a"; "b"] |} |} ]
  else
    inl [ {| ToolName := "read_file"; Description := "reads a file";
             InputSchema := {| SchemaType := "object";
                               Properties := [("path", "string")];
                               Required := ["path"] |} |} ].

(** A host started with [-m ollama:qwen3:1.7b] on the three servers. *)
Definition hostOn (mw : Registry.McpWorld) (window : Z) : Host.HostEnv :=
  {| Host.systemPromptFile := "";
     Host.ReadFile := fun _ => inr "no such file";
     Host.decodeSystemPrompt := fun _ => inl "";
     Host.modelFlag := "ollama:qwen3:1.7b";
     Host.flags := noFlags;
     Host.Getenv := noEnv;
     Host.backends := sampleBackends;
     Host.providerName := "ollama";
     Host.loadMCPConfig := inl threeServers;
     Host.mcp := mw;
     Host.ListTools := sampleCatalogue;
     Host.Close := fun _ => None;
     Host.term := plainTerminal;
     Host.messageWindow := window |}.

Definition sampleHost (window : Z) : Host.HostEnv := hostOn allUp window.

End MoreSamples.

(* ===================================================================== *)
(** * Properties of the history pruner *)
(* ===================================================================== *)

Module PrunerFacts.
Import Pruner Samples.

Lemma index_insert_true (m : gmap string bool) (k k' : string) :
  index (<[k := true]> m) k' = true <-> k = k' \/ index m k' = true.
Proof.
  unfold index. destruct (decide (k = k')) as [->|Hne].
  - rewrite lookup_insert_eq. simpl. tauto.
  - rewrite lookup_insert_ne by done. split; [tauto | intros [?|?]; [done | tauto]].
Qed.

Lemma index_empty (k : string) : index ∅ k = false.
Proof. unfold index. by rewrite lookup_empty. Qed.

Lemma tool_use_not_result (b : ContentBlock) :
  isToolUse b = true -> isToolResult b = false.
Proof.
  unfold isToolUse, isToolResult. intros H%String.eqb_eq. by rewrite H.
Qed.

(** The inner loop of the first pass adds exactly the ids of the blocks
    it walks over. *)
Lemma collectBlock_spec (blocks : list ContentBlock)
    (u0 r0 : gmap string bool) (k : string) :
  let acc := fold_left collectBlock blocks (u0, r0) in
  (index (fst acc) k = true <->
     index u0 k = true \/ In k (map ID (List.filter isToolUse blocks)))
  /\ (index (snd acc) k = true <->
        index r0 k = true \/ In k (map ToolUseID (List.filter isToolResult blocks))).
Proof.
  revert u0 r0. induction blocks as [|b blocks IH]; intros u0 r0.
  - simpl. tauto.
  - cbn [fold_left List.filter].
    assert (Hstep : collectBlock (u0, r0) b
                    = if isToolUse b then (<[ID b := true]> u0, r0)
                      else if isToolResult b
                           then (u0, <[ToolUseID b := true]> r0)
                           else (u0, r0)) by reflexivity.
    rewrite Hstep. clear Hstep.
    destruct (isToolUse b) eqn:Hu.
    + rewrite (tool_use_not_result b Hu).
      destruct (IH (<[ID b := true]> u0) r0) as [IHu IHr].
      cbn [map In] in *.
      rewrite IHu, IHr, index_insert_true. tauto.
    + destruct (isToolResult b) eqn:Hr.
      * destruct (IH u0 (<[ToolUseID b := true]> r0)) as [IHu IHr].
        cbn [map In] in *.
        rewrite IHu, IHr, index_insert_true. tauto.
      * destruct (IH u0 r0) as [IHu IHr]. tauto.
Qed.

Lemma collect_fold_spec (ms : list HistoryMessage)
    (u0 r0 : gmap string bool) (k : string) :
  let acc := fold_left (fun acc msg => fold_left collectBlock (Content msg) acc)
                       ms (u0, r0) in
  (index (fst acc) k = true <-> index u0 k = true \/ In k (toolUseIdsOf ms))
  /\ (index (snd acc) k = true <->
        index r0 k = true \/ In k (toolResultRefsOf ms)).
Proof.
  revert u0 r0. induction ms as [|m ms IH]; intros u0 r0; simpl.
  - tauto.
  - destruct (fold_left collectBlock (Content m) (u0, r0)) as [u1 r1] eqn:E.
    pose proof (collectBlock_spec (Content m) u0 r0 k) as Hb.
    rewrite E in Hb. simpl in Hb. destruct Hb as [Hbu Hbr].
    destruct (IH u1 r1) as [IHu IHr]. simpl in *.
    rewrite IHu, IHr, Hbu, Hbr, !in_app_iff. tauto.
Qed.

(** After the first pass, [toolUseIds] and [toolResultIds] are the
    characteristic maps of the ids present in the window. *)
Lemma collectIds_spec (ms : list HistoryMessage) (k : string) :
  (index (fst (collectIds ms)) k = true <-> In k (toolUseIdsOf ms))
  /\ (index (snd (collectIds ms)) k = true <-> In k (toolResultRefsOf ms)).
Proof.
  destruct (collect_fold_spec ms ∅ ∅ k) as [Hu Hr]. simpl in *.
  unfold collectIds. rewrite Hu, Hr, index_empty. split; split; intros; try tauto.
  - destruct H; [discriminate | done].
  - destruct H; [discriminate | done].
Qed.

(** Text blocks, and every block that is neither a tool call nor a tool
    result, pass the block filter. *)
Lemma keep_text (u r : gmap string bool) (b : ContentBlock) :
  String.eqb (Type_ b) "text" = true -> keep u r b = true.
Proof.
  intros H%String.eqb_eq. unfold keep. by rewrite H.
Qed.

Lemma hasTextBlock_survives (u r : gmap string bool) (content : list ContentBlock) :
  hasTextBlock content = true -> pruneBlocks u r content <> [].
Proof.
  unfold hasTextBlock, pruneBlocks. intros H.
  apply existsb_exists in H as (b & Hin & Hb).
  assert (Hk : In b (List.filter (keep u r) content)).
  { apply filter_In. split; [done | by apply keep_text]. }
  intros E. rewrite E in Hk. destruct Hk.
Qed.

(** The retention test of the source collapses to "some block survives". *)
Lemma retained_iff_nonempty (u r : gmap string bool) (role : string)
    (content : list ContentBlock) :
  retained role (pruneBlocks u r content) content
  = (0 <? length (pruneBlocks u r content))%nat.
Proof.
  unfold retained.
  destruct (pruneBlocks u r content) as [|b bs] eqn:E; simpl.
  - destruct (hasTextBlock content) eqn:Ht.
    + exfalso. by apply (hasTextBlock_survives u r content Ht).
    + by destruct (String.eqb role "assistant").
  - by destruct (String.eqb role "assistant").
Qed.

Lemma pruneMessage_uniform_eq (u r : gmap string bool) (msg : HistoryMessage) :
  pruneMessage u r msg = pruneMessage_uniform u r msg.
Proof.
  unfold pruneMessage, pruneMessage_uniform.
  rewrite retained_iff_nonempty.
  by destruct (pruneBlocks u r (Content msg)).
Qed.

Lemma pruneWindow_uniform_eq (ms : list HistoryMessage) :
  pruneWindow ms = pruneWindow_uniform ms.
Proof.
  unfold pruneWindow, pruneWindow_uniform.
  destruct (collectIds ms) as [u r].
  apply flat_map_ext. intros m. apply pruneMessage_uniform_eq.
Qed.

(** C10. The retention rule as the source writes it (assistant messages
    need a surviving block; other roles are kept when a block survives or
    when they originally held a text block) selects the same messages,
    with the same contents, as the uniform rule "keep a message iff at
    least one of its blocks survives the block filter": on every window
    and every history the two pruners return the same result. *)
Theorem prune_retention_uniform :
  forall (messageWindow : Z) (messages : list HistoryMessage),
    pruneMessages messageWindow messages
    = pruneMessages_uniform messageWindow messages.
Proof.
  intros w h. unfold pruneMessages, pruneMessages_uniform.
  destruct (Z.of_nat (length h) <=? w); [done|].
  destruct (w <? 0); [done|].
  by rewrite pruneWindow_uniform_eq.
Qed.

(** Membership in the id lists, spelled out. *)
Lemma in_toolUseIdsOf (h : list HistoryMessage) (i : string) :
  In i (toolUseIdsOf h) <->
  exists m b, In m h /\ In b (Content m) /\ isToolUse b = true /\ ID b = i.
Proof.
  unfold toolUseIdsOf. rewrite in_flat_map. split.
  - intros (m & Hm & Hi). apply in_map_iff in Hi as (b & Hb & Hf).
    apply filter_In in Hf as [Hin Hu]. by exists m, b.
  - intros (m & b & Hm & Hin & Hu & Hb). exists m. split; [done|].
    apply in_map_iff. exists b. split; [done|]. by apply filter_In.
Qed.

Lemma in_toolResultRefsOf (h : list HistoryMessage) (i : string) :
  In i (toolResultRefsOf h) <->
  exists m b, In m h /\ In b (Content m) /\ isToolResult b = true
              /\ ToolUseID b = i.
Proof.
  unfold toolResultRefsOf. rewrite in_flat_map. split.
  - intros (m & Hm & Hi). apply in_map_iff in Hi as (b & Hb & Hf).
    apply filter_In in Hf as [Hin Hu]. by exists m, b.
  - intros (m & b & Hm & Hin & Hu & Hb). exists m. split; [done|].
    apply in_map_iff. exists b. split; [done|]. by apply filter_In.
Qed.

(** A message of the pruned window comes from a message of the window
    and holds exactly its surviving blocks; a message with a surviving
    block is never dropped. *)
Lemma in_pruneMessage (u r : gmap string bool) (m m' : HistoryMessage) :
  In m' (pruneMessage u r m) ->
  Role m' = Role m /\ Content m' = pruneBlocks u r (Content m).
Proof.
  unfold pruneMessage.
  destruct (retained _ _ _); simpl; [|tauto].
  intros [<-|[]]. done.
Qed.

Lemma pruneMessage_surviving (u r : gmap string bool) (m : HistoryMessage)
    (b : ContentBlock) :
  In b (Content m) -> keep u r b = true ->
  pruneMessage u r m
  = [ {| Role := Role m; Content := pruneBlocks u r (Content m) |} ].
Proof.
  intros Hin Hk. unfold pruneMessage. rewrite retained_iff_nonempty.
  assert (Hb : In b (pruneBlocks u r (Content m))) by (by apply filter_In).
  destruct (pruneBlocks u r (Content m)); [destruct Hb | done].
Qed.

Lemma keep_tool_use (u r : gmap string bool) (b : ContentBlock) :
  isToolUse b = true -> keep u r b = index r (ID b).
Proof. unfold isToolUse, keep. by intros ->. Qed.

Lemma keep_tool_result (u r : gmap string bool) (b : ContentBlock) :
  isToolResult b = true -> keep u r b = index u (ToolUseID b).
Proof.
  unfold isToolResult, keep. intros H. rewrite H.
  apply String.eqb_eq in H. by rewrite H.
Qed.

(** The surviving tool calls and the surviving tool results of a window
    carry the same ids: those present on both sides before. *)
Lemma pruneWindow_tool_use (ms : list HistoryMessage) (i : string) :
  In i (toolUseIdsOf (pruneWindow ms)) <->
  In i (toolUseIdsOf ms) /\ In i (toolResultRefsOf ms).
Proof.
  unfold pruneWindow. destruct (collectIds ms) as [u r] eqn:E.
  pose proof (collectIds_spec ms i) as [_ Hr]. rewrite E in Hr. simpl in Hr.
  rewrite <- Hr, !in_toolUseIdsOf. split.
  - intros (m' & b & Hm' & Hb & Hu & <-).
    apply in_flat_map in Hm' as (m & Hm & Hp).
    apply in_pruneMessage in Hp as [_ Hc]. rewrite Hc in Hb.
    apply filter_In in Hb as [Hb Hk].
    rewrite (keep_tool_use u r b Hu) in Hk. split; [|done].
    by exists m, b.
  - intros [(m & b & Hm & Hb & Hu & <-) Hi].
    assert (Hk : keep u r b = true) by (by rewrite keep_tool_use).
    exists {| Role := Role m; Content := pruneBlocks u r (Content m) |}, b.
    split; [|split; [|done]].
    + apply in_flat_map. exists m. split; [done|].
      rewrite (pruneMessage_surviving u r m b Hb Hk). by left.
    + simpl. by apply filter_In.
Qed.

Lemma pruneWindow_tool_result (ms : list HistoryMessage) (i : string) :
  In i (toolResultRefsOf (pruneWindow ms)) <->
  In i (toolUseIdsOf ms) /\ In i (toolResultRefsOf ms).
Proof.
  unfold pruneWindow. destruct (collectIds ms) as [u r] eqn:E.
  pose proof (collectIds_spec ms i) as [Hu _]. rewrite E in Hu. simpl in Hu.
  rewrite <- Hu, !in_toolResultRefsOf. split.
  - intros (m' & b & Hm' & Hb & Hres & <-).
    apply in_flat_map in Hm' as (m & Hm & Hp).
    apply in_pruneMessage in Hp as [_ Hc]. rewrite Hc in Hb.
    apply filter_In in Hb as [Hb Hk].
    rewrite (keep_tool_result u r b Hres) in Hk. split; [done|].
    by exists m, b.
  - intros [Hi (m & b & Hm & Hb & Hres & <-)].
    assert (Hk : keep u r b = true) by (by rewrite keep_tool_result).
    exists {| Role := Role m; Content := pruneBlocks u r (Content m) |}, b.
    split; [|split; [|done]].
    + apply in_flat_map. exists m. split; [done|].
      rewrite (pruneMessage_surviving u r m b Hb Hk). by left.
    + simpl. by apply filter_In.
Qed.

Lemma pruneWindow_paired (ms : list HistoryMessage) : Paired (pruneWindow ms).
Proof.
  split; intros i.
  - rewrite pruneWindow_tool_use, pruneWindow_tool_result. tauto.
  - rewrite pruneWindow_tool_use, pruneWindow_tool_result. tauto.
Qed.

(** The second pass appends at most one message per message. *)
Lemma pruneWindow_length (ms : list HistoryMessage) :
  (length (pruneWindow ms) <= length ms)%nat.
Proof.
  unfold pruneWindow. destruct (collectIds ms) as [u r].
  induction ms as [|m ms IH]; simpl; [lia|].
  rewrite length_app. unfold pruneMessage at 1.
  destruct (retained _ _ _); simpl; lia.
Qed.

Lemma pruneMessages_short (w : Z) (h : list HistoryMessage) :
  Z.of_nat (length h) <= w -> pruneMessages w h = Some h.
Proof.
  intros H. unfold pruneMessages.
  destruct (Z.leb_spec (Z.of_nat (length h)) w); [done | lia].
Qed.

Lemma pruneMessages_long (w : Z) (h : list HistoryMessage) :
  0 <= w < Z.of_nat (length h) ->
  pruneMessages w h
  = Some (pruneWindow (drop (Z.to_nat (Z.of_nat (length h) - w)) h)).
Proof.
  intros H. unfold pruneMessages.
  destruct (Z.leb_spec (Z.of_nat (length h)) w); [lia|].
  destruct (Z.ltb_spec w 0); [lia | done].
Qed.

Lemma pruneMessages_negative (w : Z) (h : list HistoryMessage) :
  w < 0 -> pruneMessages w h = None.
Proof.
  intros H. unfold pruneMessages.
  destruct (Z.leb_spec (Z.of_nat (length h)) w); [lia|].
  destruct (Z.ltb_spec w 0); [done | lia].
Qed.

Lemma pruneMessages_length (w : Z) (h h' : list HistoryMessage) :
  pruneMessages w h = Some h' -> Z.of_nat (length h') <= w.
Proof.
  destruct (Z.le_gt_cases (Z.of_nat (length h)) w) as [Hle|Hgt].
  - rewrite pruneMessages_short by done. intros [= <-]. done.
  - destruct (Z.lt_ge_cases w 0) as [Hneg|Hpos].
    + by rewrite pruneMessages_negative.
    + rewrite pruneMessages_long by lia. intros [= <-].
      pose proof (pruneWindow_length
                    (drop (Z.to_nat (Z.of_nat (length h) - w)) h)) as Hl.
      rewrite length_drop in Hl. lia.
Qed.

(** C1, as stated, fails: with window 1 the one-message history above is
    returned unchanged, and its [tool_use] block "t1" has no
    [tool_result]. *)
Lemma prune_pairing_counterexample :
  pruneMessages 1 danglingHistory = Some danglingHistory
  /\ ~ Paired danglingHistory.
Proof.
  split; [reflexivity|].
  intros [Huse _]. apply (Huse "t1"). simpl. by left.
Qed.

(** C1, amended. For every window [w >= 0] and every history with more
    than [w] messages, the pruner returns a history in which every
    surviving [tool_use] id is referenced by a surviving [tool_result]
    and every surviving [tool_result] refers to a surviving [tool_use].
    A history of at most [w] messages is returned unchanged, so it is
    paired exactly when it was paired before. *)
Theorem prune_pairing :
  forall (w : Z) (h : list HistoryMessage),
    0 <= w ->
    (Z.of_nat (length h) > w ->
       exists h', pruneMessages w h = Some h' /\ Paired h')
    /\ (Z.of_nat (length h) <= w -> pruneMessages w h = Some h).
Proof.
  intros w h Hw. split.
  - intros Hlen. eexists. split.
    + apply pruneMessages_long. lia.
    + apply pruneWindow_paired.
  - apply pruneMessages_short.
Qed.

Lemma prune_pairing_witness :
  exists h', pruneMessages 3 sampleHistory = Some h' /\ Paired h'.
Proof.
  apply (proj1 (prune_pairing 3 sampleHistory ltac:(lia))). simpl. lia.
Defined.

(** C7. Pruning twice is pruning once, for every history and every
    window (a negative window makes the slice expression panic, the first
    time as the second); a history of at most [w] messages is returned
    unchanged; and for a window [w >= 0] the pruner always returns. *)
Theorem prune_idempotent :
  forall (w : Z) (h : list HistoryMessage),
    (pruneMessages w h ≫= pruneMessages w) = pruneMessages w h
    /\ (Z.of_nat (length h) <= w -> pruneMessages w h = Some h)
    /\ (0 <= w -> exists h', pruneMessages w h = Some h'
                              /\ pruneMessages w h' = Some h').
Proof.
  intros w h.
  assert (Hidem : forall h', pruneMessages w h = Some h' ->
                             pruneMessages w h' = Some h').
  { intros h' E. apply pruneMessages_short. by apply (pruneMessages_length w h). }
  split; [|split].
  - destruct (pruneMessages w h) as [h'|] eqn:E; simpl; [|done].
    by apply Hidem.
  - apply pruneMessages_short.
  - intros Hw. destruct (pruneMessages w h) as [h'|] eqn:E.
    + exists h'. split; [done | by apply Hidem].
    + exfalso. destruct (Z.le_gt_cases (Z.of_nat (length h)) w).
      * by rewrite pruneMessages_short in E.
      * by rewrite pruneMessages_long in E by lia.
Qed.

Lemma prune_idempotent_witness :
  pruneMessages 4 sampleHistory = Some sampleHistory
  /\ exists h', pruneMessages 2 sampleHistory = Some h'
                /\ pruneMessages 2 h' = Some h'.
Proof.
  split.
  - apply (proj1 (proj2 (prune_idempotent 4 sampleHistory))). simpl. lia.
  - apply (proj2 (proj2 (prune_idempotent 2 sampleHistory))). lia.
Defined.

End PrunerFacts.

(* ===================================================================== *)
(** * Properties of the model call with retry *)
(* ===================================================================== *)

Module RetryFacts.
Import Engine Spec Samples.

Section OneCall.
Variables (provider : Provider) (tools : list Tool) (prompt : string)
          (llmMessages : list HistoryMessage).

Lemma retryLoop_success fuel backoff retries w message :
  provider (providerCalls w) prompt llmMessages tools = inl message ->
  retryLoop (S fuel) provider tools prompt llmMessages backoff retries w
  = Some (countProviderCall w, inl message).
Proof. intros H. simpl. by rewrite H. Qed.

Lemma retryLoop_fatal fuel backoff retries w err :
  provider (providerCalls w) prompt llmMessages tools = inr err ->
  isOverloaded err = false ->
  retryLoop (S fuel) provider tools prompt llmMessages backoff retries w
  = Some (countProviderCall w, inr err).
Proof. intros H Ho. simpl. by rewrite H, Ho. Qed.

Lemma retryLoop_overloaded fuel backoff retries w err :
  provider (providerCalls w) prompt llmMessages tools = inr err ->
  isOverloaded err = true ->
  retryLoop (S fuel) provider tools prompt llmMessages backoff retries w
  = if retries >=? maxRetries
    then Some (countProviderCall w, inr "claude 当前过载，请稍后重试")
    else retryLoop fuel provider tools prompt llmMessages
           (nextBackoff backoff) (retries + 1)
           (sleep backoff
              (emit (LogOverloaded (retries + 1) backoff)
                    (countProviderCall w))).
Proof. intros H Ho. simpl. by rewrite H, Ho. Qed.

(** The loop ends within [maxRetries - retries + 1] iterations, whatever
    the provider answers. *)
Lemma retryLoop_total fuel backoff retries w :
  0 <= retries ->
  (Z.to_nat (maxRetries - retries) < fuel)%nat ->
  is_Some (retryLoop fuel provider tools prompt llmMessages backoff retries w).
Proof.
  revert backoff retries w.
  induction fuel as [|fuel IH]; intros backoff retries w Hr Hf; [lia|].
  simpl.
  destruct (provider (providerCalls w) prompt llmMessages tools) as [m|err];
    [by eexists|].
  destruct (isOverloaded err); [|by eexists].
  destruct (Z.geb_spec retries maxRetries) as [Hge|Hlt]; [by eexists|].
  apply IH; [lia|].
  unfold maxRetries in *. lia.
Qed.

End OneCall.

(** With the fuel [runPrompt] gives it, the retry loop always returns. *)
Lemma retryLoop_returns provider tools prompt llmMessages w :
  is_Some (retryLoop retryFuel provider tools prompt llmMessages
                     initialBackoff 0 w).
Proof. apply retryLoop_total; [lia|]. vm_compute. lia. Qed.

Lemma retryLoop_always_overloaded provider tools prompt llmMessages w :
  alwaysOverloaded provider ->
  exists w',
    retryLoop retryFuel provider tools prompt llmMessages initialBackoff 0 w
    = Some (w', inr "claude 当前过载，请稍后重试")
    /\ providerCalls w' = (providerCalls w + 6)%nat
    /\ slept w' = (slept w ++ [1 * second; 2 * second; 4 * second;
                               8 * second; 16 * second])%list
    /\ messages w' = messages w
    /\ toolCalls w' = toolCalls w.
Proof.
  intros H. unfold retryFuel.
  change (S (Z.to_nat maxRetries)) with 6%nat.
  repeat
    (match goal with
     | |- context [retryLoop (S ?f) provider tools prompt llmMessages ?b ?r ?w0] =>
         destruct (H (providerCalls w0) prompt llmMessages tools) as (? & ? & ?);
         erewrite (retryLoop_overloaded provider tools prompt llmMessages
                     f b r w0) by eassumption;
         cbn [Z.geb Z.compare Z.add Pos.compare Pos.compare_cont Pos.add
              Pos.succ maxRetries]
     end).
  eexists. split; [reflexivity|].
  cbn [providerCalls slept messages toolCalls sleep emit countProviderCall].
  repeat split.
  - lia.
  - rewrite <- !app_assoc. reflexivity.
Qed.

Lemma nextBackoff_capped backoff : nextBackoff backoff <= maxBackoff.
Proof.
  unfold nextBackoff.
  destruct (Z.gtb_spec (wrap64 (backoff * 2)) maxBackoff); lia.
Qed.

(** C3. If every attempt of the model call reports a transient overload,
    [runPrompt] fails with the overload error after [1 + maxRetries = 6]
    attempts, having slept [maxRetries = 5] times: 1s, 2s, 4s, 8s, 16s,
    the delays [initial * 2^k], each at most [maxBackoff], in total
    [initialBackoff * (2^maxRetries - 1)]. A first answer that is an
    error without "overloaded_error" ends [runPrompt] at once with that
    error: one attempt, no sleep. *)
Theorem retry_cap :
  forall fuel provider term mcpClients tools prompt w,
    (alwaysOverloaded provider ->
     exists w' delays,
       runPrompt (S fuel) provider term mcpClients tools prompt w
       = Some (w', Some "claude 当前过载，请稍后重试")
       /\ providerCalls w' = (providerCalls w + 1 + Z.to_nat maxRetries)%nat
       /\ slept w' = (slept w ++ delays)%list
       /\ delays = backoffSchedule
       /\ Z.of_nat (length delays) = maxRetries
       /\ total delays = initialBackoff * (2 ^ maxRetries - 1)
       /\ Forall (fun d => d <= maxBackoff) delays)
    /\ (forall err,
          provider (providerCalls (acceptPrompt prompt w)) prompt
                   (messages (acceptPrompt prompt w)) tools = inr err ->
          isOverloaded err = false ->
          runPrompt (S fuel) provider term mcpClients tools prompt w
          = Some (countProviderCall (acceptPrompt prompt w), Some err))
    /\ (forall n llmMessages backoff retries err,
          provider (providerCalls w) prompt llmMessages tools = inr err ->
          isOverloaded err = false ->
          retryLoop (S n) provider tools prompt llmMessages backoff retries w
          = Some (countProviderCall w, inr err)).
Proof.
  intros fuel provider term mcpClients tools prompt w.
  split; [|split; [|intros; by apply retryLoop_fatal]].
  - intros H.
    destruct (retryLoop_always_overloaded provider tools prompt
                (messages (acceptPrompt prompt w)) (acceptPrompt prompt w) H)
      as (w' & E & Hcalls & Hslept & _ & _).
    exists w', backoffSchedule.
    cbn [runPrompt]. unfold runPromptBody. rewrite E.
    assert (Hp : providerCalls (acceptPrompt prompt w) = providerCalls w
                 /\ slept (acceptPrompt prompt w) = slept w).
    { unfold acceptPrompt. by destruct (nonEmpty prompt). }
    destruct Hp as [Hp Hs]. rewrite Hp in Hcalls. rewrite Hs in Hslept.
    repeat split.
    + rewrite Hcalls. change (Z.to_nat maxRetries) with 5%nat. lia.
    + exact Hslept.
    + repeat constructor; vm_compute; discriminate.
  - intros err He Ho. cbn [runPrompt]. unfold runPromptBody.
    unfold retryFuel.
    by rewrite (retryLoop_fatal provider tools prompt _ _ _ _ _ err He Ho).
Qed.

Lemma retry_cap_witness :
  (exists w' delays,
      runPrompt 1 overloadedProvider plainTerminal ∅ [] "hello" initialWorld
      = Some (w', Some "claude 当前过载，请稍后重试")
      /\ providerCalls w' = 6%nat
      /\ slept w' = delays
      /\ delays = backoffSchedule
      /\ Z.of_nat (length delays) = maxRetries
      /\ total delays = initialBackoff * (2 ^ maxRetries - 1)
      /\ Forall (fun d => d <= maxBackoff) delays)
  /\ runPrompt 1 brokenProvider plainTerminal ∅ [] "hello" initialWorld
     = Some (countProviderCall (acceptPrompt "hello" initialWorld),
             Some "connection refused")
  /\ retryLoop 1 brokenProvider [] "hello" [] (4 * second) 2 initialWorld
     = Some (countProviderCall initialWorld, inr "connection refused").
Proof.
  split; [|split].
  - apply (proj1 (retry_cap 0 overloadedProvider plainTerminal ∅ [] "hello"
                            initialWorld)).
    intros n prompt llmMessages tools. eexists. split; reflexivity.
  - apply (proj1 (proj2 (retry_cap 0 brokenProvider plainTerminal ∅ [] "hello"
                                   initialWorld))); reflexivity.
  - apply (proj2 (proj2 (retry_cap 0 brokenProvider plainTerminal ∅ [] "hello"
                                   initialWorld))); reflexivity.
Defined.

End RetryFacts.

(* ===================================================================== *)
(** * Properties of tool-name resolution *)
(* ===================================================================== *)

Module NameFacts.
Import Engine Samples.

Lemma append_empty_r (s : string) : s ++ "" = s.
Proof.
  induction s as [|c s IH]; [reflexivity|].
  change (String c (s ++ "") = String c s). by rewrite IH.
Qed.

Lemma append_assoc (a b c : string) : (a ++ b) ++ c = a ++ (b ++ c).
Proof.
  induction a as [|x a IH]; [reflexivity|].
  change (String x ((a ++ b) ++ c) = String x (a ++ b ++ c)). by rewrite IH.
Qed.

Lemma prefix_cons (a b : ascii) (s1 s2 : string) :
  String.prefix (String a s1) (String b s2)
  = if Ascii.eqb a b then String.prefix s1 s2 else false.
Proof.
  change (String.prefix (String a s1) (String b s2))
    with (match ascii_dec a b with
          | left _ => String.prefix s1 s2
          | right _ => false
          end).
  destruct (ascii_dec a b) as [->|H].
  - by rewrite Ascii.eqb_refl.
  - apply Ascii.eqb_neq in H. by rewrite H.
Qed.

(** A leading separator only depends on the first two bytes. *)
Lemma prefix_sep_cons (c : ascii) (s : string) :
  String.prefix "__" (String c s)
  = match s with
    | String c' _ => Ascii.eqb "_" c && Ascii.eqb "_" c'
    | EmptyString => false
    end.
Proof.
  rewrite prefix_cons. destruct s as [|c' s].
  - by destruct (Ascii.eqb "_" c).
  - rewrite prefix_cons.
    by destruct s, (Ascii.eqb "_" c), (Ascii.eqb "_" c').
Qed.

Lemma splitFrom_nonempty (skip : nat) (cur s : string) :
  (1 <= length (strings.splitFrom "__" skip cur s))%nat.
Proof.
  revert skip cur. induction s as [|c s IH]; intros skip cur;
    cbn [strings.splitFrom]; [simpl; lia|].
  destruct skip; [|apply IH].
  destruct (String.prefix "__" (String c s)); [simpl; lia | apply IH].
Qed.

(** Without a separator the name is the only part. *)
Lemma splitFrom_no_sep (s cur : string) :
  strings.Contains s "__" = false ->
  strings.splitFrom "__" 0 cur s = [cur ++ s].
Proof.
  revert cur. induction s as [|c s IH]; intros cur H.
  - simpl. by rewrite append_empty_r.
  - cbn [strings.Contains] in H. apply orb_false_iff in H as [Hp Hc].
    cbn [strings.splitFrom]. rewrite Hp. rewrite (IH _ Hc).
    by rewrite append_assoc.
Qed.

(** With a separator there are at least two parts. *)
Lemma splitFrom_sep (s cur : string) :
  strings.Contains s "__" = true ->
  (2 <= length (strings.splitFrom "__" 0 cur s))%nat.
Proof.
  revert cur. induction s as [|c s IH]; intros cur H.
  - discriminate.
  - cbn [strings.Contains] in H. cbn [strings.splitFrom].
    destruct (String.prefix "__" (String c s)) eqn:Hp.
    + cbn [length].
      pose proof (splitFrom_nonempty (String.length "__" - 1) "" s). lia.
    + simpl in H. by apply IH.
Qed.

(** The first cut falls at the first occurrence of the separator. *)
Lemma splitFrom_first (sv tl cur : string) :
  strings.Contains (sv ++ "_") "__" = false ->
  strings.splitFrom "__" 0 cur (sv ++ "__" ++ tl)
  = (cur ++ sv) :: strings.splitFrom "__" 0 "" tl.
Proof.
  revert cur. induction sv as [|c sv IH]; intros cur H.
  - rewrite append_empty_r.
    change ("" ++ "__" ++ tl) with (String "_" (String "_" tl)).
    cbn [strings.splitFrom]. rewrite prefix_sep_cons. reflexivity.
  - change (String c sv ++ "_") with (String c (sv ++ "_")) in H.
    cbn [strings.Contains] in H. apply orb_false_iff in H as [Hp Hc].
    change (String c sv ++ "__" ++ tl) with (String c (sv ++ "__" ++ tl)).
    cbn [strings.splitFrom].
    assert (Hp' : String.prefix "__" (String c (sv ++ "__" ++ tl)) = false).
    { rewrite prefix_sep_cons in *. by destruct sv. }
    rewrite Hp', (IH _ Hc). by rewrite append_assoc.
Qed.

Lemma resolve_no_sep (name : string) :
  strings.Contains name "__" = false -> resolveToolName name = None.
Proof.
  intros H. unfold resolveToolName, strings.Split.
  by rewrite (splitFrom_no_sep name "" H).
Qed.

Lemma resolve_first_sep (sv tl : string) :
  strings.Contains (sv ++ "_") "__" = false ->
  resolveToolName (sv ++ "__" ++ tl)
  = if strings.Contains tl "__" then None else Some (sv, tl).
Proof.
  intros H. unfold resolveToolName, strings.Split.
  rewrite (splitFrom_first sv tl "" H). simpl.
  destruct (strings.Contains tl "__") eqn:Ht.
  - pose proof (splitFrom_sep tl "" Ht) as Hl.
    destruct (strings.splitFrom "__" 0 "" tl) as [|a [|b l]]; simpl in Hl;
      [lia | lia | done].
  - by rewrite (splitFrom_no_sep tl "" Ht).
Qed.

End NameFacts.

(* ===================================================================== *)
(** * Properties of the tool loop *)
(* ===================================================================== *)

Module DispatchFacts.
Import Engine Spec Samples.

(** Logging touches the output only. *)
Lemma announced_frame message toolCall w :
  messages (announced message toolCall w) = messages w
  /\ providerCalls (announced message toolCall w) = providerCalls w
  /\ toolCalls (announced message toolCall w) = toolCalls w
  /\ slept (announced message toolCall w) = slept w
  /\ exists l, output (announced message toolCall w) = (output w ++ l)%list.
Proof.
  unfold announced, logUsage. destruct (GetUsage message) as [i o].
  destruct ((i >? 0) || (o >? 0)); simpl; repeat split; eauto.
  rewrite <- app_assoc. eauto.
Qed.

(** The iteration for a call that cannot be routed: the [tool_use] block
    is appended, the error line is printed, nothing else changes. *)
Lemma dispatch_unresolved mcpClients message d toolCall o :
  unresolved mcpClients toolCall = Some o ->
  dispatchToolCall mcpClients message d toolCall
  = {| messageContent := (messageContent d ++ [toolUseOf toolCall])%list;
       toolResults := toolResults d;
       world := emit o (announced message toolCall (world d)) |}.
Proof.
  unfold unresolved, dispatchToolCall, announced.
  destruct (resolveToolName (GetName toolCall)) as [[serverName toolName]|].
  - destruct (mcpClients !! serverName); [discriminate|]. by intros [= <-].
  - by intros [= <-].
Qed.

(** What an iteration adds to [toolResults], and whether it calls a
    tool, depends on the state only through the tool-call counter. *)
Lemma dispatch_same_results mcpClients message d1 d2 toolCall :
  toolResults d1 = toolResults d2 ->
  toolCalls (world d1) = toolCalls (world d2) ->
  toolResults (dispatchToolCall mcpClients message d1 toolCall)
  = toolResults (dispatchToolCall mcpClients message d2 toolCall)
  /\ toolCalls (world (dispatchToolCall mcpClients message d1 toolCall))
     = toolCalls (world (dispatchToolCall mcpClients message d2 toolCall)).
Proof.
  intros Hr Hc. unfold dispatchToolCall.
  fold (announced message toolCall (world d1)).
  fold (announced message toolCall (world d2)).
  destruct (announced_frame message toolCall (world d1)) as (_ & _ & H1 & _).
  destruct (announced_frame message toolCall (world d2)) as (_ & _ & H2 & _).
  destruct (resolveToolName (GetName toolCall)) as [[serverName toolName]|];
    [|simpl; split; congruence].
  destruct (mcpClients !! serverName) as [mcpClient|];
    [|simpl; split; congruence].
  destruct (json_Unmarshal _) as [toolArgs|err]; [|simpl; split; congruence].
  replace (toolCalls (announced message toolCall (world d2)))
    with (toolCalls (announced message toolCall (world d1))) by congruence.
  destruct (CallTool mcpClient _ toolName toolArgs) as [err|[content|]];
    simpl; split; congruence.
Qed.

Lemma dispatchList_same_results mcpClients message calls d1 d2 :
  toolResults d1 = toolResults d2 ->
  toolCalls (world d1) = toolCalls (world d2) ->
  toolResults (dispatchList mcpClients message calls d1)
  = toolResults (dispatchList mcpClients message calls d2)
  /\ toolCalls (world (dispatchList mcpClients message calls d1))
     = toolCalls (world (dispatchList mcpClients message calls d2)).
Proof.
  revert d1 d2. induction calls as [|c calls IH]; intros d1 d2 Hr Hc.
  - by split.
  - simpl. destruct (dispatch_same_results mcpClients message d1 d2 c Hr Hc).
    by apply IH.
Qed.

(** An iteration only appends to the assistant content and to the
    output. *)
Lemma dispatch_extends mcpClients message d toolCall :
  messageContent (dispatchToolCall mcpClients message d toolCall)
  = (messageContent d ++ [toolUseOf toolCall])%list
  /\ exists l, output (world (dispatchToolCall mcpClients message d toolCall))
               = (output (world d) ++ l)%list.
Proof.
  unfold dispatchToolCall. fold (announced message toolCall (world d)).
  destruct (announced_frame message toolCall (world d))
    as (_ & _ & _ & _ & l & Hl).
  destruct (resolveToolName (GetName toolCall)) as [[serverName toolName]|];
    [|simpl; rewrite Hl, <- app_assoc; eauto].
  destruct (mcpClients !! serverName) as [mcpClient|];
    [|simpl; rewrite Hl, <- app_assoc; eauto].
  destruct (json_Unmarshal _) as [toolArgs|err];
    [|simpl; rewrite Hl, <- app_assoc; eauto].
  destruct (CallTool mcpClient _ toolName toolArgs) as [err|[content|]];
    simpl; rewrite Hl, <- ?app_assoc; eauto.
Qed.

Lemma dispatchList_extends mcpClients message calls d :
  messageContent (dispatchList mcpClients message calls d)
  = (messageContent d ++ map toolUseOf calls)%list
  /\ exists l, output (world (dispatchList mcpClients message calls d))
               = (output (world d) ++ l)%list.
Proof.
  revert d. induction calls as [|c calls IH]; intros d.
  - simpl. rewrite app_nil_r. split; [done|]. exists []. by rewrite app_nil_r.
  - simpl. destruct (IH (dispatchToolCall mcpClients message d c)) as [Hc [l Hl]].
    destruct (dispatch_extends mcpClients message d c) as [Hc' [l' Hl']].
    rewrite Hc, Hc', Hl, Hl', <- !app_assoc. split; [done|]. eauto.
Qed.

(** C5. A tool call whose name is not of the form [server__tool], or
    whose server has no registered client, gets its [tool_use] block
    appended and an error line printed, and adds no [tool_result]; the
    loop goes on with the remaining calls of the turn: the tool results
    and the tool invocations of the whole turn are those of the turn
    without that call. *)
Theorem unresolved_call_skipped :
  forall mcpClients message pre toolCall post d o,
    unresolved mcpClients toolCall = Some o ->
    dispatchToolCall mcpClients message d toolCall
    = {| messageContent := (messageContent d ++ [toolUseOf toolCall])%list;
         toolResults := toolResults d;
         world := emit o (announced message toolCall (world d)) |}
    /\ toolResults (dispatchList mcpClients message (pre ++ toolCall :: post) d)
       = toolResults (dispatchList mcpClients message (pre ++ post) d)
    /\ toolCalls (world (dispatchList mcpClients message
                                      (pre ++ toolCall :: post) d))
       = toolCalls (world (dispatchList mcpClients message (pre ++ post) d))
    /\ In o (output (world (dispatchList mcpClients message
                                         (pre ++ toolCall :: post) d)))
    /\ In (toolUseOf toolCall)
          (messageContent (dispatchList mcpClients message
                                        (pre ++ toolCall :: post) d)).
Proof.
  intros mcpClients message pre toolCall post d o Hu.
  split; [by apply dispatch_unresolved|].
  unfold dispatchList. rewrite !fold_left_app. cbn [fold_left].
  set (d1 := fold_left (dispatchToolCall mcpClients message) pre d).
  rewrite (dispatch_unresolved mcpClients message d1 toolCall o Hu).
  set (d2 := {| messageContent := _; toolResults := _; world := _ |}).
  assert (Hsame : toolResults d2 = toolResults d1
                  /\ toolCalls (world d2) = toolCalls (world d1)).
  { subst d2. simpl. split; [done|].
    by destruct (announced_frame message toolCall (world d1)) as (_ & _ & ? & _). }
  destruct Hsame as [Hr Hc].
  destruct (dispatchList_same_results mcpClients message post d2 d1 Hr Hc)
    as [Hres Hcalls].
  destruct (dispatchList_extends mcpClients message post d2) as [Hcont [l Hl]].
  unfold dispatchList in *.
  split; [done|]. split; [done|]. split.
  - rewrite Hl. apply in_app_iff. left. subst d2. simpl.
    apply in_app_iff. right. by left.
  - rewrite Hcont. apply in_app_iff. left. subst d2. simpl.
    apply in_app_iff. right. by left.
Qed.

Lemma unresolved_call_skipped_witness :
  toolResults (dispatchList calcOnly (toolTurn [])
                            [callBadName; callGhost; callAdd] emptyDispatch)
  = toolResults (dispatchList calcOnly (toolTurn [])
                              [callBadName; callAdd] emptyDispatch)
  /\ In (PrintServerNotFound "ghost")
        (output (world (dispatchList calcOnly (toolTurn [])
                          [callBadName; callGhost; callAdd] emptyDispatch)))
  /\ toolResults (dispatchList calcOnly (toolTurn [])
                               [callBadName; callAdd] emptyDispatch)
     = toolResults (dispatchList calcOnly (toolTurn []) [callAdd] emptyDispatch)
  /\ In (PrintInvalidToolName "badname")
        (output (world (dispatchList calcOnly (toolTurn [])
                          [callBadName; callAdd] emptyDispatch))).
Proof.
  pose proof (unresolved_call_skipped calcOnly (toolTurn []) [callBadName]
                callGhost [callAdd] emptyDispatch
                (PrintServerNotFound "ghost") eq_refl)
    as (_ & Hr & _ & Ho & _).
  pose proof (unresolved_call_skipped calcOnly (toolTurn []) []
                callBadName [callAdd] emptyDispatch
                (PrintInvalidToolName "badname") eq_refl)
    as (_ & Hr' & _ & Ho' & _).
  exact (conj Hr (conj Ho (conj Hr' Ho'))).
Defined.

End DispatchFacts.

(* ===================================================================== *)
(** * Properties of one turn of [runPrompt] *)
(* ===================================================================== *)

Module TurnFacts.
Import Engine Spec Samples.

(** Accepting the prompt and rendering do not call anything. *)
Lemma acceptPrompt_frame prompt w :
  providerCalls (acceptPrompt prompt w) = providerCalls w
  /\ toolCalls (acceptPrompt prompt w) = toolCalls w
  /\ slept (acceptPrompt prompt w) = slept w.
Proof. unfold acceptPrompt. by destruct (nonEmpty prompt). Qed.

Lemma renderText_frame term message w w' r :
  renderText term message w = (w', r) ->
  messages w' = messages w /\ providerCalls w' = providerCalls w
  /\ toolCalls w' = toolCalls w /\ slept w' = slept w
  /\ exists l, output w' = (output w ++ l)%list.
Proof.
  unfold renderText.
  destruct (Render term (LF ++ "Assistant: ")) as [str|e];
    destruct (nonEmpty (GetContent message));
    try destruct (updateRenderer term);
    try destruct (Render term (GetContent message ++ LF));
    intros [= <- <-]; simpl; repeat split;
    rewrite <- ?app_assoc; eauto; exists []; by rewrite app_nil_r.
Qed.

(** The tool loop leaves history, provider calls and sleeps alone. *)
Lemma dispatch_frame mcpClients message d toolCall :
  messages (world (dispatchToolCall mcpClients message d toolCall))
  = messages (world d)
  /\ providerCalls (world (dispatchToolCall mcpClients message d toolCall))
     = providerCalls (world d)
  /\ slept (world (dispatchToolCall mcpClients message d toolCall))
     = slept (world d).
Proof.
  unfold dispatchToolCall. fold (announced message toolCall (world d)).
  destruct (DispatchFacts.announced_frame message toolCall (world d))
    as (Hm & Hp & _ & Hs & _).
  destruct (resolveToolName (GetName toolCall)) as [[serverName toolName]|];
    [|by simpl].
  destruct (mcpClients !! serverName) as [mcpClient|]; [|by simpl].
  destruct (json_Unmarshal _) as [toolArgs|err]; [|by simpl].
  by destruct (CallTool mcpClient _ toolName toolArgs) as [err|[content|]].
Qed.

Lemma dispatchList_frame mcpClients message calls d :
  messages (world (dispatchList mcpClients message calls d))
  = messages (world d)
  /\ providerCalls (world (dispatchList mcpClients message calls d))
     = providerCalls (world d)
  /\ slept (world (dispatchList mcpClients message calls d))
     = slept (world d).
Proof.
  revert d. induction calls as [|c calls IH]; intros d; [done|].
  simpl. destruct (IH (dispatchToolCall mcpClients message d c)) as (-> & -> & ->).
  apply dispatch_frame.
Qed.

(** One [tool] message per result, in order. *)
Lemma appendToolMessages_messages results w :
  messages (appendToolMessages results w)
  = (messages w ++ map toolMessage results)%list
  /\ providerCalls (appendToolMessages results w) = providerCalls w
  /\ toolCalls (appendToolMessages results w) = toolCalls w.
Proof.
  unfold appendToolMessages. revert w.
  induction results as [|r results IH]; intros w; simpl.
  - by rewrite app_nil_r.
  - destruct (IH (appendMessage (toolMessage r) w)) as (-> & -> & ->).
    simpl. by rewrite <- app_assoc.
Qed.

(** A turn whose model call is answered at the first attempt and whose
    text renders: [runPrompt] is the tool loop followed by [finishTurn]. *)
Lemma runPrompt_answered fuel provider term mcpClients tools prompt w
    message w2 content :
  provider (providerCalls (acceptPrompt prompt w)) prompt
           (messages (acceptPrompt prompt w)) tools = inl message ->
  renderText term message (countProviderCall (acceptPrompt prompt w))
  = (w2, inl content) ->
  runPrompt (S fuel) provider term mcpClients tools prompt w
  = finishTurn (runPrompt fuel provider term mcpClients tools) message
      (dispatchToolCalls mcpClients message
         {| messageContent := content; toolResults := []; world := w2 |}).
Proof.
  intros Ha Hr. cbn [runPrompt]. unfold runPromptBody, retryFuel.
  rewrite (RetryFacts.retryLoop_success provider tools prompt _ _ _ _ _ _ Ha).
  by rewrite Hr.
Qed.

(** Calls that cannot be routed add no result and invoke nothing; each
    leaves its error line. *)
Lemma dispatchList_all_unresolved mcpClients message calls d :
  Forall (fun c => is_Some (unresolved mcpClients c)) calls ->
  toolResults (dispatchList mcpClients message calls d) = toolResults d
  /\ toolCalls (world (dispatchList mcpClients message calls d))
     = toolCalls (world d)
  /\ forall c o, In c calls -> unresolved mcpClients c = Some o ->
       In o (output (world (dispatchList mcpClients message calls d))).
Proof.
  intros H. revert d. induction H as [|c calls [o Ho] _ IH]; intros d.
  - by repeat split.
  - unfold dispatchList in *. cbn [fold_left].
    rewrite (DispatchFacts.dispatch_unresolved mcpClients message d c o Ho).
    set (d' := {| messageContent := _; toolResults := _; world := _ |}).
    destruct (IH d') as (Hr & Hc & Hout).
    split; [by rewrite Hr|]. split.
    + rewrite Hc. subst d'. simpl.
      by destruct (DispatchFacts.announced_frame message c (world d))
        as (_ & _ & ? & _).
    + intros c' o' [<-|Hin] Ho'; [|by eapply Hout].
      assert (o' = o) as -> by congruence.
      destruct (DispatchFacts.dispatchList_extends mcpClients message calls d')
        as [_ [l Hl]].
      unfold dispatchList in Hl. rewrite Hl. apply in_app_iff. left.
      subst d'. simpl. apply in_app_iff. right. by left.
Qed.

Lemma unknownServer_unresolved mcpClients c :
  unknownServer mcpClients c ->
  exists serverName toolName,
    resolveToolName (GetName c) = Some (serverName, toolName)
    /\ unresolved mcpClients c = Some (PrintServerNotFound serverName).
Proof.
  intros (sv & tl & Hres & Hl). exists sv, tl. split; [done|].
  unfold unresolved. by rewrite Hres, Hl.
Qed.

(** C4, as stated, fails: the model asks for [ghost__run], no [ghost]
    server is registered; the turn ends after a single model call and the
    history holds no [tool_result] at all. *)
Lemma unknown_server_counterexample :
  exists w',
    runPrompt 5 (scriptedProvider [callGhost]) plainTerminal calcOnly []
              "run it" initialWorld = Some (w', None)
    /\ providerCalls w' = 1%nat
    /\ Pruner.toolResultRefsOf (messages w') = []
    /\ messages w'
       = [ userMessage "run it";
           {| Role := "assistant"; Content := [toolUseOf callGhost] |} ].
Proof. eexists. repeat split. Qed.

(** C4, amended. When every tool call of an assistant turn names a
    server with no registered client, the engine does not crash: it
    prints "server not found" for each call, invokes no tool, appends the
    assistant message with the [tool_use] blocks and no [tool] message,
    makes no continuation call and returns nil. *)
Theorem unknown_server_no_result :
  forall fuel provider term mcpClients tools prompt w message w2 content,
    provider (providerCalls (acceptPrompt prompt w)) prompt
             (messages (acceptPrompt prompt w)) tools = inl message ->
    renderText term message (countProviderCall (acceptPrompt prompt w))
    = (w2, inl content) ->
    Forall (unknownServer mcpClients) (GetToolCalls message) ->
    exists w',
      runPrompt (S fuel) provider term mcpClients tools prompt w
      = Some (w', None)
      /\ messages w'
         = (messages (acceptPrompt prompt w)
              ++ [ {| Role := GetRole message;
                      Content := content ++ map toolUseOf (GetToolCalls message) |} ])%list
      /\ providerCalls w' = S (providerCalls w)
      /\ toolCalls w' = toolCalls w
      /\ forall c serverName toolName,
           In c (GetToolCalls message) ->
           resolveToolName (GetName c) = Some (serverName, toolName) ->
           In (PrintServerNotFound serverName) (output w').
Proof.
  intros fuel provider term mcpClients tools prompt w message w2 content
         Ha Hr Hall.
  rewrite (runPrompt_answered fuel provider term mcpClients tools prompt w
             message w2 content Ha Hr).
  set (d0 := {| messageContent := content; toolResults := []; world := w2 |}).
  unfold dispatchToolCalls.
  assert (Hun : Forall (fun c => is_Some (unresolved mcpClients c))
                       (GetToolCalls message)).
  { eapply Forall_impl; [exact Hall|]. intros c Hc.
    destruct (unknownServer_unresolved mcpClients c Hc) as (sv & tl & _ & Hu).
    by eexists. }
  destruct (dispatchList_all_unresolved mcpClients message
              (GetToolCalls message) d0 Hun) as (Hres & Hcalls & Hout).
  destruct (dispatchList_frame mcpClients message (GetToolCalls message) d0)
    as (Hm & Hp & _).
  destruct (DispatchFacts.dispatchList_extends mcpClients message
              (GetToolCalls message) d0) as [Hcont _].
  destruct (renderText_frame term message _ w2 _ Hr) as (Hm2 & Hp2 & Ht2 & _).
  destruct (acceptPrompt_frame prompt w) as (Hp0 & Ht0 & _).
  unfold finishTurn. rewrite Hres. subst d0. cbn [toolResults].
  eexists. split; [reflexivity|].
  cbn [messages providerCalls toolCalls output emit appendMessage].
  unfold assistantMessage.
  rewrite Hm, Hp, Hcalls, Hcont. cbn [messageContent world].
  rewrite Hm2, Hp2, Ht2. cbn [messages providerCalls toolCalls countProviderCall].
  rewrite Hp0, Ht0. repeat split.
  intros c sv tl Hin Hres'. apply in_app_iff. left.
  apply (Hout c _ Hin).
  rewrite List.Forall_forall in Hall.
  destruct (unknownServer_unresolved mcpClients c (Hall c Hin))
    as (sv' & tl' & Hres'' & Hu).
  congruence.
Qed.

Lemma unknown_server_no_result_witness :
  exists w',
    runPrompt 1 (scriptedProvider [callGhost]) plainTerminal calcOnly []
              "run it" initialWorld = Some (w', None)
    /\ messages w'
       = [ userMessage "run it";
           {| Role := "assistant"; Content := [toolUseOf callGhost] |} ]
    /\ providerCalls w' = 1%nat
    /\ toolCalls w' = 0%nat
    /\ forall c serverName toolName,
         In c [callGhost] ->
         resolveToolName (GetName c) = Some (serverName, toolName) ->
         In (PrintServerNotFound serverName) (output w').
Proof.
  apply (unknown_server_no_result 0 (scriptedProvider [callGhost])
           plainTerminal calcOnly [] "run it" initialWorld
           (toolTurn [callGhost])
           (countProviderCall (acceptPrompt "run it" initialWorld)) []).
  - reflexivity.
  - reflexivity.
  - constructor; [|constructor]. exists "ghost", "run". split; reflexivity.
Defined.

(** The iteration for a call that succeeds with nil content. *)
Lemma dispatch_nil_content mcpClients message d toolCall serverName toolName
    mcpClient fields :
  resolveToolName (GetName toolCall) = Some (serverName, toolName) ->
  mcpClients !! serverName = Some mcpClient ->
  GetArguments toolCall = ArgsObject fields ->
  CallTool mcpClient (toolCalls (world d)) toolName fields = CallResult None ->
  dispatchToolCall mcpClients message d toolCall
  = {| messageContent := (messageContent d ++ [toolUseOf toolCall])%list;
       toolResults := toolResults d;
       world := countToolCall (announced message toolCall (world d)) |}.
Proof.
  intros Hres Hl Hargs Hcall. unfold dispatchToolCall.
  fold (announced message toolCall (world d)).
  destruct (DispatchFacts.announced_frame message toolCall (world d))
    as (_ & _ & Ht & _).
  rewrite Hres, Hl, Hargs. cbn [json_Marshal json_Unmarshal].
  by rewrite Ht, Hcall.
Qed.

End TurnFacts.

(* ===================================================================== *)
(** * Tool-name resolution in the engine *)
(* ===================================================================== *)

Module ResolutionFacts.
Import Engine Spec Samples.

(** C6, as stated, fails: a name whose tool part contains the separator,
    here [srv__my__tool], is not resolved to [(srv, my__tool)]; it is
    rejected like a name without separator. *)
Lemma resolution_counterexample :
  resolveToolName "srv__my__tool" = None
  /\ resolveToolName "srv__my__tool" <> Some ("srv", "my__tool")
  /\ unresolved calcOnly
       {| GetName := "calc__my__tool"; GetID := "t5";
          GetArguments := ArgsObject [] |}
     = Some (PrintInvalidToolName "calc__my__tool").
Proof. repeat split. discriminate. Qed.

(** C6, amended. The name is split at every occurrence of [__] and is
    accepted only when exactly two parts result.
    [weather__get_forecast] resolves to server [weather] and tool
    [get_forecast]. A name without [__], such as [badname], is rejected,
    and a rejected name yields the "invalid tool name" line and no
    [tool_result] block. For a name [server__tool] whose first [__] ends
    the server part: it resolves to [(server, tool)] when the tool part
    holds no [__], and is rejected when it does. The names the registry
    advertises are of that form, [server__tool] for each tool of the
    server. *)
Theorem tool_name_resolution :
  resolveToolName "weather__get_forecast" = Some ("weather", "get_forecast")
  /\ resolveToolName "badname" = None
  /\ (forall name,
        strings.Contains name "__" = false -> resolveToolName name = None)
  /\ (forall mcpClients message d toolCall,
        resolveToolName (GetName toolCall) = None ->
        dispatchToolCall mcpClients message d toolCall
        = {| messageContent := (messageContent d ++ [toolUseOf toolCall])%list;
             toolResults := toolResults d;
             world := emit (PrintInvalidToolName (GetName toolCall))
                           (announced message toolCall (world d)) |})
  /\ (forall serverName toolName,
        strings.Contains (serverName ++ "_") "__" = false ->
        resolveToolName (Registry.namespacedName serverName toolName)
        = if strings.Contains toolName "__" then None
          else Some (serverName, toolName))
  /\ (forall serverName mcpTools,
        map ToolName (Registry.mcpToolsToAnthropicTools serverName mcpTools)
        = map (fun tool => Registry.namespacedName serverName (ToolName tool))
              mcpTools).
Proof.
  split; [reflexivity|]. split; [reflexivity|].
  split; [apply NameFacts.resolve_no_sep|]. split; [|split].
  - intros mcpClients message d toolCall H.
    apply DispatchFacts.dispatch_unresolved. unfold unresolved. by rewrite H.
  - apply NameFacts.resolve_first_sep.
  - intros serverName mcpTools. unfold Registry.mcpToolsToAnthropicTools.
    by rewrite map_map.
Qed.

Lemma tool_name_resolution_witness :
  resolveToolName "plainname" = None
  /\ toolResults (dispatchToolCall calcOnly (toolTurn []) emptyDispatch
                                   callBadName) = []
  /\ resolveToolName (Registry.namespacedName "calc" "add")
     = Some ("calc", "add")
  /\ resolveToolName (Registry.namespacedName "calc" "my__tool") = None.
Proof.
  destruct tool_name_resolution as (_ & _ & Hno & Hbad & Hfirst & _).
  split; [|split; [|split]].
  - apply Hno. reflexivity.
  - rewrite (Hbad calcOnly (toolTurn []) emptyDispatch callBadName eq_refl).
    reflexivity.
  - apply (Hfirst "calc" "add"). reflexivity.
  - apply (Hfirst "calc" "my__tool"). reflexivity.
Defined.

End ResolutionFacts.

(* ===================================================================== *)
(** * Properties of the session loop *)
(* ===================================================================== *)

Module SessionFacts.
Import Engine Spec Samples.




End SessionFacts.

(* ===================================================================== *)
(** * Properties of the connection setup *)
(* ===================================================================== *)

Module RegistryFacts.
Import Registry Spec Samples MoreSamples.

Lemma live_app (t1 t2 : list ConnEvent) :
  live (t1 ++ t2) = fold_left liveStep t2 (live t1).
Proof. unfold live. apply fold_left_app. Qed.

Lemma live_snoc (t : list ConnEvent) (e : ConnEvent) :
  live (t ++ [e]) = liveStep (live t) e.
Proof. by rewrite live_app. Qed.

Lemma fold_closed (names : list string) (L : gset string) :
  fold_left liveStep (map Closed names) L = L ∖ list_to_set names.
Proof.
  revert L. induction names as [|n names IH]; intros L; simpl.
  - set_solver.
  - rewrite IH. set_solver.
Qed.

(** Closing every client of the map leaves the clients it does not hold. *)
Lemma live_closeAll_diff (clients : gmap string MCPClient)
    (trace : list ConnEvent) :
  (forall n c, clients !! n = Some c -> handle c = n) ->
  live (closeAll clients trace) = live trace ∖ dom clients.
Proof.
  intros Hh. unfold closeAll.
  rewrite live_app, <- (map_map (fun kc => handle (snd kc)) Closed), fold_closed.
  apply set_eq. intros x.
  rewrite !elem_of_difference, elem_of_list_to_set, elem_of_dom.
  split; intros [Hx Hn]; (split; [exact Hx|]).
  - intros [c Hc]. apply Hn, list_elem_of_In, in_map_iff.
    exists (x, c). split; [by apply Hh|].
    by apply list_elem_of_In, elem_of_map_to_list.
  - intros Hin. apply Hn.
    apply list_elem_of_In, in_map_iff in Hin as ([n c] & Heq & Hin).
    apply list_elem_of_In, elem_of_map_to_list in Hin.
    simpl in Heq. rewrite (Hh n c Hin) in Heq. subst n. by exists c.
Qed.

(** Closing every client of the map leaves nothing, provided the clients
    not yet closed are among those the map holds. *)
Lemma live_closeAll (clients : gmap string MCPClient) (trace : list ConnEvent) :
  (forall n c, clients !! n = Some c -> handle c = n) ->
  live trace ⊆ dom clients ->
  live (closeAll clients trace) = ∅.
Proof.
  intros Hh Hsub. rewrite (live_closeAll_diff clients trace Hh). set_solver.
Qed.

(** The creation step: on success the new client is the one of that
    server and is counted; on failure nothing was created, except for an
    SSE client that was constructed and could not be started. No step
    closes anything. *)
Lemma newClient_spec mw name server trace trace' r :
  newClient mw name server trace = (trace', r) ->
  (forall n, In (Closed n) trace' -> In (Closed n) trace)
  /\ match r with
     | inl client =>
         client = clientOf mw name
         /\ startFails mw (name, server) = false
         /\ live trace' = live trace ∪ {[name]}
     | inr _ =>
         live trace'
         = if startFails mw (name, server) then live trace ∪ {[name]}
           else live trace
     end.
Proof.
  unfold newClient, startFails. cbn [fst snd].
  destruct (Config server) as [command args env|url headers].
  - destruct (NewStdioMCPClient _ _ _ _ _); intros [= <- <-].
    + by split.
    + split; [|by rewrite live_snoc].
      intros n [H|[H|[]]]%in_app_iff; [done | discriminate].
  - destruct (NewSSEMCPClient _ _ _ _); [intros [= <- <-]; by split|].
    destruct (Start mw name); intros [= <- <-].
    + split; [|by rewrite live_snoc].
      intros n [H|[H|[]]]%in_app_iff; [done | discriminate].
    + split.
      * intros n [[H|[H|[]]]%in_app_iff|[H|[]]]%in_app_iff;
          [done | discriminate | discriminate].
      * split; [done|]. split; [done|]. rewrite !live_snoc. simpl. set_solver.
Qed.

(** Whether the creation step succeeds does not depend on the trace. *)
Lemma newClient_result mw name server t1 t2 :
  snd (newClient mw name server t1) = snd (newClient mw name server t2).
Proof.
  unfold newClient. destruct (Config server) as [command args env|url headers].
  - by destruct (NewStdioMCPClient _ _ _ _ _).
  - destruct (NewSSEMCPClient _ _ _ _); [done|]. by destruct (Start mw name).
Qed.

(** The loop invariant: the map holds, under each name, the client of
    that server; the clients created and not closed are those of the
    map; nothing has been closed. When the loop fails it has stopped at
    the first server that does not come up, and what is left unclosed is
    the client of that server when its [Start] failed, nothing otherwise. *)
Lemma createLoop_spec mw servers :
  forall clients trace trace' result,
    (forall n c, clients !! n = Some c -> c = clientOf mw n) ->
    live trace = dom clients ->
    (forall n, ~ In (Closed n) trace) ->
    NoDup (map fst servers) ->
    (forall n, In n (map fst servers) -> clients !! n = None) ->
    createLoop mw servers clients trace = (trace', result) ->
    match result with
    | inr _ =>
        forallb (serverUp mw) servers = false
        /\ exists pre entry post,
             servers = (pre ++ entry :: post)%list
             /\ forallb (serverUp mw) pre = true
             /\ serverUp mw entry = false
             /\ live trace'
                = if startFails mw entry then {[fst entry]} else ∅
    | inl clients' =>
        forallb (serverUp mw) servers = true
        /\ dom clients' = dom clients ∪ list_to_set (map fst servers)
        /\ (forall n c, clients' !! n = Some c -> c = clientOf mw n)
        /\ live trace' = dom clients'
        /\ (forall n, ~ In (Closed n) trace')
        /\ size clients' = (size clients + length servers)%nat
    end.
Proof.
  induction servers as [|[name server] rest IH];
    intros clients trace trace' result Hc Hlive Hncl Hnd Hfresh E.
  - simpl in E. injection E as <- <-. simpl.
    repeat split; [set_solver | done | done | done | lia].
  - cbn [createLoop] in E.
    assert (Hup : serverUp mw (name, server)
                  = match snd (newClient mw name server trace) with
                    | inl _ => match Initialize mw name with
                               | None => true
                               | Some _ => false
                               end
                    | inr _ => false
                    end).
    { unfold serverUp. cbn [fst snd].
      by rewrite (newClient_result mw name server [] trace). }
    destruct (newClient mw name server trace) as [trace1 r] eqn:En.
    destruct (newClient_spec mw name server trace trace1 r En) as [Hcl Hr].
    assert (Hhandle : forall n c, clients !! n = Some c -> handle c = n).
    { intros n c H. by rewrite (Hc n c H). }
    assert (Hname : clients !! name = None) by (apply Hfresh; by left).
    assert (Hnotin : name ∉ dom clients) by (by apply not_elem_of_dom).
    cbn [snd] in Hup. destruct r as [client|err].
    + destruct Hr as (-> & Hsf & Hl1).
      destruct (Initialize mw name) as [err|] eqn:Ei.
      * injection E as <- <-. cbn [forallb]. rewrite Hup. split; [done|].
        exists [], (name, server), rest. repeat split; try done.
        rewrite Hsf. apply live_closeAll; [done|]. rewrite live_snoc. simpl.
        rewrite Hl1, Hlive. set_solver.
      * inversion Hnd as [|? ? Hnotin' Hnd']; subst.
        assert (Hc1 : forall n c,
                   <[name := clientOf mw name]> clients !! n = Some c ->
                   c = clientOf mw n).
        { intros n c. rewrite lookup_insert.
          case_decide; [intros [= <-]; by subst | by apply Hc]. }
        assert (Hlive1 : live (trace1 ++ [Initialized name])
                         = dom (<[name := clientOf mw name]> clients)).
        { rewrite live_snoc, dom_insert_L. simpl. rewrite Hl1, Hlive.
          set_solver. }
        assert (Hncl1 : forall n, ~ In (Closed n) (trace1 ++ [Initialized name])).
        { intros n Hin. apply in_app_iff in Hin as [Hin|Hin].
          - by apply (Hncl n), Hcl.
          - destruct Hin as [Hin|[]]. discriminate. }
        assert (Hfresh1 : forall n, In n (map fst rest) ->
                   <[name := clientOf mw name]> clients !! n = None).
        { intros n Hin. rewrite lookup_insert_ne.
          - apply Hfresh. by right.
          - intros ->. by apply Hnotin', list_elem_of_In. }
        pose proof (IH _ _ _ _ Hc1 Hlive1 Hncl1 Hnd' Hfresh1 E) as H.
        cbn [forallb]. rewrite Hup. cbn [andb].
        destruct result as [clients'|err].
        -- destruct H as (Hall & Hdom & Hc' & Hlive' & Hncl' & Hsize).
           split; [exact Hall|]. split.
           { rewrite Hdom, dom_insert_L. simpl. set_solver. }
           split; [exact Hc'|]. split; [exact Hlive'|]. split; [exact Hncl'|].
           rewrite Hsize, map_size_insert_None by done. simpl. lia.
        -- destruct H as (Hall & pre & entry & post & -> & Hpre & Hdown & Hl).
           split; [exact Hall|].
           exists ((name, server) :: pre), entry, post.
           repeat split; try done.
           cbn [forallb]. by rewrite Hup, Hpre.
    + injection E as <- <-. cbn [forallb]. rewrite Hup. split; [done|].
      exists [], (name, server), rest. repeat split; try done.
      rewrite (live_closeAll_diff clients trace1 Hhandle), Hr.
      destruct (startFails mw (name, server)); rewrite Hlive; set_solver.
Qed.

(** C8, a defect of the code at one path. Connection setup rolls back,
    with one exception. When the creation or the handshake of a server
    fails, an error is returned, the loop has stopped at the first
    server that does not come up, and [Close] has been called on every
    client created before it and on the failing client itself when its
    handshake failed. But the client of an SSE server that was
    constructed and whose [Start] failed is not closed: it is the one
    client left. When every server comes up, the returned map holds
    exactly one client per configured server, the client of that server,
    none of them closed. *)
Theorem startup_rollback :
  forall mw servers trace result,
    NoDup (map fst servers) ->
    createMCPClients mw servers = (trace, result) ->
    match result with
    | inr _ =>
        forallb (serverUp mw) servers = false
        /\ exists pre entry post,
             servers = (pre ++ entry :: post)%list
             /\ forallb (serverUp mw) pre = true
             /\ serverUp mw entry = false
             /\ live trace = if startFails mw entry then {[fst entry]} else ∅
    | inl clients =>
        forallb (serverUp mw) servers = true
        /\ dom clients = list_to_set (map fst servers)
        /\ size clients = length servers
        /\ (forall name, In name (map fst servers) ->
              clients !! name = Some (clientOf mw name))
        /\ live trace = dom clients
        /\ (forall name, ~ In (Closed name) trace)
    end.
Proof.
  intros mw servers trace result Hnd E. unfold createMCPClients in E.
  pose proof (createLoop_spec mw servers ∅ [] trace result) as H.
  lapply H; [clear H; intros H | intros n c; by rewrite lookup_empty].
  lapply H; [clear H; intros H | by rewrite dom_empty_L].
  lapply H; [clear H; intros H | intros n []].
  specialize (H Hnd).
  lapply H; [clear H; intros H | intros n _; apply lookup_empty].
  specialize (H E). destruct result as [clients|err]; [|exact H].
  destruct H as (Hall & Hdom & Hc & Hlive & Hncl & Hsize).
  rewrite dom_empty_L, union_empty_l_L in Hdom.
  rewrite map_size_empty in Hsize.
  repeat split; try done.
  intros name Hin.
  assert (Hd : name ∈ dom clients).
  { rewrite Hdom. by apply elem_of_list_to_set, list_elem_of_In. }
  apply elem_of_dom in Hd as [c Hl]. by rewrite Hl, (Hc name c Hl).
Qed.

Lemma startup_rollback_witness :
  (createMCPClients searchDown threeServers
   = ([Spawned "files"; Initialized "files"; Constructed "search";
       Closed "files"],
      inr "创建 MCP 客户端失败（search）: connection refused")
   /\ exists pre entry post,
        threeServers = (pre ++ entry :: post)%list
        /\ forallb (serverUp searchDown) pre = true
        /\ serverUp searchDown entry = false
        /\ live (fst (createMCPClients searchDown threeServers))
           = if startFails searchDown entry then {[fst entry]} else ∅)
  /\ (createMCPClients searchRefuses threeServers
      = ([Spawned "files"; Initialized "files"; Constructed "search";
          Started "search"; Closed "search"; Closed "files"],
         inr "初始化 MCP 客户端失败（search）: handshake failed")
      /\ createMCPClients calcDown threeServers
         = ([Spawned "files"; Initialized "files"; Constructed "search";
             Started "search"; Initialized "search"; Spawned "calc";
             Closed "calc"; Closed "search"; Closed "files"],
            inr "初始化 MCP 客户端失败（calc）: handshake failed"))
  /\ (exists trace clients,
        createMCPClients allUp threeServers = (trace, inl clients)
        /\ size clients = 3%nat
        /\ live trace = dom clients
        /\ clients !! "search" = Some (clientOf allUp "search")).
Proof.
  assert (Hnd : NoDup (map fst threeServers)).
  { apply (bool_decide_unpack _). vm_compute. exact I. }
  split; [split; [reflexivity|]|split; [split; reflexivity|]].
  - exact (proj2 (startup_rollback searchDown threeServers
                    (fst (createMCPClients searchDown threeServers))
                    (snd (createMCPClients searchDown threeServers))
                    Hnd eq_refl)).
  - pose proof (startup_rollback allUp threeServers
                  (fst (createMCPClients allUp threeServers))
                  (snd (createMCPClients allUp threeServers))
                  Hnd eq_refl) as H.
    destruct (snd (createMCPClients allUp threeServers)) as [clients|err] eqn:E;
      [|discriminate E].
    destruct H as (_ & _ & Hsize & Hlook & Hlive & _).
    exists (fst (createMCPClients allUp threeServers)), clients.
    split; [by rewrite <- E|]. repeat split; try done.
    apply Hlook. simpl. tauto.
Defined.

End RegistryFacts.

(* ===================================================================== *)
(** * More on the history pruner *)
(* ===================================================================== *)

Module PrunerMore.
Import Pruner Props Samples MoreSamples.

Lemma filter_sublist {A} (f : A -> bool) (l : list A) :
  sublist (List.filter f l) l.
Proof.
  induction l as [|x l IH]; simpl; [constructor|].
  destruct (f x); by constructor.
Qed.

Lemma Thinned_refl (h : list HistoryMessage) : Thinned h h.
Proof. induction h as [|m h IH]; constructor; done. Qed.

Lemma Thinned_drop (n : nat) (h' h : list HistoryMessage) :
  Thinned h' (drop n h) -> Thinned h' h.
Proof.
  revert h. induction n as [|n IH]; intros [|m h]; simpl; try done.
  intros H. constructor. by apply IH.
Qed.

Lemma pruneWindow_thinned (ms : list HistoryMessage) :
  Thinned (pruneWindow ms) ms.
Proof.
  unfold pruneWindow. destruct (collectIds ms) as [u r].
  induction ms as [|m ms IH]; simpl; [constructor|].
  unfold pruneMessage at 1. destruct (retained _ _ _); simpl.
  - constructor; [done | apply filter_sublist | done].
  - by constructor.
Qed.

Lemma pruneMessages_thinned (w : Z) (h h' : list HistoryMessage) :
  pruneMessages w h = Some h' -> Thinned h' h.
Proof.
  unfold pruneMessages. intros E.
  destruct (Z.of_nat (length h) <=? w); [injection E as <-; apply Thinned_refl|].
  destruct (w <? 0); [discriminate|]. injection E as <-.
  eapply Thinned_drop, pruneWindow_thinned.
Qed.

Lemma pruneMessages_some (w : Z) (h : list HistoryMessage) :
  0 <= w -> exists h', pruneMessages w h = Some h'.
Proof.
  intros Hw. destruct (Z.le_gt_cases (Z.of_nat (length h)) w).
  - exists h. by apply PrunerFacts.pruneMessages_short.
  - eexists. apply (PrunerFacts.pruneMessages_long w h). lia.
Qed.

(** X1. The pruner only leaves out: what it returns is the history with
    messages and blocks removed, nothing added, reordered or relabelled. *)
Theorem prune_only_removes :
  forall (w : Z) (h h' : list HistoryMessage),
    pruneMessages w h = Some h' ->
    Thinned h' h
    /\ Z.of_nat (length h') <= w
    /\ (length h' <= length h)%nat.
Proof.
  intros w h h' E. split; [|split].
  - by apply (pruneMessages_thinned w).
  - by apply (PrunerFacts.pruneMessages_length w h).
  - unfold pruneMessages in E.
    destruct (Z.of_nat (length h) <=? w); [injection E as <-; lia|].
    destruct (w <? 0); [discriminate|]. injection E as <-.
    etransitivity; [apply PrunerFacts.pruneWindow_length|].
    rewrite length_drop. lia.
Qed.

Lemma prune_only_removes_witness :
  Thinned [ {| Role := "assistant"; Content := [textBlock "3"] |} ]
          sampleHistory.
Proof.
  apply (proj1 (prune_only_removes 3 sampleHistory
                  [ {| Role := "assistant"; Content := [textBlock "3"] |} ]
                  eq_refl)).
Defined.

Lemma window_of_prune (w : Z) (h h' : list HistoryMessage) :
  pruneMessages w h = Some h' ->
  h' = h /\ window w h = h
  \/ (0 <= w < Z.of_nat (length h) /\ h' = pruneWindow (window w h)).
Proof.
  unfold pruneMessages, window. intros E.
  destruct (Z.leb_spec (Z.of_nat (length h)) w).
  - injection E as <-. left. split; [done|].
    replace (length h - Z.to_nat w)%nat with 0%nat by lia. done.
  - destruct (Z.ltb_spec w 0); [discriminate|]. injection E as <-. right.
    split; [lia|]. f_equal. f_equal. lia.
Qed.

(** X2. Text is never pruned inside the window: every block of the last [w]
    messages that is neither a tool call nor a tool result is still
    there, in a message of the same role. *)
Theorem prune_keeps_text :
  forall (w : Z) (h h' : list HistoryMessage) (m : HistoryMessage)
         (b : ContentBlock),
    pruneMessages w h = Some h' ->
    In m (window w h) -> In b (Content m) ->
    isToolUse b = false -> isToolResult b = false ->
    exists m', In m' h' /\ Role m' = Role m /\ In b (Content m').
Proof.
  intros w h h' m b E Hm Hb Hu Hr.
  destruct (window_of_prune w h h' E) as [[-> Hw]|[_ ->]].
  - rewrite Hw in Hm. by exists m.
  - unfold pruneWindow. destruct (collectIds (window w h)) as [u r].
    assert (Hk : keep u r b = true).
    { unfold keep. unfold isToolUse in Hu. unfold isToolResult in Hr.
      by rewrite Hu, Hr. }
    exists {| Role := Role m; Content := pruneBlocks u r (Content m) |}.
    split; [|split; [done|]].
    + apply in_flat_map. exists m. split; [done|].
      rewrite (PrunerFacts.pruneMessage_surviving u r m b Hb Hk). by left.
    + simpl. by apply filter_In.
Qed.

Lemma prune_keeps_text_witness :
  exists m', In m' [ {| Role := "assistant"; Content := [textBlock "3"] |} ]
             /\ Role m' = "assistant" /\ In (textBlock "3") (Content m').
Proof.
  apply (prune_keeps_text 3 sampleHistory _
           {| Role := "assistant"; Content := [textBlock "3"] |}
           (textBlock "3") eq_refl).
  - simpl. tauto.
  - simpl. tauto.
  - reflexivity.
  - reflexivity.
Defined.

(** X3. A window that is already consistent is kept as it is: when the last
    [w] messages are paired and none of them is empty, pruning is just
    the cut to the window. *)
Theorem prune_paired_window :
  forall (w : Z) (h : list HistoryMessage),
    0 <= w < Z.of_nat (length h) ->
    Paired (window w h) ->
    Forall (fun m => Content m <> []) (window w h) ->
    pruneMessages w h = Some (window w h).
Proof.
  intros w h Hw [Huse Hres] Hne.
  rewrite PrunerFacts.pruneMessages_long by done.
  replace (drop (Z.to_nat (Z.of_nat (length h) - w)) h) with (window w h)
    by (unfold window; f_equal; lia).
  f_equal. set (ms := window w h) in *.
  unfold pruneWindow. destruct (collectIds ms) as [u r] eqn:E.
  assert (Hkeep : forall m b, In m ms -> In b (Content m) -> keep u r b = true).
  { intros m b Hm Hb. unfold keep.
    destruct (String.eqb (Type_ b) "tool_use") eqn:Hu.
    - pose proof (PrunerFacts.collectIds_spec ms (ID b)) as [_ Hr].
      rewrite E in Hr. apply Hr, Huse, PrunerFacts.in_toolUseIdsOf.
      by exists m, b.
    - destruct (String.eqb (Type_ b) "tool_result") eqn:Ht; [|done].
      pose proof (PrunerFacts.collectIds_spec ms (ToolUseID b)) as [Hr _].
      rewrite E in Hr. apply Hr, Hres, PrunerFacts.in_toolResultRefsOf.
      by exists m, b. }
  clear E Huse Hres.
  assert (Hall : forall m, In m ms -> pruneMessage u r m = [m]).
  { intros m Hm.
    assert (Hf : pruneBlocks u r (Content m) = Content m).
    { unfold pruneBlocks. apply forallb_filter_id, forallb_forall.
      intros b Hb. by apply (Hkeep m). }
    unfold pruneMessage. rewrite PrunerFacts.retained_iff_nonempty, Hf.
    rewrite List.Forall_forall in Hne. specialize (Hne m Hm).
    destruct m as [role [|b bs]]; simpl in *; [done | done]. }
  clear Hkeep Hne. induction ms as [|m ms IH]; [done|].
  simpl. rewrite (Hall m) by (by left). simpl. f_equal.
  apply IH. intros m' Hm'. apply Hall. by right.
Qed.

Lemma prune_paired_window_witness :
  Paired (window 3 pairedHistory)
  /\ In "t1" (toolUseIdsOf (window 3 pairedHistory))
  /\ In "t1" (toolResultRefsOf (window 3 pairedHistory))
  /\ pruneMessages 3 pairedHistory
     = Some [ {| Role := "assistant";
                 Content := [textBlock "let me see"; Engine.toolUseOf callAdd] |};
              Engine.toolMessage
                (toolResultBlock "t1" "3" (ContentMcp [TextContent "3"]));
              {| Role := "assistant"; Content := [textBlock "3"] |} ].
Proof.
  assert (Hp : Paired (window 3 pairedHistory)).
  { split; intros i [<-|[]]; by left. }
  split; [exact Hp|]. split; [by left|]. split; [by left|].
  apply (prune_paired_window 3 pairedHistory).
  - simpl. lia.
  - exact Hp.
  - repeat constructor; discriminate.
Defined.

End PrunerMore.

(* ===================================================================== *)
(** * More on the model call with retry *)
(* ===================================================================== *)

Module RetryMore.
Import Engine Spec Props Samples.

(** Whatever the provider answers, a loop that has made [retries]
    retries stops after at most [maxRetries - retries] further sleeps,
    each the capped double of the one before; it touches nothing but the
    call counter, the sleeps and the log. *)
Lemma retryLoop_trace provider tools prompt llmMessages fuel :
  forall backoff retries w w' res,
    retryLoop fuel provider tools prompt llmMessages backoff retries w
    = Some (w', res) ->
    exists k,
      (Z.of_nat k <= Z.max 0 (maxRetries - retries))
      /\ slept w' = (slept w ++ backoffs k backoff)%list
      /\ providerCalls w' = (providerCalls w + k + 1)%nat
      /\ messages w' = messages w
      /\ toolCalls w' = toolCalls w.
Proof.
  induction fuel as [|fuel IH]; intros backoff retries w w' res E; [discriminate|].
  simpl in E.
  destruct (provider (providerCalls w) prompt llmMessages tools) as [m|err].
  { injection E as <- <-. exists 0%nat. simpl. rewrite app_nil_r.
    repeat split; lia. }
  destruct (isOverloaded err).
  2:{ injection E as <- <-. exists 0%nat. simpl. rewrite app_nil_r.
      repeat split; lia. }
  destruct (Z.geb_spec retries maxRetries) as [Hge|Hlt].
  { injection E as <- <-. exists 0%nat. simpl. rewrite app_nil_r.
    repeat split; lia. }
  apply IH in E as (k & Hk & Hs & Hp & Hm & Ht). exists (S k).
  simpl in *. rewrite Hs, Hp, <- app_assoc. repeat split; try done; lia.
Qed.

Lemma backoffs_schedule (k : nat) :
  (k <= 5)%nat -> backoffs k initialBackoff = take k backoffSchedule.
Proof.
  intros H. do 6 (destruct k as [|k]; [reflexivity|]). lia.
Qed.

Lemma total_take_schedule (k : nat) :
  (k <= 5)%nat -> total (take k backoffSchedule) <= 31 * second.
Proof.
  intros H. do 6 (destruct k as [|k]; [vm_compute; discriminate|]). lia.
Qed.

(** X4. Whatever the provider does, one model call of [runPrompt] makes at
    most [1 + maxRetries = 6] attempts and sleeps the first [k] delays
    of the schedule 1s, 2s, 4s, 8s, 16s for the [k <= 5] retries it
    made, 31 seconds at most; history is not touched while it retries. *)
Theorem model_call_bounded :
  forall provider tools prompt llmMessages w,
    exists w' res k,
      retryLoop retryFuel provider tools prompt llmMessages initialBackoff 0 w
      = Some (w', res)
      /\ (k <= 5)%nat
      /\ providerCalls w' = (providerCalls w + k + 1)%nat
      /\ slept w' = (slept w ++ take k backoffSchedule)%list
      /\ total (take k backoffSchedule) <= 31 * second
      /\ messages w' = messages w
      /\ toolCalls w' = toolCalls w.
Proof.
  intros provider tools prompt llmMessages w.
  destruct (RetryFacts.retryLoop_returns provider tools prompt llmMessages w)
    as [[w' res] E].
  destruct (retryLoop_trace provider tools prompt llmMessages _ _ _ _ _ _ E)
    as (k & Hk & Hs & Hp & Hm & Ht).
  assert (Hk5 : (k <= 5)%nat) by (unfold maxRetries in Hk; lia).
  exists w', res, k. rewrite <- backoffs_schedule by done.
  repeat split; try done.
  rewrite backoffs_schedule by done. by apply total_take_schedule.
Qed.

Lemma retryLoop_recovers provider tools prompt llmMessages message k :
  forall fuel backoff retries w,
    recoversAfter provider (providerCalls w) k prompt llmMessages tools message ->
    0 <= retries -> retries + Z.of_nat k <= maxRetries -> (k < fuel)%nat ->
    exists w',
      retryLoop fuel provider tools prompt llmMessages backoff retries w
      = Some (w', inl message)
      /\ slept w' = (slept w ++ backoffs k backoff)%list
      /\ providerCalls w' = (providerCalls w + k + 1)%nat
      /\ messages w' = messages w.
Proof.
  induction k as [|k IH]; intros fuel backoff retries w [Hov Hok] Hr Hle Hf.
  - destruct fuel as [|fuel]; [lia|]. rewrite Nat.add_0_r in Hok.
    rewrite (RetryFacts.retryLoop_success provider tools prompt llmMessages
               fuel backoff retries w message Hok).
    eexists. split; [reflexivity|]. simpl. rewrite app_nil_r.
    repeat split; lia.
  - destruct fuel as [|fuel]; [lia|].
    destruct (Hov 0%nat ltac:(lia)) as (err & He & Ho).
    rewrite Nat.add_0_r in He.
    rewrite (RetryFacts.retryLoop_overloaded provider tools prompt llmMessages
               fuel backoff retries w err He Ho).
    destruct (Z.geb_spec retries maxRetries) as [Hge|Hlt]; [lia|].
    set (w1 := sleep backoff _).
    destruct (IH fuel (nextBackoff backoff) (retries + 1) w1)
      as (w' & E & Hs & Hp & Hm); [| lia | lia | lia |].
    + split.
      * intros i Hi. destruct (Hov (S i) ltac:(lia)) as (e & He' & Ho').
        exists e. split; [|done]. rewrite <- He'. f_equal.
        subst w1. simpl. lia.
      * rewrite <- Hok. f_equal. subst w1. simpl. lia.
    + exists w'. split; [done|]. subst w1. simpl in *.
      rewrite Hs, Hp, <- app_assoc. repeat split; try done. lia.
Qed.

(** X5. An overload that passes is not reported: when the provider is
    overloaded on [k <= maxRetries] attempts in a row and answers the
    next one, the model call returns that answer, after [k + 1] attempts
    and the first [k] delays of the schedule. *)
Theorem overload_recovery :
  forall provider tools prompt llmMessages w message k,
    (k <= 5)%nat ->
    recoversAfter provider (providerCalls w) k prompt llmMessages tools message ->
    exists w',
      retryLoop retryFuel provider tools prompt llmMessages initialBackoff 0 w
      = Some (w', inl message)
      /\ slept w' = (slept w ++ take k backoffSchedule)%list
      /\ providerCalls w' = (providerCalls w + k + 1)%nat
      /\ messages w' = messages w.
Proof.
  intros provider tools prompt llmMessages w message k Hk Hrec.
  destruct (retryLoop_recovers provider tools prompt llmMessages message k
              retryFuel initialBackoff 0 w Hrec)
    as (w' & E & Hs & Hp & Hm).
  - lia.
  - unfold maxRetries. lia.
  - unfold retryFuel, maxRetries. simpl. lia.
  - exists w'. by rewrite <- backoffs_schedule.
Qed.

Lemma overload_recovery_witness :
  exists w',
    retryLoop retryFuel
      (fun n _ _ _ => if (n <? 2)%nat then inr "overloaded_error"
                      else inl (finalTurn "done"))
      [] "hello" [] initialBackoff 0 initialWorld
    = Some (w', inl (finalTurn "done"))
    /\ slept w' = [1 * second; 2 * second]
    /\ providerCalls w' = 3%nat
    /\ messages w' = [].
Proof.
  apply (overload_recovery
           (fun n _ _ _ => if (n <? 2)%nat then inr "overloaded_error"
                           else inl (finalTurn "done"))
           [] "hello" [] initialWorld (finalTurn "done") 2).
  - lia.
  - split; [|reflexivity].
    intros i Hi. exists "overloaded_error". split; [|reflexivity].
    simpl. destruct i as [|[|i]]; [reflexivity | reflexivity | lia].
Defined.

End RetryMore.

(* ===================================================================== *)
(** * More on [runPrompt]: whole turns *)
(* ===================================================================== *)

Module TurnMore.
Import Engine Spec Props Samples MoreSamples.

Lemma acceptPrompt_messages prompt w :
  messages (acceptPrompt prompt w)
  = (messages w ++ if nonEmpty prompt then [userMessage prompt] else [])%list.
Proof.
  unfold acceptPrompt. destruct (nonEmpty prompt); simpl; [done|].
  by rewrite app_nil_r.
Qed.

(** With a renderer that can be updated the text of the answer always
    becomes the first block of the assistant message, whether or not
    [Render] itself fails. *)
Lemma renderText_ok term message w :
  updateRenderer term = None ->
  exists w2, renderText term message w = (w2, inl (textContent message)).
Proof.
  intros Hu. unfold renderText, textContent. rewrite Hu.
  destruct (nonEmpty (GetContent message)); by eexists.
Qed.

(** A turn whose model call is answered at the first attempt. *)
Lemma runPrompt_turn fuel provider term mcpClients tools prompt w message :
  provider (providerCalls (acceptPrompt prompt w)) prompt
           (messages (acceptPrompt prompt w)) tools = inl message ->
  updateRenderer term = None ->
  exists w2,
    renderText term message (countProviderCall (acceptPrompt prompt w))
    = (w2, inl (textContent message))
    /\ runPrompt (S fuel) provider term mcpClients tools prompt w
       = finishTurn (runPrompt fuel provider term mcpClients tools) message
           (dispatchToolCalls mcpClients message
              {| messageContent := textContent message; toolResults := [];
                 world := w2 |}).
Proof.
  intros Ha Hu.
  destruct (renderText_ok term message
              (countProviderCall (acceptPrompt prompt w)) Hu) as [w2 Hr].
  exists w2. split; [done|].
  by apply TurnFacts.runPrompt_answered.
Qed.

(** The frame of a first-attempt turn before the tool loop. *)
Lemma rendered_frame term message prompt w w2 r :
  renderText term message (countProviderCall (acceptPrompt prompt w)) = (w2, r) ->
  messages w2 = messages (acceptPrompt prompt w)
  /\ providerCalls w2 = S (providerCalls w)
  /\ toolCalls w2 = toolCalls w
  /\ slept w2 = slept w.
Proof.
  intros Hr.
  destruct (TurnFacts.renderText_frame term message _ w2 _ Hr)
    as (Hm & Hp & Ht & Hs & _).
  destruct (TurnFacts.acceptPrompt_frame prompt w) as (Hp0 & Ht0 & Hs0).
  simpl in *. by rewrite Hm, Hp, Ht, Hs, Hp0, Ht0, Hs0.
Qed.

Lemma final_answer_turn fuel provider term mcpClients tools prompt w message :
  provider (providerCalls (acceptPrompt prompt w)) prompt
           (messages (acceptPrompt prompt w)) tools = inl message ->
  updateRenderer term = None ->
  GetToolCalls message = [] ->
  exists w',
    runPrompt (S fuel) provider term mcpClients tools prompt w
    = Some (w', None)
    /\ messages w'
       = (messages w
            ++ (if nonEmpty prompt then [userMessage prompt] else [])
            ++ [ {| Role := GetRole message;
                    Content := textContent message |} ])%list
    /\ providerCalls w' = S (providerCalls w)
    /\ toolCalls w' = toolCalls w
    /\ slept w' = slept w.
Proof.
  intros Ha Hu Hcalls.
  destruct (runPrompt_turn fuel provider term mcpClients tools prompt w
              message Ha Hu) as (w2 & Hr & ->).
  destruct (rendered_frame term message prompt w w2 _ Hr) as (Hm & Hp & Ht & Hs).
  unfold dispatchToolCalls, dispatchList. rewrite Hcalls. simpl.
  eexists. split; [reflexivity|]. simpl.
  rewrite Hm, Hp, Ht, Hs, acceptPrompt_messages, <- app_assoc. done.
Qed.

(** X6. A turn without tool calls: the history grows by the user message
    (for a non-empty prompt) and the assistant message, the model is
    called once, no tool runs, and [runPrompt] returns nil. A failure of
    [Render] does not change that. *)
Theorem simple_turn :
  forall fuel provider term mcpClients tools prompt w message,
    provider (providerCalls (acceptPrompt prompt w)) prompt
             (messages (acceptPrompt prompt w)) tools = inl message ->
    updateRenderer term = None ->
    GetToolCalls message = [] ->
    exists w',
      runPrompt (S fuel) provider term mcpClients tools prompt w
      = Some (w', None)
      /\ messages w'
         = (messages w
              ++ (if nonEmpty prompt then [userMessage prompt] else [])
              ++ [ {| Role := GetRole message;
                      Content := textContent message |} ])%list
      /\ providerCalls w' = S (providerCalls w)
      /\ toolCalls w' = toolCalls w
      /\ slept w' = slept w.
Proof.
  intros. by apply final_answer_turn.
Qed.

Lemma simple_turn_witness :
  exists w',
    runPrompt 1 (fun _ _ _ _ => inl (finalTurn "hi there")) plainTerminal
              calcOnly [] "hello" initialWorld = Some (w', None)
    /\ messages w'
       = [ userMessage "hello";
           {| Role := "assistant"; Content := [textBlock "hi there"] |} ]
    /\ providerCalls w' = 1%nat
    /\ toolCalls w' = 0%nat
    /\ slept w' = [].
Proof.
  apply (simple_turn 0 (fun _ _ _ _ => inl (finalTurn "hi there"))
           plainTerminal calcOnly [] "hello" initialWorld
           (finalTurn "hi there")); reflexivity.
Defined.

(** The iteration for a call that reaches a tool. *)
Lemma dispatch_called mcpClients message d toolCall serverName toolName
    mcpClient fields :
  resolveToolName (GetName toolCall) = Some (serverName, toolName) ->
  mcpClients !! serverName = Some mcpClient ->
  GetArguments toolCall = ArgsObject fields ->
  dispatchToolCall mcpClients message d toolCall
  = match CallTool mcpClient (toolCalls (world d)) toolName fields with
    | CallError err =>
        {| messageContent := (messageContent d ++ [toolUseOf toolCall])%list;
           toolResults :=
             (toolResults d
                ++ [toolResultBlock (GetID toolCall) ""
                      (ContentBlocks
                         [textBlock ("调用工具 " ++ toolName ++ " 错误: " ++ err)])])%list;
           world := emit (PrintToolError
                            ("调用工具 " ++ toolName ++ " 错误: " ++ err))
                         (countToolCall (announced message toolCall (world d))) |}
    | CallResult None =>
        {| messageContent := (messageContent d ++ [toolUseOf toolCall])%list;
           toolResults := toolResults d;
           world := countToolCall (announced message toolCall (world d)) |}
    | CallResult (Some content) =>
        {| messageContent := (messageContent d ++ [toolUseOf toolCall])%list;
           toolResults :=
             (toolResults d
                ++ [toolResultBlock (GetID toolCall)
                      (strings.TrimSpace (resultText content))
                      (ContentMcp content)])%list;
           world := countToolCall (announced message toolCall (world d)) |}
    end.
Proof.
  intros Hres Hl Hargs. unfold dispatchToolCall.
  fold (announced message toolCall (world d)).
  destruct (DispatchFacts.announced_frame message toolCall (world d))
    as (_ & _ & Ht & _).
  rewrite Hres, Hl, Hargs. cbn [json_Marshal json_Unmarshal]. rewrite Ht.
  by destruct (CallTool mcpClient _ toolName fields) as [err|[content|]].
Qed.

(** The first round of a turn with one tool call that reaches its tool
    and yields a result block: the continuation sees the assistant
    message and the tool message. *)
Lemma one_call_round fuel provider term mcpClients tools prompt w message
    toolCall serverName toolName mcpClient fields block out :
  provider (providerCalls (acceptPrompt prompt w)) prompt
           (messages (acceptPrompt prompt w)) tools = inl message ->
  updateRenderer term = None ->
  GetToolCalls message = [toolCall] ->
  resolveToolName (GetName toolCall) = Some (serverName, toolName) ->
  mcpClients !! serverName = Some mcpClient ->
  GetArguments toolCall = ArgsObject fields ->
  (CallTool mcpClient (toolCalls w) toolName fields = CallError out
   /\ block = toolResultBlock (GetID toolCall) ""
                (ContentBlocks
                   [textBlock ("调用工具 " ++ toolName ++ " 错误: " ++ out)])
   \/ exists content,
       CallTool mcpClient (toolCalls w) toolName fields
       = CallResult (Some content)
       /\ block = toolResultBlock (GetID toolCall)
                    (strings.TrimSpace (resultText content))
                    (ContentMcp content)) ->
  exists w1,
    runPrompt (S fuel) provider term mcpClients tools prompt w
    = runPrompt fuel provider term mcpClients tools "" w1
    /\ messages w1
       = (messages (acceptPrompt prompt w)
            ++ [ {| Role := GetRole message;
                    Content := textContent message ++ [toolUseOf toolCall] |};
                 toolMessage block ])%list
    /\ providerCalls w1 = S (providerCalls w)
    /\ toolCalls w1 = S (toolCalls w)
    /\ slept w1 = slept w
    /\ (forall err, CallTool mcpClient (toolCalls w) toolName fields
                    = CallError err ->
        In (PrintToolError ("调用工具 " ++ toolName ++ " 错误: " ++ err))
           (output w1)).
Proof.
  intros Ha Hu Hcalls Hres Hl Hargs Hcall.
  destruct (runPrompt_turn fuel provider term mcpClients tools prompt w
              message Ha Hu) as (w2 & Hr & ->).
  destruct (rendered_frame term message prompt w w2 _ Hr) as (Hm & Hp & Ht & Hs).
  unfold dispatchToolCalls, dispatchList. rewrite Hcalls. cbn [fold_left].
  rewrite (dispatch_called mcpClients message _ toolCall serverName toolName
             mcpClient fields Hres Hl Hargs).
  cbn [world toolResults messageContent]. rewrite Ht.
  destruct (DispatchFacts.announced_frame message toolCall w2)
    as (Hma & Hpa & Hta & Hsa & _).
  destruct Hcall as [[Hcall ->]|(content & Hcall & ->)]; rewrite Hcall;
    unfold finishTurn; cbn [toolResults app];
    eexists; (split; [reflexivity|]);
    unfold appendToolMessages; cbn [fold_left];
    cbn [messages providerCalls toolCalls slept output appendMessage emit
         countToolCall assistantMessage messageContent world];
    rewrite Hma, Hpa, Hta, Hsa, Hm, Hp, Ht, Hs, <- app_assoc;
    (repeat split; try done);
    intros err' [= <-]; apply in_app_iff; right; by left.
Qed.

(** X7. A failed tool invocation is reported to the model: the engine prints
    the error, appends a [tool] message whose result block carries the
    error text, and calls the model again with that history. *)
Theorem tool_failure_fed_back :
  forall fuel provider term mcpClients tools prompt w message toolCall
         serverName toolName mcpClient fields err,
    provider (providerCalls (acceptPrompt prompt w)) prompt
             (messages (acceptPrompt prompt w)) tools = inl message ->
    updateRenderer term = None ->
    GetToolCalls message = [toolCall] ->
    resolveToolName (GetName toolCall) = Some (serverName, toolName) ->
    mcpClients !! serverName = Some mcpClient ->
    GetArguments toolCall = ArgsObject fields ->
    CallTool mcpClient (toolCalls w) toolName fields = CallError err ->
    exists w1,
      runPrompt (S fuel) provider term mcpClients tools prompt w
      = runPrompt fuel provider term mcpClients tools "" w1
      /\ messages w1
         = (messages (acceptPrompt prompt w)
              ++ [ {| Role := GetRole message;
                      Content := textContent message ++ [toolUseOf toolCall] |};
                   toolMessage
                     (toolResultBlock (GetID toolCall) ""
                        (ContentBlocks
                           [textBlock
                              ("调用工具 " ++ toolName ++ " 错误: " ++ err)])) ])%list
      /\ providerCalls w1 = S (providerCalls w)
      /\ In (PrintToolError ("调用工具 " ++ toolName ++ " 错误: " ++ err))
            (output w1).
Proof.
  intros fuel provider term mcpClients tools prompt w message toolCall
         serverName toolName mcpClient fields err Ha Hu Hcalls Hres Hl Hargs
         Hcall.
  destruct (one_call_round fuel provider term mcpClients tools prompt w message
              toolCall serverName toolName mcpClient fields _ err
              Ha Hu Hcalls Hres Hl Hargs (or_introl (conj Hcall eq_refl)))
    as (w1 & E & Hm & Hp & _ & _ & Hout).
  exists w1. repeat split; try done. by apply Hout.
Qed.

Lemma tool_failure_fed_back_witness :
  exists w1,
    runPrompt 2 (scriptedProvider
                   [ {| GetName := "calc__boom"; GetID := "t6";
                        GetArguments := ArgsObject [] |} ])
              plainTerminal calcOnly [] "try it" initialWorld
    = runPrompt 1 (scriptedProvider
                     [ {| GetName := "calc__boom"; GetID := "t6";
                          GetArguments := ArgsObject [] |} ])
                plainTerminal calcOnly [] "" w1
    /\ messages w1
       = [ userMessage "try it";
           {| Role := "assistant";
              Content := [toolUseBlock "t6" "calc__boom" (Some [])] |};
           toolMessage
             (toolResultBlock "t6" ""
                (ContentBlocks
                   [textBlock "调用工具 boom 错误: no such tool"])) ]
    /\ providerCalls w1 = 1%nat
    /\ In (PrintToolError "调用工具 boom 错误: no such tool") (output w1).
Proof.
  apply (tool_failure_fed_back 1
           (scriptedProvider
              [ {| GetName := "calc__boom"; GetID := "t6";
                   GetArguments := ArgsObject [] |} ])
           plainTerminal calcOnly [] "try it" initialWorld
           (toolTurn [ {| GetName := "calc__boom"; GetID := "t6";
                          GetArguments := ArgsObject [] |} ])
           {| GetName := "calc__boom"; GetID := "t6";
              GetArguments := ArgsObject [] |}
           "calc" "boom" calcClient [] "no such tool"); reflexivity.
Defined.

(** X8. One tool round trip: the model asks for one tool, the tool answers
    with content, the model then gives its final answer. The history
    grows by exactly four messages, user, assistant with the [tool_use],
    tool with the [tool_result], assistant, after two model calls and
    one tool call. *)
Theorem tool_round_trip :
  forall fuel provider term mcpClients tools prompt w first final toolCall
         serverName toolName mcpClient fields content,
    nonEmpty prompt = true ->
    updateRenderer term = None ->
    provider (providerCalls w) prompt (messages w ++ [userMessage prompt])%list
             tools = inl first ->
    GetToolCalls first = [toolCall] ->
    resolveToolName (GetName toolCall) = Some (serverName, toolName) ->
    mcpClients !! serverName = Some mcpClient ->
    GetArguments toolCall = ArgsObject fields ->
    CallTool mcpClient (toolCalls w) toolName fields
    = CallResult (Some content) ->
    provider (S (providerCalls w)) ""
      (messages w
         ++ [ userMessage prompt;
              {| Role := GetRole first;
                 Content := textContent first ++ [toolUseOf toolCall] |};
              toolMessage
                (toolResultBlock (GetID toolCall)
                   (strings.TrimSpace (resultText content))
                   (ContentMcp content)) ])%list
      tools = inl final ->
    GetToolCalls final = [] ->
    exists w',
      runPrompt (S (S fuel)) provider term mcpClients tools prompt w
      = Some (w', None)
      /\ messages w'
         = (messages w
              ++ [ userMessage prompt;
                   {| Role := GetRole first;
                      Content := textContent first ++ [toolUseOf toolCall] |};
                   toolMessage
                     (toolResultBlock (GetID toolCall)
                        (strings.TrimSpace (resultText content))
                        (ContentMcp content));
                   {| Role := GetRole final;
                      Content := textContent final |} ])%list
      /\ providerCalls w' = S (S (providerCalls w))
      /\ toolCalls w' = S (toolCalls w).
Proof.
  intros fuel provider term mcpClients tools prompt w first final toolCall
         serverName toolName mcpClient fields content
         Hne Hu Hfirst Hcalls Hres Hl Hargs Hcall Hfinal Hnone.
  destruct (TurnFacts.acceptPrompt_frame prompt w) as (Hp0 & _ & _).
  pose proof (acceptPrompt_messages prompt w) as Hm0. rewrite Hne in Hm0.
  destruct (one_call_round (S fuel) provider term mcpClients tools prompt w
              first toolCall serverName toolName mcpClient fields _ ""
              ltac:(by rewrite Hp0, Hm0) Hu Hcalls Hres Hl Hargs
              (or_intror (ex_intro _ content (conj Hcall eq_refl))))
    as (w1 & -> & Hm1 & Hp1 & Ht1 & _).
  rewrite Hm0, <- app_assoc in Hm1. simpl in Hm1.
  destruct (final_answer_turn fuel provider term mcpClients tools "" w1 final)
    as (w' & E & Hm & Hp & Ht & _); [|done|done|].
  { change (acceptPrompt "" w1) with w1. by rewrite Hp1, Hm1. }
  exists w'. split; [done|]. rewrite Hm, Hp, Ht, Hm1, Hp1, Ht1.
  simpl. rewrite <- app_assoc. done.
Qed.

Lemma tool_round_trip_witness :
  (exists w',
      runPrompt 2 (scriptedProvider [callAdd]) plainTerminal calcOnly []
                "add 1 and 2" initialWorld = Some (w', None)
      /\ messages w'
         = [ userMessage "add 1 and 2";
             {| Role := "assistant"; Content := [toolUseOf callAdd] |};
             toolMessage
               (toolResultBlock "t1" "3" (ContentMcp [TextContent "3"]));
             {| Role := "assistant"; Content := [textBlock "done"] |} ]
      /\ providerCalls w' = 2%nat
      /\ toolCalls w' = 1%nat)
  /\ (exists w',
        runPrompt 2 (scriptedProvider [callAdd]) plainTerminal paddedOnly []
                  "add 1 and 2" initialWorld = Some (w', None)
        /\ messages w'
           = [ userMessage "add 1 and 2";
               {| Role := "assistant"; Content := [toolUseOf callAdd] |};
               toolMessage
                 (toolResultBlock "t1" "3"
                    (ContentMcp
                       [TextContent (NBSP ++ "3" ++ IDEOGRAPHIC_SPACE)]));
               {| Role := "assistant"; Content := [textBlock "done"] |} ]
        /\ providerCalls w' = 2%nat
        /\ toolCalls w' = 1%nat).
Proof.
  split.
  - apply (tool_round_trip 0 (scriptedProvider [callAdd]) plainTerminal calcOnly
             [] "add 1 and 2" initialWorld (toolTurn [callAdd])
             (finalTurn "done") callAdd "calc" "add" calcClient
             [("a", "1"); ("b", "2")] [TextContent "3"]); reflexivity.
  - apply (tool_round_trip 0 (scriptedProvider [callAdd]) plainTerminal
             paddedOnly [] "add 1 and 2" initialWorld (toolTurn [callAdd])
             (finalTurn "done") callAdd "calc" "add" paddedClient
             [("a", "1"); ("b", "2")]
             [TextContent (NBSP ++ "3" ++ IDEOGRAPHIC_SPACE)]); reflexivity.
Defined.

(** X9. A renderer that cannot be updated ends the turn: when the answer has
    text and [updateRenderer] fails, [runPrompt] returns that error
    right after the model call; the user message stays in the history,
    no assistant message is appended and none of the requested tools is
    invoked. *)
Theorem renderer_failure_aborts_turn :
  forall fuel provider term mcpClients tools prompt w message err,
    provider (providerCalls (acceptPrompt prompt w)) prompt
             (messages (acceptPrompt prompt w)) tools = inl message ->
    nonEmpty (GetContent message) = true ->
    updateRenderer term = Some err ->
    exists w',
      runPrompt (S fuel) provider term mcpClients tools prompt w
      = Some (w', Some ("更新渲染器失败: " ++ err))
      /\ messages w' = messages (acceptPrompt prompt w)
      /\ providerCalls w' = S (providerCalls w)
      /\ toolCalls w' = toolCalls w.
Proof.
  intros fuel provider term mcpClients tools prompt w message err Ha Hne Hu.
  cbn [runPrompt]. unfold runPromptBody, retryFuel.
  rewrite (RetryFacts.retryLoop_success provider tools prompt _ _ _ _ _ _ Ha).
  destruct (renderText term message (countProviderCall (acceptPrompt prompt w)))
    as [w2 r] eqn:Hr.
  destruct (rendered_frame term message prompt w w2 r Hr) as (Hm & Hp & Ht & _).
  unfold renderText in Hr. rewrite Hne, Hu in Hr. injection Hr as <- <-.
  eexists. split; [reflexivity|]. done.
Qed.

Lemma renderer_failure_aborts_turn_witness :
  exists w',
    runPrompt 1 (fun _ _ _ _ =>
                   inl {| GetRole := "assistant"; GetContent := "on it";
                          GetToolCalls := [callAdd]; GetUsage := (0, 0) |})
              {| updateRenderer := Some "no tty"; Render := fun s => inl s |}
              calcOnly [] "add" initialWorld
    = Some (w', Some "更新渲染器失败: no tty")
    /\ messages w' = [userMessage "add"]
    /\ providerCalls w' = 1%nat
    /\ toolCalls w' = 0%nat.
Proof.
  apply (renderer_failure_aborts_turn 0
           (fun _ _ _ _ =>
              inl {| GetRole := "assistant"; GetContent := "on it";
                     GetToolCalls := [callAdd]; GetUsage := (0, 0) |})
           {| updateRenderer := Some "no tty"; Render := fun s => inl s |}
           calcOnly [] "add" initialWorld
           {| GetRole := "assistant"; GetContent := "on it";
              GetToolCalls := [callAdd]; GetUsage := (0, 0) |}
           "no tty"); reflexivity.
Defined.

End TurnMore.

(* ===================================================================== *)
(** * Invariants of the tool loop, of [runPrompt] and of the session *)
(* ===================================================================== *)

Module Invariants.
Import Engine Spec Props Samples.

(** One iteration: the tool is invoked exactly when the call is
    routable, and only an invoked call can add a result, one at most. *)
Lemma dispatch_counts mcpClients message d toolCall :
  toolCalls (world (dispatchToolCall mcpClients message d toolCall))
  = (toolCalls (world d) + if routable mcpClients toolCall then 1 else 0)%nat
  /\ (length (toolResults (dispatchToolCall mcpClients message d toolCall))
      <= length (toolResults d)
         + if routable mcpClients toolCall then 1 else 0)%nat.
Proof.
  unfold dispatchToolCall, routable.
  fold (announced message toolCall (world d)).
  destruct (DispatchFacts.announced_frame message toolCall (world d))
    as (_ & _ & Ht & _).
  destruct (resolveToolName (GetName toolCall)) as [[serverName toolName]|];
    [|simpl; lia].
  destruct (mcpClients !! serverName) as [mcpClient|]; [|simpl; lia].
  destruct (GetArguments toolCall) as [fields|]; [|simpl; lia].
  cbn [json_Marshal json_Unmarshal].
  destruct (CallTool mcpClient _ toolName fields) as [err|[content|]];
    simpl; rewrite ?length_app; simpl; lia.
Qed.

Lemma dispatchList_counts mcpClients message calls :
  forall d,
    toolCalls (world (dispatchList mcpClients message calls d))
    = (toolCalls (world d)
       + length (List.filter (routable mcpClients) calls))%nat
    /\ (length (toolResults (dispatchList mcpClients message calls d))
        <= length (toolResults d)
           + length (List.filter (routable mcpClients) calls))%nat.
Proof.
  unfold dispatchList.
  induction calls as [|c calls IH]; intros d.
  - simpl. split; lia.
  - cbn [fold_left List.filter].
    destruct (IH (dispatchToolCall mcpClients message d c)) as (Ht & Hr).
    destruct (dispatch_counts mcpClients message d c) as [Ht1 Hr1].
    rewrite Ht, Ht1.
    destruct (routable mcpClients c); simpl in *; split; lia.
Qed.

(** X10. The tool loop of a turn invokes a tool for each routable call and
    for no other; it collects at most one result per invoked call and
    appends one [tool_use] block per call, in the order of the calls. *)
Theorem tool_invocations_counted :
  forall mcpClients message calls d,
    toolCalls (world (dispatchList mcpClients message calls d))
    = (toolCalls (world d)
       + length (List.filter (routable mcpClients) calls))%nat
    /\ (length (toolResults (dispatchList mcpClients message calls d))
        <= length (toolResults d)
           + length (List.filter (routable mcpClients) calls))%nat
    /\ messageContent (dispatchList mcpClients message calls d)
       = (messageContent d ++ map toolUseOf calls)%list.
Proof.
  intros mcpClients message calls d.
  destruct (dispatchList_counts mcpClients message calls d) as [Ht Hr].
  destruct (DispatchFacts.dispatchList_extends mcpClients message calls d)
    as [Hc _].
  by repeat split.
Qed.

(** Where a result of the tool loop comes from. *)
Lemma dispatch_result_origin mcpClients message d toolCall r :
  In r (toolResults (dispatchToolCall mcpClients message d toolCall)) ->
  In r (toolResults d)
  \/ (Pruner.isToolResult r = true /\ ToolUseID r = GetID toolCall).
Proof.
  unfold dispatchToolCall.
  destruct (resolveToolName (GetName toolCall)) as [[serverName toolName]|];
    [|by left].
  destruct (mcpClients !! serverName) as [mcpClient|]; [|by left].
  destruct (json_Unmarshal _) as [toolArgs|err]; [|by left].
  destruct (CallTool mcpClient _ toolName toolArgs) as [err|[content|]];
    cbn [toolResults]; [| |by left];
    (intros [H|[<-|[]]]%in_app_iff; [by left | by right]).
Qed.

Lemma dispatchList_result_origin mcpClients message calls d r :
  In r (toolResults (dispatchList mcpClients message calls d)) ->
  In r (toolResults d)
  \/ (Pruner.isToolResult r = true /\ In (ToolUseID r) (map GetID calls)).
Proof.
  unfold dispatchList. revert d.
  induction calls as [|c calls IH]; intros d; [by left|].
  cbn [fold_left]. intros H. apply IH in H as [H|[Hr Hin]].
  - apply dispatch_result_origin in H as [H|[Hr Hid]]; [by left|].
    right. split; [done|]. left. by rewrite Hid.
  - right. split; [done|]. by right.
Qed.

Lemma uses_app h1 h2 :
  Pruner.toolUseIdsOf (h1 ++ h2)
  = (Pruner.toolUseIdsOf h1 ++ Pruner.toolUseIdsOf h2)%list.
Proof. unfold Pruner.toolUseIdsOf. apply flat_map_app. Qed.

Lemma refs_app h1 h2 :
  Pruner.toolResultRefsOf (h1 ++ h2)
  = (Pruner.toolResultRefsOf h1 ++ Pruner.toolResultRefsOf h2)%list.
Proof. unfold Pruner.toolResultRefsOf. apply flat_map_app. Qed.

(** Appending messages that refer only to tool calls already there, or
    to their own, keeps the history free of orphans. *)
Lemma NoOrphan_app h added :
  NoOrphan h ->
  (forall i, In i (Pruner.toolResultRefsOf added) ->
             In i (Pruner.toolUseIdsOf (h ++ added))) ->
  NoOrphan (h ++ added).
Proof.
  intros Hh Ha i. rewrite refs_app. intros [H|H]%in_app_iff.
  - rewrite uses_app. apply in_app_iff. left. by apply Hh.
  - by apply Ha.
Qed.

Lemma textContent_no_result message :
  List.filter Pruner.isToolResult (textContent message) = [].
Proof. unfold textContent. by destruct (nonEmpty (GetContent message)). Qed.

Lemma toolUses_no_result calls :
  List.filter Pruner.isToolResult (map toolUseOf calls) = [].
Proof. induction calls as [|c calls IH]; [done | exact IH]. Qed.

Lemma toolUses_ids calls :
  map ID (List.filter Pruner.isToolUse (map toolUseOf calls)) = map GetID calls.
Proof. induction calls as [|c calls IH]; [done|]. simpl. by rewrite IH. Qed.

Lemma refs_toolMessages results :
  Pruner.toolResultRefsOf (map toolMessage results)
  = map ToolUseID (List.filter Pruner.isToolResult results).
Proof.
  induction results as [|r results IH]; [done|].
  unfold Pruner.toolResultRefsOf in *. simpl. rewrite IH.
  by destruct (Pruner.isToolResult r).
Qed.

(** What the end of a turn appends: the assistant message with one
    [tool_use] per call, then the tool messages, whose results answer
    those calls. *)
Lemma turn_added_no_orphan mcpClients message w2 h :
  let d := dispatchToolCalls mcpClients message
             {| messageContent := textContent message; toolResults := [];
                world := w2 |} in
  NoOrphan h ->
  NoOrphan (h ++ [assistantMessage message d])
  /\ NoOrphan ((h ++ [assistantMessage message d])
                 ++ map toolMessage (toolResults d)).
Proof.
  intros d Hh.
  destruct (DispatchFacts.dispatchList_extends mcpClients message
              (GetToolCalls message)
              {| messageContent := textContent message; toolResults := [];
                 world := w2 |}) as [Hc _].
  fold (dispatchToolCalls mcpClients message
          {| messageContent := textContent message; toolResults := [];
             world := w2 |}) in Hc.
  fold d in Hc. cbn [messageContent] in Hc.
  assert (Hrefs : Pruner.toolResultRefsOf [assistantMessage message d] = []).
  { unfold Pruner.toolResultRefsOf, assistantMessage. simpl.
    rewrite Hc, List.filter_app, textContent_no_result, toolUses_no_result.
    done. }
  assert (Huses : forall i, In i (map GetID (GetToolCalls message)) ->
                  In i (Pruner.toolUseIdsOf [assistantMessage message d])).
  { intros i Hi. unfold Pruner.toolUseIdsOf, assistantMessage. simpl.
    rewrite app_nil_r, Hc, List.filter_app, map_app, toolUses_ids.
    apply in_app_iff. by right. }
  assert (H1 : NoOrphan (h ++ [assistantMessage message d])).
  { apply NoOrphan_app; [done|]. rewrite Hrefs. intros i []. }
  split; [done|].
  apply NoOrphan_app; [done|]. intros i Hi.
  rewrite refs_toolMessages in Hi.
  apply in_map_iff in Hi as (r & <- & Hr). apply filter_In in Hr as [Hr _].
  apply (dispatchList_result_origin mcpClients message) in Hr as [[]|[_ Hin]].
  rewrite !uses_app. apply in_app_iff. left. apply in_app_iff. right.
  by apply Huses.
Qed.

Lemma acceptPrompt_no_orphan prompt w :
  NoOrphan (messages w) -> NoOrphan (messages (acceptPrompt prompt w)).
Proof.
  intros H. rewrite TurnMore.acceptPrompt_messages.
  apply NoOrphan_app; [done|]. by destruct (nonEmpty prompt); intros i [].
Qed.

Lemma runPrompt_no_orphan fuel provider term mcpClients tools :
  forall prompt w w' e,
    NoOrphan (messages w) ->
    runPrompt fuel provider term mcpClients tools prompt w = Some (w', e) ->
    NoOrphan (messages w').
Proof.
  induction fuel as [|fuel IH]; intros prompt w w' e Hw E; [discriminate|].
  cbn [runPrompt] in E. unfold runPromptBody in E.
  apply (acceptPrompt_no_orphan prompt) in Hw.
  destruct (retryLoop _ _ _ _ _ _ _ _) as [[w1 [message|err]]|] eqn:Er;
    [| |discriminate].
  2:{ injection E as <- <-.
      apply RetryMore.retryLoop_trace in Er as (_ & _ & _ & _ & -> & _). done. }
  apply RetryMore.retryLoop_trace in Er as (_ & _ & _ & _ & Hm1 & _).
  destruct (renderText term message w1) as [w2 [content|err]] eqn:Hr.
  2:{ injection E as <- <-.
      apply TurnFacts.renderText_frame in Hr as (-> & _). by rewrite Hm1. }
  assert (Hcontent : content = textContent message).
  { unfold renderText, textContent in *.
    destruct (nonEmpty (GetContent message)); [|by injection Hr as _ <-].
    destruct (updateRenderer term); [discriminate | by injection Hr as _ <-]. }
  subst content.
  apply TurnFacts.renderText_frame in Hr as (Hm2 & _).
  set (d := dispatchToolCalls _ _ _) in E.
  destruct (TurnFacts.dispatchList_frame mcpClients message
              (GetToolCalls message)
              {| messageContent := textContent message; toolResults := [];
                 world := w2 |}) as (Hmd & _).
  fold (dispatchToolCalls mcpClients message
          {| messageContent := textContent message; toolResults := [];
             world := w2 |}) in Hmd. fold d in Hmd. cbn [world] in Hmd.
  assert (Hh : NoOrphan (messages (world d))) by (by rewrite Hmd, Hm2, Hm1).
  destruct (turn_added_no_orphan mcpClients message w2 (messages (world d)) Hh)
    as [H1 H2]. fold d in H1, H2.
  unfold finishTurn in E. destruct (toolResults d) as [|r rs] eqn:Hres.
  - injection E as <- <-. done.
  - apply IH in E; [done|].
    destruct (TurnFacts.appendToolMessages_messages (r :: rs)
                (appendMessage (assistantMessage message d) (world d)))
      as (-> & _). done.
Qed.

Lemma pruneBeforeTurn_no_orphan messageWindow w w0 :
  NoOrphan (messages w) ->
  pruneBeforeTurn messageWindow w = Some w0 ->
  NoOrphan (messages w0).
Proof.
  unfold pruneBeforeTurn. intros Hw.
  destruct (0 <? length (messages w))%nat; [|by intros [= <-]].
  destruct (Pruner.pruneMessages messageWindow (messages w)) as [ms|] eqn:E;
    [|discriminate].
  intros [= <-]. simpl.
  destruct (PrunerMore.window_of_prune _ _ _ E) as [[-> _]|[_ ->]]; [done|].
  by destruct (PrunerFacts.pruneWindow_paired (window messageWindow (messages w))).
Qed.

(** X11. The history never holds a [tool_result] without its [tool_use]:
    [runPrompt] keeps that property, over all its rounds and however it
    ends, and so does the whole session loop, pruning included. A
    session that starts with an empty history has it at every stop. *)
Theorem no_orphan_tool_result :
  (forall fuel provider term mcpClients tools prompt w w' e,
      NoOrphan (messages w) ->
      runPrompt fuel provider term mcpClients tools prompt w = Some (w', e) ->
      NoOrphan (messages w'))
  /\ (forall fuel provider term mcpClients tools messageWindow inputs w,
        NoOrphan (messages w) ->
        NoOrphan (messages (snd (sessionLoop fuel provider term mcpClients
                                             tools messageWindow inputs w))))
  /\ (forall fuel provider term mcpClients tools messageWindow inputs,
        NoOrphan (messages (snd (sessionLoop fuel provider term mcpClients
                                             tools messageWindow inputs
                                             initialWorld)))).
Proof.
  assert (Hloop : forall fuel provider term mcpClients tools messageWindow
                         inputs w,
             NoOrphan (messages w) ->
             NoOrphan (messages (snd (sessionLoop fuel provider term mcpClients
                                        tools messageWindow inputs w)))).
  { intros fuel provider term mcpClients tools messageWindow inputs.
    induction inputs as [|[prompt| |err] rest IH]; intros w Hw;
      cbn [sessionLoop]; try done.
    destruct (String.eqb prompt ""); [by apply IH|].
    destruct (handleSlashCommand prompt); [|by apply IH|done].
    destruct (pruneBeforeTurn messageWindow w) as [w0|] eqn:Ep; [|done].
    apply (pruneBeforeTurn_no_orphan _ _ _ Hw) in Ep.
    destruct (runPrompt fuel provider term mcpClients tools prompt w0)
      as [[w1 [err|]]|] eqn:Er; [| |done].
    - simpl. by eapply runPrompt_no_orphan.
    - apply IH. by eapply runPrompt_no_orphan. }
  split; [|split].
  - intros. by eapply runPrompt_no_orphan.
  - exact Hloop.
  - intros. apply Hloop. intros i [].
Qed.

Lemma no_orphan_tool_result_witness :
  NoOrphan
    (messages (snd (sessionLoop 2 (scriptedProvider [callAdd]) plainTerminal
                                calcOnly [] 10 [Submitted "add 1 and 2"]
                                initialWorld)))
  /\ NoOrphan
       (messages (snd (sessionLoop 2 (scriptedProvider [callNoop])
                                   plainTerminal calcOnly [] 10
                                   [Submitted "tidy up"]
                                   (setMessages danglingHistory initialWorld)))).
Proof.
  split.
  - apply (proj2 (proj2 no_orphan_tool_result)).
  - apply (proj1 (proj2 no_orphan_tool_result)).
    intros i [].
Defined.

(** X12. [runPrompt] only appends to the history: whatever it returns, the
    history it was given is still there as a prefix, at least one model
    call was made, and a turn that ends without error has appended
    something. *)
Theorem history_append_only :
  forall fuel provider term mcpClients tools prompt w w' e,
    runPrompt fuel provider term mcpClients tools prompt w = Some (w', e) ->
    exists added,
      messages w' = (messages w ++ added)%list
      /\ (providerCalls w < providerCalls w')%nat
      /\ (toolCalls w <= toolCalls w')%nat
      /\ (e = None -> added <> []).
Proof.
  induction fuel as [|fuel IH]; intros provider term mcpClients tools prompt
                                       w w' e E; [discriminate|].
  cbn [runPrompt] in E. unfold runPromptBody in E.
  destruct (TurnFacts.acceptPrompt_frame prompt w) as (Hp0 & Ht0 & _).
  pose proof (TurnMore.acceptPrompt_messages prompt w) as Hm0.
  destruct (retryLoop _ _ _ _ _ _ _ _) as [[w1 [message|err]]|] eqn:Er;
    [| |discriminate];
    apply RetryMore.retryLoop_trace in Er as (k & _ & _ & Hp1 & Hm1 & Ht1).
  2:{ injection E as <- <-. eexists. rewrite Hm1, Hm0, Hp1, Ht1, Hp0, Ht0.
      split; [reflexivity|]. repeat split; [lia | lia | discriminate]. }
  destruct (renderText term message w1) as [w2 [content|err]] eqn:Hr;
    apply TurnFacts.renderText_frame in Hr as (Hm2 & Hp2 & Ht2 & _).
  2:{ injection E as <- <-. eexists. rewrite Hm2, Hm1, Hm0, Hp2, Hp1, Ht2, Ht1.
      split; [reflexivity|]. repeat split; [lia | lia | discriminate]. }
  set (d0 := {| messageContent := content; toolResults := []; world := w2 |}) in E.
  destruct (TurnFacts.dispatchList_frame mcpClients message
              (GetToolCalls message) d0) as (Hmd & Hpd & _).
  destruct (dispatchList_counts mcpClients message
              (GetToolCalls message) d0) as (Htd & _).
  unfold dispatchToolCalls in E.
  set (d := dispatchList mcpClients message (GetToolCalls message) d0) in *.
  unfold finishTurn in E. destruct (toolResults d) as [|r rs] eqn:Hres.
  - injection E as <- <-.
    exists ((if nonEmpty prompt then [userMessage prompt] else [])
              ++ [assistantMessage message d])%list.
    simpl. rewrite Hmd, Hpd, Htd. subst d0. simpl.
    rewrite Hm2, Hm1, Hm0, Hp2, Hp1, Ht2, Ht1, <- app_assoc.
    split; [done|]. repeat split; [lia | lia |].
    intros _. by destruct (nonEmpty prompt).
  - apply IH in E as (added & Hm & Hp & Ht & Hne).
    destruct (TurnFacts.appendToolMessages_messages (r :: rs)
                (appendMessage (assistantMessage message d) (world d)))
      as (Hma & Hpa & Hta).
    rewrite Hma in Hm. rewrite Hpa in Hp. rewrite Hta in Ht.
    simpl in Hm, Hp, Ht. rewrite Hmd in Hm. rewrite Hpd in Hp.
    rewrite Htd in Ht. subst d0. simpl in Hm, Hp, Ht.
    rewrite Hm2, Hm1, Hm0 in Hm. rewrite Hp2, Hp1 in Hp. rewrite Ht2, Ht1 in Ht.
    eexists. split; [rewrite Hm, <- !app_assoc; reflexivity|].
    repeat split; [lia | lia |].
    intros _. destruct (nonEmpty prompt); discriminate.
Qed.

Lemma history_append_only_witness :
  exists w' added,
    runPrompt 2 (scriptedProvider [callAdd]) plainTerminal calcOnly []
              "add 1 and 2" (setMessages danglingHistory initialWorld)
    = Some (w', None)
    /\ messages w' = (danglingHistory ++ added)%list
    /\ (0 < providerCalls w')%nat
    /\ (0 <= toolCalls w')%nat
    /\ (@None error = None -> added <> []).
Proof.
  eexists.
  pose proof (history_append_only 2 (scriptedProvider [callAdd]) plainTerminal
                calcOnly [] "add 1 and 2"
                (setMessages danglingHistory initialWorld) _ None eq_refl)
    as (added & H).
  exists added. split; [reflexivity | exact H].
Defined.

End Invariants.

(* ===================================================================== *)
(** * Tool calls that succeed with nil content *)
(* ===================================================================== *)

Module NilContentFacts.
Import Engine Spec Props Samples.

(** What [renderText] hands to the tool loop is the text block of the
    answer, if it has text. *)
Lemma renderText_content term message w w2 content :
  renderText term message w = (w2, inl content) ->
  content = textContent message.
Proof.
  unfold renderText, textContent.
  destruct (nonEmpty (GetContent message)).
  - destruct (updateRenderer term); intros H; by inversion H.
  - intros H. by inversion H.
Qed.

Lemma acceptPrompt_refs prompt w :
  Pruner.toolResultRefsOf (messages (acceptPrompt prompt w))
  = Pruner.toolResultRefsOf (messages w).
Proof.
  unfold acceptPrompt. destruct (nonEmpty prompt); [|done].
  cbn [messages appendMessage emit]. rewrite Invariants.refs_app.
  apply app_nil_r.
Qed.

Lemma refs_drop (n : nat) (h : list HistoryMessage) (i : string) :
  In i (Pruner.toolResultRefsOf (drop n h)) -> In i (Pruner.toolResultRefsOf h).
Proof.
  intros H. rewrite <- (take_drop n h), Invariants.refs_app.
  apply in_app_iff. by right.
Qed.

(** The turn whose only tool call succeeds with nil content. *)
Lemma nil_content_turn fuel provider term mcpClients tools prompt w message w2
    content toolCall serverName toolName mcpClient fields :
  provider (providerCalls (acceptPrompt prompt w)) prompt
           (messages (acceptPrompt prompt w)) tools = inl message ->
  renderText term message (countProviderCall (acceptPrompt prompt w))
  = (w2, inl content) ->
  GetToolCalls message = [toolCall] ->
  resolveToolName (GetName toolCall) = Some (serverName, toolName) ->
  mcpClients !! serverName = Some mcpClient ->
  GetArguments toolCall = ArgsObject fields ->
  CallTool mcpClient (toolCalls w) toolName fields = CallResult None ->
  exists w',
    runPrompt (S fuel) provider term mcpClients tools prompt w = Some (w', None)
    /\ messages w'
       = (messages (acceptPrompt prompt w)
            ++ [ {| Role := GetRole message;
                    Content := content ++ [toolUseOf toolCall] |} ])%list
    /\ providerCalls w' = S (providerCalls w)
    /\ toolCalls w' = S (toolCalls w).
Proof.
  intros Ha Hr Hcalls Hres Hl Hargs Hcall.
  rewrite (TurnFacts.runPrompt_answered fuel provider term mcpClients tools
             prompt w message w2 content Ha Hr).
  destruct (TurnFacts.renderText_frame term message _ w2 _ Hr)
    as (Hm2 & Hp2 & Ht2 & _).
  destruct (TurnFacts.acceptPrompt_frame prompt w) as (Hp0 & Ht0 & _).
  cbn [toolCalls countProviderCall] in Ht2.
  unfold dispatchToolCalls, dispatchList. rewrite Hcalls. cbn [fold_left].
  erewrite TurnFacts.dispatch_nil_content; try eassumption;
    [|cbn [world]; by rewrite Ht2, Ht0].
  unfold finishTurn. cbn [toolResults]. eexists. split; [reflexivity|].
  destruct (DispatchFacts.announced_frame message toolCall w2)
    as (Hm & Hp & Ht & _).
  cbn [messages providerCalls toolCalls emit appendMessage countToolCall
       world assistantMessage messageContent].
  rewrite Hm, Hp, Ht, Hm2, Hp2, Ht2.
  cbn [messages providerCalls countProviderCall]. rewrite Hp0, Ht0.
  by repeat split.
Qed.

(** C9. The block appended for a tool call is a [tool_use] block that
    carries the id and the name of the call. A tool invocation that
    succeeds with nil content gets that block appended to the assistant
    message and produces no [tool_result] and no output. At the end of
    the turn the assistant message is appended, then one [tool] message
    per collected result; the continuation call is made exactly when
    some result was collected. So when the nil-content call is the only
    call of the turn, the turn ends after one model call with the
    assistant message last in the history and no [tool] message: the id
    of the call is the id of a [tool_use] block of the history and, if
    no earlier [tool_result] referred to it, of no [tool_result]. The
    block stays while the history fits the window, since pruning then
    returns the history as it is, and the first pruning of that history
    that filters a window removes it. *)
Theorem nil_content_leaves_tool_use :
  (forall toolCall,
      toolUseOf toolCall
      = toolUseBlock (GetID toolCall) (GetName toolCall)
                     (json_Marshal (GetArguments toolCall))
      /\ Type_ (toolUseOf toolCall) = "tool_use"
      /\ ID (toolUseOf toolCall) = GetID toolCall
      /\ Name (toolUseOf toolCall) = GetName toolCall)
  /\ (forall mcpClients message d toolCall serverName toolName mcpClient fields,
        resolveToolName (GetName toolCall) = Some (serverName, toolName) ->
        mcpClients !! serverName = Some mcpClient ->
        GetArguments toolCall = ArgsObject fields ->
        CallTool mcpClient (toolCalls (world d)) toolName fields
        = CallResult None ->
        dispatchToolCall mcpClients message d toolCall
        = {| messageContent := (messageContent d ++ [toolUseOf toolCall])%list;
             toolResults := toolResults d;
             world := countToolCall (announced message toolCall (world d)) |})
  /\ (forall fuel provider term mcpClients tools prompt w message w2 content d,
        provider (providerCalls (acceptPrompt prompt w)) prompt
                 (messages (acceptPrompt prompt w)) tools = inl message ->
        renderText term message (countProviderCall (acceptPrompt prompt w))
        = (w2, inl content) ->
        d = dispatchToolCalls mcpClients message
              {| messageContent := content; toolResults := []; world := w2 |} ->
        (toolResults d = [] ->
         runPrompt (S fuel) provider term mcpClients tools prompt w
         = Some (emit PrintBlankLine
                      (appendMessage (assistantMessage message d) (world d)),
                 None))
        /\ (toolResults d <> [] ->
            runPrompt (S fuel) provider term mcpClients tools prompt w
            = runPrompt fuel provider term mcpClients tools ""
                (appendToolMessages (toolResults d)
                   (appendMessage (assistantMessage message d) (world d)))))
  /\ (forall fuel provider term mcpClients tools prompt w message w2 content
             toolCall serverName toolName mcpClient fields,
        provider (providerCalls (acceptPrompt prompt w)) prompt
                 (messages (acceptPrompt prompt w)) tools = inl message ->
        renderText term message (countProviderCall (acceptPrompt prompt w))
        = (w2, inl content) ->
        GetToolCalls message = [toolCall] ->
        resolveToolName (GetName toolCall) = Some (serverName, toolName) ->
        mcpClients !! serverName = Some mcpClient ->
        GetArguments toolCall = ArgsObject fields ->
        CallTool mcpClient (toolCalls w) toolName fields = CallResult None ->
        ~ In (GetID toolCall) (Pruner.toolResultRefsOf (messages w)) ->
        exists w',
          runPrompt (S fuel) provider term mcpClients tools prompt w
          = Some (w', None)
          /\ messages w'
             = (messages (acceptPrompt prompt w)
                  ++ [ {| Role := GetRole message;
                          Content :=
                            content
                              ++ [toolUseBlock (GetID toolCall)
                                    (GetName toolCall)
                                    (json_Marshal (GetArguments toolCall))] |} ])%list
          /\ providerCalls w' = S (providerCalls w)
          /\ toolCalls w' = S (toolCalls w)
          /\ In (GetID toolCall) (Pruner.toolUseIdsOf (messages w'))
          /\ ~ In (GetID toolCall) (Pruner.toolResultRefsOf (messages w'))
          /\ (forall messageWindow,
                Z.of_nat (length (messages w')) <= messageWindow ->
                Pruner.pruneMessages messageWindow (messages w')
                = Some (messages w'))
          /\ (forall messageWindow,
                0 <= messageWindow < Z.of_nat (length (messages w')) ->
                exists pruned,
                  Pruner.pruneMessages messageWindow (messages w') = Some pruned
                  /\ ~ In (GetID toolCall) (Pruner.toolUseIdsOf pruned))).
Proof.
  split; [|split; [|split]].
  - intros toolCall. by repeat split.
  - intros. by eapply TurnFacts.dispatch_nil_content.
  - intros fuel provider term mcpClients tools prompt w message w2 content d
           Ha Hr ->.
    rewrite (TurnFacts.runPrompt_answered fuel provider term mcpClients tools
               prompt w message w2 content Ha Hr).
    unfold finishTurn.
    destruct (toolResults (dispatchToolCalls _ _ _)) as [|r rs]; split;
      congruence.
  - intros fuel provider term mcpClients tools prompt w message w2 content
           toolCall serverName toolName mcpClient fields
           Ha Hr Hcalls Hres Hl Hargs Hcall Hfresh.
    destruct (nil_content_turn fuel provider term mcpClients tools prompt w
                message w2 content toolCall serverName toolName mcpClient
                fields Ha Hr Hcalls Hres Hl Hargs Hcall)
      as (w' & Hrun & Hm & Hp & Ht).
    assert (Huse : In (GetID toolCall) (Pruner.toolUseIdsOf (messages w'))).
    { apply PrunerFacts.in_toolUseIdsOf.
      exists {| Role := GetRole message;
                Content := content ++ [toolUseOf toolCall] |},
             (toolUseOf toolCall).
      split; [rewrite Hm; apply in_app_iff; right; by left|].
      split; [apply in_app_iff; right; by left|]. done. }
    assert (Href : ~ In (GetID toolCall)
                        (Pruner.toolResultRefsOf (messages w'))).
    { rewrite Hm, Invariants.refs_app, acceptPrompt_refs.
      intros [H|H]%in_app_iff; [by apply Hfresh|].
      apply PrunerFacts.in_toolResultRefsOf in H
        as (m & b & [<-|[]] & Hb & Hres' & _).
      cbn [Content] in Hb. apply in_app_iff in Hb as [Hb|[<-|[]]];
        [|discriminate Hres'].
      rewrite (renderText_content _ _ _ _ _ Hr) in Hb.
      unfold textContent in Hb.
      destruct (nonEmpty (GetContent message)); [|destruct Hb].
      destruct Hb as [<-|[]]. discriminate Hres'. }
    exists w'. split; [exact Hrun|]. split; [exact Hm|].
    split; [exact Hp|]. split; [exact Ht|]. split; [exact Huse|].
    split; [exact Href|]. split.
    + intros messageWindow Hw. by apply PrunerFacts.pruneMessages_short.
    + intros messageWindow Hw. eexists.
      split; [by apply PrunerFacts.pruneMessages_long|].
      intros [_ Hin]%PrunerFacts.pruneWindow_tool_use.
      by apply Href, (refs_drop _ _ _ Hin).
Qed.

Lemma nil_content_leaves_tool_use_witness :
  dispatchToolCall calcOnly (toolTurn [callNoop]) emptyDispatch callNoop
  = {| messageContent := [toolUseBlock "t4" "calc__noop" (Some [])];
       toolResults := [];
       world := countToolCall
                  (announced (toolTurn [callNoop]) callNoop initialWorld) |}
  /\ (exists w',
        runPrompt 1 (scriptedProvider [callNoop]) plainTerminal calcOnly []
                  "tidy up" initialWorld = Some (w', None)
        /\ messages w'
           = [ userMessage "tidy up";
               {| Role := "assistant";
                  Content := [toolUseBlock "t4" "calc__noop" (Some [])] |} ]
        /\ providerCalls w' = 1%nat
        /\ toolCalls w' = 1%nat
        /\ In "t4" (Pruner.toolUseIdsOf (messages w'))
        /\ ~ In "t4" (Pruner.toolResultRefsOf (messages w'))
        /\ (forall messageWindow,
              Z.of_nat (length (messages w')) <= messageWindow ->
              Pruner.pruneMessages messageWindow (messages w')
              = Some (messages w'))
        /\ (forall messageWindow,
              0 <= messageWindow < Z.of_nat (length (messages w')) ->
              exists pruned,
                Pruner.pruneMessages messageWindow (messages w') = Some pruned
                /\ ~ In "t4" (Pruner.toolUseIdsOf pruned)))
  /\ Pruner.pruneMessages 1
       [ userMessage "tidy up";
         {| Role := "assistant";
            Content := [toolUseBlock "t4" "calc__noop" (Some [])] |} ]
     = Some []
  /\ toolResults noopAddDispatch
     = [toolResultBlock "t1" "3" (ContentMcp [TextContent "3"])]
  /\ runPrompt 2 (scriptedProvider [callNoop; callAdd]) plainTerminal calcOnly
               [] "tidy up" initialWorld
     = runPrompt 1 (scriptedProvider [callNoop; callAdd]) plainTerminal
                 calcOnly [] ""
         (appendToolMessages (toolResults noopAddDispatch)
            (appendMessage
               (assistantMessage (toolTurn [callNoop; callAdd]) noopAddDispatch)
               (world noopAddDispatch))).
Proof.
  destruct nil_content_leaves_tool_use as (_ & Hstep & Hturn & Honly).
  split; [|split; [|split; [|split]]].
  - apply (Hstep calcOnly (toolTurn [callNoop]) emptyDispatch callNoop
             "calc" "noop" calcClient []); reflexivity.
  - apply (Honly 0%nat (scriptedProvider [callNoop]) plainTerminal calcOnly []
             "tidy up" initialWorld (toolTurn [callNoop])
             (countProviderCall (acceptPrompt "tidy up" initialWorld)) []
             callNoop "calc" "noop" calcClient []);
      try reflexivity.
    intros [].
  - reflexivity.
  - reflexivity.
  - apply (proj2 (Hturn 1%nat (scriptedProvider [callNoop; callAdd]) plainTerminal
                    calcOnly [] "tidy up" initialWorld
                    (toolTurn [callNoop; callAdd])
                    (countProviderCall (acceptPrompt "tidy up" initialWorld)) []
                    noopAddDispatch eq_refl eq_refl eq_refl)).
    discriminate.
Defined.

End NilContentFacts.

(* ===================================================================== *)
(** * More on the session loop *)
(* ===================================================================== *)

Module SessionMore.
Import Engine Spec Props Samples.

Lemma handleSlashCommand_NotHandled prompt :
  handleSlashCommand prompt = NotHandled <-> strings.HasPrefix prompt "/" = false.
Proof.
  unfold handleSlashCommand.
  destruct (strings.HasPrefix prompt "/"); simpl; [|done].
  split; [|discriminate].
  by repeat (match goal with
             | |- context [if ?b then _ else _] => destruct b
             end).
Qed.

(** X13. Commands and empty prompts never reach the model. A prompt is taken
    as a command exactly when its first byte is [/], so a command typed
    after a blank is sent to the model as text. A script made of empty
    prompts and commands leaves history, model calls and tool calls
    untouched, and ends waiting for input or, after [/quit], with exit
    status 0. *)
Theorem commands_bypass_model :
  (forall prompt,
      handleSlashCommand prompt = NotHandled
      <-> strings.HasPrefix prompt "/" = false)
  /\ (forall c rest,
        c <> "/"%char -> handleSlashCommand (String c rest) = NotHandled)
  /\ (forall fuel provider term mcpClients tools messageWindow inputs w,
        Forall skipped inputs ->
        messages (snd (sessionLoop fuel provider term mcpClients tools
                                   messageWindow inputs w)) = messages w
        /\ providerCalls (snd (sessionLoop fuel provider term mcpClients tools
                                           messageWindow inputs w))
           = providerCalls w
        /\ toolCalls (snd (sessionLoop fuel provider term mcpClients tools
                                       messageWindow inputs w))
           = toolCalls w
        /\ (fst (sessionLoop fuel provider term mcpClients tools
                             messageWindow inputs w) = AwaitingInput
            \/ fst (sessionLoop fuel provider term mcpClients tools
                                messageWindow inputs w) = Exited 0)).
Proof.
  split; [exact handleSlashCommand_NotHandled|]. split.
  - intros c rest Hc. apply handleSlashCommand_NotHandled.
    unfold strings.HasPrefix. rewrite NameFacts.prefix_cons.
    destruct (Ascii.eqb_spec "/" c); [congruence | done].
  - intros fuel provider term mcpClients tools messageWindow inputs w H.
    revert w. induction inputs as [|input inputs IH]; intros w.
    + simpl. tauto.
    + apply Forall_cons in H as [Hs H].
      destruct input as [prompt| |err]; [|by destruct Hs|by destruct Hs].
      cbn [sessionLoop]. destruct (String.eqb_spec prompt "") as [->|Hne].
      { by apply IH. }
      destruct Hs as [Hs|Hs]; [done|].
      destruct (handleSlashCommand prompt) as [|o|] eqn:Hh.
      * apply handleSlashCommand_NotHandled in Hh. congruence.
      * apply (IH H (emit o w)).
      * simpl. tauto.
Qed.

Lemma commands_bypass_model_witness :
  handleSlashCommand " /quit" = NotHandled
  /\ messages (snd (sessionLoop 1 brokenProvider plainTerminal calcOnly [] 10
                                [Submitted ""; Submitted "/help";
                                 Submitted "/QUIT  "; Submitted "hello"]
                                initialWorld)) = []
  /\ fst (sessionLoop 1 brokenProvider plainTerminal calcOnly [] 10
                      [Submitted ""; Submitted "/help"; Submitted "/tools"]
                      initialWorld) = AwaitingInput.
Proof.
  destruct commands_bypass_model as (_ & Hsp & Hrun).
  split; [|split].
  - apply Hsp. discriminate.
  - reflexivity.
  - destruct (Hrun 1%nat brokenProvider plainTerminal calcOnly [] 10
                [Submitted ""; Submitted "/help"; Submitted "/tools"]
                initialWorld) as (_ & _ & _ & [H|H]).
    + repeat constructor; simpl; tauto.
    + exact H.
    + discriminate H.
Defined.

(** X14. A negative [--message-window] does no harm while the history is
    empty and makes the first turn after that panic: the slice
    expression of [pruneMessages] is out of range. The prompts that
    follow are not read; the process dies with status 2. *)
Theorem negative_window_panics :
  forall fuel provider term mcpClients tools messageWindow prompt rest w,
    messageWindow < 0 ->
    prompt <> "" ->
    strings.HasPrefix prompt "/" = false ->
    (messages w <> [] ->
     sessionLoop fuel provider term mcpClients tools messageWindow
                 (Submitted prompt :: rest) w = (Panicked, w)
     /\ exitStatus Panicked = Some 2)
    /\ (messages w = [] -> pruneBeforeTurn messageWindow w = Some w).
Proof.
  intros fuel provider term mcpClients tools messageWindow prompt rest w
         Hneg Hne Hslash.
  split.
  - intros Hm. split; [|done]. cbn [sessionLoop].
    apply String.eqb_neq in Hne. rewrite Hne.
    apply handleSlashCommand_NotHandled in Hslash. rewrite Hslash.
    unfold pruneBeforeTurn.
    destruct (messages w) as [|m ms] eqn:E; [done|]. simpl.
    rewrite <- E, PrunerFacts.pruneMessages_negative by done. done.
  - intros Hm. unfold pruneBeforeTurn. by rewrite Hm.
Qed.

Lemma negative_window_panics_witness :
  sessionLoop 1 brokenProvider plainTerminal calcOnly [] (-1)
              [Submitted "again"; Submitted "and again"]
              (setMessages danglingHistory initialWorld)
  = (Panicked, setMessages danglingHistory initialWorld)
  /\ pruneBeforeTurn (-1) initialWorld = Some initialWorld.
Proof.
  destruct (negative_window_panics 1 brokenProvider plainTerminal calcOnly []
              (-1) "again" [Submitted "and again"]
              (setMessages danglingHistory initialWorld))
    as [H _]; [lia | discriminate | reflexivity |].
  split.
  - apply H. discriminate.
  - apply (negative_window_panics 1 brokenProvider plainTerminal calcOnly []
             (-1) "again" [] initialWorld); [lia | discriminate | | ];
      reflexivity.
Defined.

(** X15. With a window [w >= 0] the pruning before a turn always succeeds,
    only drops messages and blocks, leaves everything but the history
    alone, and the first model call of the turn sees at most [w + 1]
    messages. *)
Theorem turn_history_bounded :
  forall messageWindow w prompt,
    0 <= messageWindow ->
    exists w0,
      pruneBeforeTurn messageWindow w = Some w0
      /\ Thinned (messages w0) (messages w)
      /\ Z.of_nat (length (messages (acceptPrompt prompt w0)))
         <= messageWindow + 1
      /\ output w0 = output w
      /\ providerCalls w0 = providerCalls w
      /\ toolCalls w0 = toolCalls w.
Proof.
  intros messageWindow w prompt Hw. unfold pruneBeforeTurn.
  destruct (messages w) as [|m ms] eqn:E.
  - exists w. simpl. rewrite TurnMore.acceptPrompt_messages, E.
    repeat split; [constructor|].
    destruct (nonEmpty prompt); simpl; lia.
  - simpl. rewrite <- E.
    destruct (PrunerMore.pruneMessages_some messageWindow (messages w) Hw)
      as (h' & Hp). rewrite Hp. simpl.
    exists (setMessages h' w).
    pose proof (PrunerMore.pruneMessages_thinned _ _ _ Hp) as Ht.
    pose proof (PrunerFacts.pruneMessages_length _ _ _ Hp) as Hl.
    repeat split; [done|].
    rewrite TurnMore.acceptPrompt_messages, length_app. simpl.
    destruct (nonEmpty prompt); simpl; lia.
Qed.

Lemma turn_history_bounded_witness :
  exists w0,
    pruneBeforeTurn 1 (setMessages sampleHistory initialWorld) = Some w0
    /\ Thinned (messages w0) sampleHistory
    /\ Z.of_nat (length (messages (acceptPrompt "next" w0))) <= 1 + 1
    /\ output w0 = []
    /\ providerCalls w0 = 0%nat
    /\ toolCalls w0 = 0%nat.
Proof.
  apply (turn_history_bounded 1 (setMessages sampleHistory initialWorld) "next").
  lia.
Defined.

End SessionMore.

(* ===================================================================== *)
(** * More on names: resolution, header lines, the model flag *)
(* ===================================================================== *)

Module SplitFacts.
Import Engine.

Lemma prefix_empty (s : string) : String.prefix "" s = true.
Proof. by destruct s. Qed.

(** A buried separator: the first part of a split is what stands before
    the first occurrence, the other parts are the split of the rest. *)
Lemma splitFrom_first_inv (s : string) :
  forall cur a rest,
    strings.splitFrom "__" 0 cur s = a :: rest -> rest <> [] ->
    exists pre tl,
      s = pre ++ "__" ++ tl /\ a = cur ++ pre
      /\ strings.Contains (pre ++ "_") "__" = false
      /\ rest = strings.splitFrom "__" 0 "" tl.
Proof.
  induction s as [|c s IH]; intros cur a rest E Hne.
  - simpl in E. injection E as <- <-. done.
  - cbn [strings.splitFrom] in E.
    destruct (String.prefix "__" (String c s)) eqn:Hp.
    + rewrite NameFacts.prefix_sep_cons in Hp.
      destruct s as [|c' tl]; [discriminate|].
      apply andb_true_iff in Hp as [Hc Hc'].
      apply Ascii.eqb_eq in Hc as <-. apply Ascii.eqb_eq in Hc' as <-.
      injection E as <- <-. exists "", tl.
      rewrite NameFacts.append_empty_r. repeat split; reflexivity.
    + apply IH in E as (pre & tl & -> & -> & Hc & ->); [|done].
      exists (String c pre), tl. repeat split.
      * by rewrite NameFacts.append_assoc.
      * change (String c pre ++ "_") with (String c (pre ++ "_")).
        cbn [strings.Contains]. rewrite Hc, orb_false_r.
        rewrite NameFacts.prefix_sep_cons in *. by destruct pre.
Qed.

(** The cut of [SplitN(s, ":", 2)]. *)
Lemma splitFirst_none (s cur : string) :
  strings.Contains s ":" = false -> strings.splitFirst ":" cur s = [cur ++ s].
Proof.
  revert cur. induction s as [|c s IH]; intros cur H.
  - simpl. by rewrite NameFacts.append_empty_r.
  - cbn [strings.Contains] in H. apply orb_false_iff in H as [Hp Hc].
    cbn [strings.splitFirst]. rewrite Hp, (IH _ Hc).
    by rewrite NameFacts.append_assoc.
Qed.

Lemma splitFirst_colon (k v cur : string) :
  strings.Contains k ":" = false ->
  strings.splitFirst ":" cur (k ++ ":" ++ v) = [cur ++ k; v].
Proof.
  revert cur. induction k as [|c k IH]; intros cur H.
  - rewrite NameFacts.append_empty_r.
    change ("" ++ ":" ++ v) with (String ":" v).
    cbn [strings.splitFirst]. rewrite NameFacts.prefix_cons, prefix_empty.
    change (drop (String.length ":") (list_ascii_of_string (String ":" v)))
      with (list_ascii_of_string v).
    rewrite string_of_list_ascii_of_string. reflexivity.
  - cbn [strings.Contains] in H. apply orb_false_iff in H as [Hp Hc].
    change (String c k ++ ":" ++ v) with (String c (k ++ ":" ++ v)).
    cbn [strings.splitFirst].
    rewrite NameFacts.prefix_cons, prefix_empty in *.
    rewrite Hp, (IH _ Hc). by rewrite NameFacts.append_assoc.
Qed.

End SplitFacts.

Module NamesMore.
Import Engine Spec Props Samples MoreSamples.

Lemma resolve_inv (name serverName toolName : string) :
  resolveToolName name = Some (serverName, toolName) ->
  name = serverName ++ "__" ++ toolName
  /\ strings.Contains (serverName ++ "_") "__" = false
  /\ strings.Contains toolName "__" = false.
Proof.
  unfold resolveToolName, strings.Split.
  destruct (strings.splitFrom "__" 0 "" name) as [|a [|b [|c l]]] eqn:E;
    try discriminate.
  intros [= -> ->].
  apply SplitFacts.splitFrom_first_inv in E as (pre & tl & -> & -> & Hc & Hrest);
    [|done].
  change ("" ++ pre) with pre.
  destruct (strings.Contains tl "__") eqn:Ht.
  - pose proof (NameFacts.splitFrom_sep tl "" Ht) as Hl.
    rewrite <- Hrest in Hl. simpl in Hl. lia.
  - rewrite (NameFacts.splitFrom_no_sep tl "" Ht) in Hrest.
    injection Hrest as ->. done.
Qed.

(** X16. Resolution, completely: a name resolves to [(server, tool)] exactly
    when it is [server__tool], the separator shown is the first [__] of
    the name, and the tool part holds no [__]. So a registered name
    [server__tool] can resolve to another pair than the one it was built
    from, when the server name ends in [_]. *)
Theorem resolution_characterised :
  forall name serverName toolName,
    resolveToolName name = Some (serverName, toolName)
    <-> name = Registry.namespacedName serverName toolName
        /\ strings.Contains (serverName ++ "_") "__" = false
        /\ strings.Contains toolName "__" = false.
Proof.
  intros name serverName toolName. split.
  - apply resolve_inv.
  - intros (-> & Hs & Ht). unfold Registry.namespacedName.
    by rewrite (NameFacts.resolve_first_sep serverName toolName Hs), Ht.
Qed.

(** X17. Header lines: each line is cut at its first colon, name and value
    are trimmed, a later line for the same name replaces an earlier one,
    and a line without colon is dropped without notice. *)
Theorem header_lines :
  (forall headers key value,
      strings.Contains key ":" = false ->
      Registry.parseHeaders (headers ++ [key ++ ":" ++ value])
      !! strings.TrimSpace key = Some (strings.TrimSpace value))
  /\ (forall headers line,
        strings.Contains line ":" = false ->
        Registry.parseHeaders (headers ++ [line])
        = Registry.parseHeaders headers).
Proof.
  split.
  - intros headers key value Hk. unfold Registry.parseHeaders.
    rewrite fold_left_app. cbn [fold_left]. unfold strings.SplitN2.
    rewrite (SplitFacts.splitFirst_colon key value "" Hk).
    apply lookup_insert_eq.
  - intros headers line Hl. unfold Registry.parseHeaders.
    rewrite fold_left_app. cbn [fold_left]. unfold strings.SplitN2.
    by rewrite (SplitFacts.splitFirst_none line "" Hl).
Qed.

Lemma header_lines_witness :
  Registry.parseHeaders (["Authorization: old"]
                           ++ ["Authorization" ++ ":" ++ " Bearer a:b "])
  !! "Authorization" = Some "Bearer a:b"
  /\ Registry.parseHeaders
       ([] ++ [("X-Key" ++ NBSP) ++ ":" ++ (IDEOGRAPHIC_SPACE ++ "v" ++ NBSP)])
     !! "X-Key" = Some "v"
  /\ Registry.parseHeaders (["X-Key: 1"] ++ ["no colon here"])
     = Registry.parseHeaders ["X-Key: 1"].
Proof.
  split; [|split].
  - apply (proj1 header_lines ["Authorization: old"] "Authorization"
                 " Bearer a:b "). reflexivity.
  - apply (proj1 header_lines [] ("X-Key" ++ NBSP)
                 (IDEOGRAPHIC_SPACE ++ "v" ++ NBSP)). reflexivity.
  - apply (proj2 header_lines ["X-Key: 1"] "no colon here"). reflexivity.
Defined.

End NamesMore.

(* ===================================================================== *)
(** * More on connection setup *)
(* ===================================================================== *)

Module RegistryMore.
Import Registry Spec Props Samples MoreSamples.

(** The creation step only adds events about its own server. *)
Lemma newClient_events mw name server trace trace' r :
  newClient mw name server trace = (trace', r) ->
  exists added,
    trace' = (trace ++ added)%list
    /\ Forall (fun e => eventName e = name) added.
Proof.
  unfold newClient. destruct (Config server) as [command args env|url headers].
  - destruct (NewStdioMCPClient _ _ _ _ _); intros [= <- <-].
    + exists []. by rewrite app_nil_r.
    + exists [Spawned name]. split; [done|]. by repeat constructor.
  - destruct (NewSSEMCPClient _ _ _ _); [intros [= <- <-]|].
    { exists []. by rewrite app_nil_r. }
    destruct (Start mw name); intros [= <- <-].
    + exists [Constructed name]. split; [done|]. by repeat constructor.
    + exists [Constructed name; Started name].
      split; [by rewrite <- app_assoc|]. by repeat constructor.
Qed.

Lemma closeAll_events (clients : gmap string MCPClient)
    (trace : list ConnEvent) (seen : list string) :
  (forall n c, clients !! n = Some c -> handle c = n /\ In n seen) ->
  Forall (fun e => In (eventName e) seen) trace ->
  Forall (fun e => In (eventName e) seen) (closeAll clients trace).
Proof.
  intros Hc Ht. unfold closeAll. apply Forall_app. split; [done|].
  apply List.Forall_forall. intros e Hin.
  apply in_map_iff in Hin as ([n c] & <- & Hin).
  apply list_elem_of_In, elem_of_map_to_list in Hin.
  destruct (Hc n c Hin) as [Hh Hs]. simpl. by rewrite Hh.
Qed.

Lemma Forall_seen_mono (seen seen' : list string) (trace : list ConnEvent) :
  (forall n, In n seen -> In n seen') ->
  Forall (fun e => In (eventName e) seen) trace ->
  Forall (fun e => In (eventName e) seen') trace.
Proof.
  intros Hsub H. eapply List.Forall_impl; [|exact H]. intros e. apply Hsub.
Qed.

(** The loop up to the first server that cannot be brought up. *)
Lemma createLoop_fail_fast mw name server post (pre : list (string * ServerConfigWrapper)) :
  forall clients trace seen,
    (forall n c, clients !! n = Some c -> handle c = n /\ In n seen) ->
    Forall (fun e => In (eventName e) seen) trace ->
    forallb (serverUp mw) pre = true ->
    serverUp mw (name, server) = false ->
    exists trace' cause,
      (createLoop mw (pre ++ (name, server) :: post) clients trace
       = (trace', inr ("创建 MCP 客户端失败（" ++ name ++ "）: " ++ cause))
       \/ createLoop mw (pre ++ (name, server) :: post) clients trace
          = (trace', inr ("初始化 MCP 客户端失败（" ++ name ++ "）: " ++ cause)))
      /\ Forall (fun e => In (eventName e) (seen ++ map fst pre ++ [name])%list)
                trace'
      /\ createLoop mw (pre ++ (name, server) :: post) clients trace
         = createLoop mw (pre ++ [(name, server)]) clients trace.
Proof.
  induction pre as [|[n0 s0] pre IH]; intros clients trace seen Hc Ht Hpre Hdown.
  - cbn [app map createLoop]. unfold serverUp in Hdown. cbn [fst snd] in Hdown.
    rewrite (RegistryFacts.newClient_result mw name server [] trace) in Hdown.
    destruct (newClient mw name server trace) as [trace1 r] eqn:En.
    destruct (newClient_events _ _ _ _ _ _ En) as (added & -> & Hadded).
    assert (Hc' : forall n c, clients !! n = Some c ->
                    handle c = n /\ In n (seen ++ [name])%list).
    { intros n c H. destruct (Hc n c H). split; [done|].
      apply in_app_iff. by left. }
    assert (Ht1 : Forall (fun e => In (eventName e) (seen ++ [name])%list)
                         (trace ++ added)%list).
    { apply Forall_app. split.
      - eapply Forall_seen_mono; [|exact Ht]. intros n H.
        apply in_app_iff. by left.
      - eapply List.Forall_impl; [|exact Hadded]. intros e ->.
        apply in_app_iff. right. by left. }
    cbn [snd] in Hdown. destruct r as [client|err].
    + assert (Hcl : handle client = name).
      { revert En. unfold newClient.
        destruct (Config server); repeat case_match; intros [= _ <-];
          reflexivity. }
      destruct (Initialize mw name) as [err|]; [|discriminate].
      exists (closeAll clients ((trace ++ added) ++ [Closed (handle client)])),
             err.
      split; [by right|]. split; [|done].
      apply closeAll_events; [done|]. apply Forall_app. split; [done|].
      repeat constructor. simpl. rewrite Hcl. apply in_app_iff. right. by left.
    + exists (closeAll clients (trace ++ added)), err.
      split; [by left|]. split; [|done]. by apply closeAll_events.
  - cbn [forallb] in Hpre. apply andb_true_iff in Hpre as [Hup Hpre].
    cbn [app map createLoop fst]. unfold serverUp in Hup. cbn [fst snd] in Hup.
    rewrite (RegistryFacts.newClient_result mw n0 s0 [] trace) in Hup.
    destruct (newClient mw n0 s0 trace) as [trace1 r] eqn:En.
    destruct (newClient_events _ _ _ _ _ _ En) as (added & -> & Hadded).
    cbn [snd] in Hup. destruct r as [client|err]; [|discriminate].
    destruct (Initialize mw n0) as [err|]; [discriminate|].
    assert (Hcl : handle client = n0).
    { revert En. unfold newClient.
      destruct (Config s0); repeat case_match; intros [= _ <-]; reflexivity. }
    destruct (IH (<[n0 := client]> clients)
                 ((trace ++ added) ++ [Initialized n0])%list
                 (seen ++ [n0])%list) as (trace' & cause & Hr & Hev & Hpost);
      [| |exact Hpre|exact Hdown|].
    + intros n c. rewrite lookup_insert. case_decide.
      * intros [= <-]. subst. split; [done|]. apply in_app_iff. right. by left.
      * intros H'. destruct (Hc n c H'). split; [done|].
        apply in_app_iff. by left.
    + apply Forall_app. split; [apply Forall_app; split|].
      * eapply Forall_seen_mono; [|exact Ht]. intros n H.
        apply in_app_iff. by left.
      * eapply List.Forall_impl; [|exact Hadded]. intros e ->.
        apply in_app_iff. right. by left.
      * repeat constructor. simpl. apply in_app_iff. right. by left.
    + exists trace', cause. split; [exact Hr|]. split; [|exact Hpost].
      by rewrite <- app_assoc in Hev.
Qed.

(** What a successful setup returns. *)
Lemma createMCPClients_ok mw servers trace clients :
  NoDup (map fst servers) ->
  createMCPClients mw servers = (trace, inl clients) ->
  (forall n c, clients !! n = Some c -> handle c = n)
  /\ live trace = dom clients
  /\ dom clients = list_to_set (map fst servers)
  /\ forallb (serverUp mw) servers = true.
Proof.
  intros Hnd E. unfold createMCPClients in E.
  pose proof (RegistryFacts.createLoop_spec mw servers ∅ [] trace (inl clients))
    as H.
  lapply H; [clear H; intros H | intros n c; by rewrite lookup_empty].
  lapply H; [clear H; intros H | by rewrite dom_empty_L].
  lapply H; [clear H; intros H | intros n []].
  specialize (H Hnd).
  lapply H; [clear H; intros H | intros n _; apply lookup_empty].
  destruct (H E) as (Hall & Hdom & Hc & Hlive & _ & _).
  rewrite dom_empty_L, union_empty_l_L in Hdom.
  split; [|done]. intros n c Hl. by rewrite (Hc n c Hl).
Qed.

(** What a failed setup leaves. *)
Lemma createMCPClients_err mw servers trace err :
  NoDup (map fst servers) ->
  createMCPClients mw servers = (trace, inr err) ->
  forallb (serverUp mw) servers = false
  /\ exists pre entry post,
       servers = (pre ++ entry :: post)%list
       /\ forallb (serverUp mw) pre = true
       /\ serverUp mw entry = false
       /\ live trace = if startFails mw entry then {[fst entry]} else ∅.
Proof.
  intros Hnd E. unfold createMCPClients in E.
  pose proof (RegistryFacts.createLoop_spec mw servers ∅ [] trace (inr err))
    as H.
  lapply H; [clear H; intros H | intros n c; by rewrite lookup_empty].
  lapply H; [clear H; intros H | by rewrite dom_empty_L].
  lapply H; [clear H; intros H | intros n []].
  specialize (H Hnd).
  lapply H; [clear H; intros H | intros n _; apply lookup_empty].
  exact (H E).
Qed.

(** X18. Connection setup stops at the first server that cannot be brought
    up: the error names that server, nothing was done about the servers
    that come after it in the iteration, and the outcome is the same
    whatever those servers are. *)
Theorem startup_fail_fast :
  forall mw pre name server post,
    forallb (serverUp mw) pre = true ->
    serverUp mw (name, server) = false ->
    exists trace cause,
      (createMCPClients mw (pre ++ (name, server) :: post)
       = (trace, inr ("创建 MCP 客户端失败（" ++ name ++ "）: " ++ cause))
       \/ createMCPClients mw (pre ++ (name, server) :: post)
          = (trace, inr ("初始化 MCP 客户端失败（" ++ name ++ "）: " ++ cause)))
      /\ (forall e, In e trace -> In (eventName e) (map fst pre ++ [name]))
      /\ createMCPClients mw (pre ++ (name, server) :: post)
         = createMCPClients mw (pre ++ [(name, server)]).
Proof.
  intros mw pre name server post Hpre Hdown. unfold createMCPClients.
  destruct (createLoop_fail_fast mw name server post pre ∅ [] [])
    as (trace & cause & Hr & Hev & Hpost); [| |exact Hpre|exact Hdown|].
  - intros n c. by rewrite lookup_empty.
  - constructor.
  - exists trace, cause. split; [exact Hr|]. split; [|exact Hpost].
    intros e Hin. by apply (proj1 (List.Forall_forall _ _) Hev).
Qed.

Lemma startup_fail_fast_witness :
  exists trace cause,
    (createMCPClients searchDown threeServers
     = (trace, inr ("创建 MCP 客户端失败（" ++ "search" ++ "）: " ++ cause))
     \/ createMCPClients searchDown threeServers
        = (trace, inr ("初始化 MCP 客户端失败（" ++ "search" ++ "）: " ++ cause)))
    /\ (forall e, In e trace -> In (eventName e) ["files"; "search"])
    /\ createMCPClients searchDown threeServers
       = createMCPClients searchDown (firstn 2 threeServers).
Proof.
  apply (startup_fail_fast searchDown (firstn 1 threeServers) "search"
           {| Config := SSEServerConfig "http://localhost:8080/sse"
                          (Some ["Authorization: Bearer k"]) |}
           (skipn 2 threeServers)); reflexivity.
Defined.

End RegistryMore.

(* ===================================================================== *)
(** * Provider selection *)
(* ===================================================================== *)

Module ProviderFacts.
Import ProviderSetup Props Samples MoreSamples.

Lemma eqb_false (a b : string) : a <> b -> String.eqb a b = false.
Proof. apply String.eqb_neq. Qed.

Lemma orEnv_flag Getenv apiKey name :
  apiKey <> "" -> orEnv Getenv apiKey name = apiKey.
Proof. intros H. unfold orEnv. by rewrite (eqb_false _ _ H). Qed.

Lemma orEnv_env Getenv name : orEnv Getenv "" name = Getenv name.
Proof. reflexivity. Qed.

Lemma flag_parts (provider model : string) :
  strings.Contains provider ":" = false ->
  strings.SplitN2 (provider ++ ":" ++ model) ":" = [provider; model].
Proof. intros H. unfold strings.SplitN2. by rewrite SplitFacts.splitFirst_colon. Qed.

(** X19. The model flag is cut at its first colon only. Without a colon it
    is refused with the flag in the message; the model part may itself
    hold colons; a provider part other than the four known ones is
    refused by name. *)
Theorem model_flag_parsing :
  forall backends flags Getenv systemPrompt,
    (forall modelString,
        strings.Contains modelString ":" = false ->
        createProvider backends flags Getenv modelString systemPrompt
        = inr ("模型参数格式错误，应为 provider:model，实际收到 " ++ modelString))
    /\ (forall model,
          createProvider backends flags Getenv ("ollama" ++ ":" ++ model)
                         systemPrompt
          = ollama_NewProvider backends model systemPrompt)
    /\ (forall provider model,
          strings.Contains provider ":" = false ->
          ~ In provider ["anthropic"; "ollama"; "openai"; "google"] ->
          createProvider backends flags Getenv (provider ++ ":" ++ model)
                         systemPrompt
          = inr ("不支持的模型提供方: " ++ provider)).
Proof.
  intros backends flags Getenv systemPrompt. split; [|split].
  - intros modelString H. unfold createProvider, strings.SplitN2.
    by rewrite (SplitFacts.splitFirst_none modelString "" H).
  - intros model. unfold createProvider.
    by rewrite (flag_parts "ollama" model eq_refl).
  - intros provider model Hp Hn. unfold createProvider.
    rewrite (flag_parts provider model Hp).
    rewrite !eqb_false; [done|..]; intros ->; apply Hn; simpl; tauto.
Qed.

Lemma model_flag_parsing_witness :
  createProvider sampleBackends noFlags noEnv "qwen3" ""
  = inr ("模型参数格式错误，应为 provider:model，实际收到 " ++ "qwen3")
  /\ createProvider sampleBackends noFlags noEnv ("ollama" ++ ":" ++ "qwen3:1.7b") ""
     = inl (echoProvider "ollama qwen3:1.7b")
  /\ createProvider sampleBackends noFlags noEnv ("mistral" ++ ":" ++ "7b") ""
     = inr ("不支持的模型提供方: " ++ "mistral").
Proof.
  destruct (model_flag_parsing sampleBackends noFlags noEnv "") as (H1 & H2 & H3).
  split; [|split].
  - apply H1. reflexivity.
  - apply H2.
  - apply H3; [reflexivity|].
    intros [H|[H|[H|[H|[]]]]]; discriminate.
Defined.

(** X20. The API key of [anthropic] and [openai]: the flag when it is set,
    else the environment variable, and an error before any provider is
    built when both are empty. *)
Theorem api_key_precedence :
  forall backends flags Getenv model systemPrompt,
    (anthropicAPIKey flags <> "" ->
     createProvider backends flags Getenv ("anthropic" ++ ":" ++ model)
                    systemPrompt
     = inl (anthropic_NewProvider backends (anthropicAPIKey flags)
              (anthropicBaseURL flags) model systemPrompt))
    /\ (anthropicAPIKey flags = "" -> Getenv "ANTHROPIC_API_KEY" <> "" ->
        createProvider backends flags Getenv ("anthropic" ++ ":" ++ model)
                       systemPrompt
        = inl (anthropic_NewProvider backends (Getenv "ANTHROPIC_API_KEY")
                 (anthropicBaseURL flags) model systemPrompt))
    /\ (anthropicAPIKey flags = "" -> Getenv "ANTHROPIC_API_KEY" = "" ->
        exists err,
          createProvider backends flags Getenv ("anthropic" ++ ":" ++ model)
                         systemPrompt = inr err)
    /\ (openaiAPIKey flags <> "" ->
        createProvider backends flags Getenv ("openai" ++ ":" ++ model)
                       systemPrompt
        = inl (openai_NewProvider backends (openaiAPIKey flags)
                 (openaiBaseURL flags) model systemPrompt))
    /\ (openaiAPIKey flags = "" -> Getenv "OPENAI_API_KEY" <> "" ->
        createProvider backends flags Getenv ("openai" ++ ":" ++ model)
                       systemPrompt
        = inl (openai_NewProvider backends (Getenv "OPENAI_API_KEY")
                 (openaiBaseURL flags) model systemPrompt))
    /\ (openaiAPIKey flags = "" -> Getenv "OPENAI_API_KEY" = "" ->
        exists err,
          createProvider backends flags Getenv ("openai" ++ ":" ++ model)
                         systemPrompt = inr err).
Proof.
  intros backends flags Getenv model systemPrompt.
  unfold createProvider.
  rewrite (flag_parts "anthropic" model eq_refl).
  rewrite (flag_parts "openai" model eq_refl).
  change (String.eqb "anthropic" "anthropic") with true.
  change (String.eqb "openai" "anthropic") with false.
  change (String.eqb "openai" "ollama") with false.
  change (String.eqb "openai" "openai") with true.
  cbv iota zeta.
  repeat split.
  - intros H. by rewrite (orEnv_flag _ _ _ H), (eqb_false _ _ H).
  - intros -> H. by rewrite orEnv_env, (eqb_false _ _ H).
  - intros -> H. rewrite orEnv_env, H. by eexists.
  - intros H. by rewrite (orEnv_flag _ _ _ H), (eqb_false _ _ H).
  - intros -> H. by rewrite orEnv_env, (eqb_false _ _ H).
  - intros -> H. rewrite orEnv_env, H. by eexists.
Qed.

Lemma api_key_precedence_witness :
  createProvider sampleBackends keyFlags keyEnv ("anthropic" ++ ":" ++ "claude") ""
  = inl (echoProvider "anthropic sk-flag claude")
  /\ createProvider sampleBackends noFlags keyEnv ("openai" ++ ":" ++ "gpt-4") ""
     = inl (echoProvider "openai sk-env gpt-4")
  /\ exists err,
       createProvider sampleBackends noFlags noEnv ("anthropic" ++ ":" ++ "claude") ""
       = inr err.
Proof.
  split; [|split].
  - apply (proj1 (api_key_precedence sampleBackends keyFlags keyEnv "claude" "")).
    discriminate.
  - apply (proj1 (proj2 (proj2 (proj2 (proj2
             (api_key_precedence sampleBackends noFlags keyEnv "gpt-4" ""))))));
      [reflexivity | discriminate].
  - apply (proj1 (proj2 (proj2
             (api_key_precedence sampleBackends noFlags noEnv "claude" ""))));
      reflexivity.
Defined.

(** X21. The key of [google]: the flag, else [GOOGLE_API_KEY], else
    [GEMINI_API_KEY]. Unlike for the other providers a missing key is no
    error here: the constructor is called, with the empty key. *)
Theorem google_key_fallback :
  forall backends flags Getenv model systemPrompt,
    (googleAPIKey flags <> "" ->
     createProvider backends flags Getenv ("google" ++ ":" ++ model)
                    systemPrompt
     = google_NewProvider backends (googleAPIKey flags) model systemPrompt)
    /\ (googleAPIKey flags = "" -> Getenv "GOOGLE_API_KEY" <> "" ->
        createProvider backends flags Getenv ("google" ++ ":" ++ model)
                       systemPrompt
        = google_NewProvider backends (Getenv "GOOGLE_API_KEY") model
                             systemPrompt)
    /\ (googleAPIKey flags = "" -> Getenv "GOOGLE_API_KEY" = "" ->
        createProvider backends flags Getenv ("google" ++ ":" ++ model)
                       systemPrompt
        = google_NewProvider backends (Getenv "GEMINI_API_KEY") model
                             systemPrompt).
Proof.
  intros backends flags Getenv model systemPrompt. unfold createProvider.
  rewrite (flag_parts "google" model eq_refl).
  change (String.eqb "google" "anthropic") with false.
  change (String.eqb "google" "ollama") with false.
  change (String.eqb "google" "openai") with false.
  change (String.eqb "google" "google") with true.
  cbv iota zeta. repeat split.
  - intros H. by rewrite (orEnv_flag _ _ _ H), (orEnv_flag _ _ _ H).
  - intros -> H. by rewrite orEnv_env, (orEnv_flag _ _ _ H).
  - intros -> H. by rewrite orEnv_env, H, orEnv_env.
Qed.

Lemma google_key_fallback_witness :
  createProvider sampleBackends keyFlags keyEnv ("google" ++ ":" ++ "gemini-pro") ""
  = inl (echoProvider "google g-flag gemini-pro")
  /\ createProvider sampleBackends noFlags geminiEnv
                    ("google" ++ ":" ++ "gemini-pro") ""
     = inl (echoProvider "google g-gemini gemini-pro")
  /\ createProvider sampleBackends noFlags noEnv
                    ("google" ++ ":" ++ "gemini-pro") ""
     = ProviderSetup.google_NewProvider sampleBackends "" "gemini-pro" "".
Proof.
  split; [|split].
  - apply (proj1 (google_key_fallback sampleBackends keyFlags keyEnv
                    "gemini-pro" "")). discriminate.
  - apply (proj2 (proj2 (google_key_fallback sampleBackends noFlags geminiEnv
                           "gemini-pro" ""))); reflexivity.
  - apply (proj2 (proj2 (google_key_fallback sampleBackends noFlags noEnv
                           "gemini-pro" ""))); reflexivity.
Defined.

End ProviderFacts.

(* ===================================================================== *)
(** * The server listing *)
(* ===================================================================== *)

Module CommandFacts.
Import Engine Registry Commands Props Samples MoreSamples.

(** The header lines of the listing are written from the header names. *)
Lemma writeHeaders_keys (headers : list string) :
  forall markdown,
    fold_left writeHeader headers markdown
    = fold_left (fun markdown key =>
                   markdown ++ "`" ++ key ++ ": [REDACTED]`" ++ LF)
                (omap headerKey headers) markdown.
Proof.
  induction headers as [|h headers IH]; intros markdown; [done|].
  cbn [fold_left omap list_omap]. rewrite IH.
  unfold writeHeader, headerKey.
  by destruct (strings.SplitN2 h ":") as [|a [|b [|c l]]].
Qed.

Lemma writeServer_same (e1 e2 : string * ServerConfigWrapper) :
  sameListing e1 e2 ->
  forall markdown, writeServer markdown e1 = writeServer markdown e2.
Proof.
  intros [Hn Hc] markdown. unfold writeServer. rewrite Hn.
  destruct (Config e1.2) as [c1 a1 v1|u1 h1], (Config e2.2) as [c2 a2 v2|u2 h2];
    try done.
  - by destruct Hc as [-> ->].
  - destruct Hc as [-> Hh]. destruct h1 as [h1|], h2 as [h2|]; try done.
    injection Hh as Hh. by rewrite !writeHeaders_keys, Hh.
Qed.

(** X22. What [/servers] shows does not depend on the header values or on the
    environment of the servers: two configurations with the same server
    names, URLs, commands, arguments and header names give the same
    output. *)
Theorem listing_hides_secrets :
  forall term servers1 servers2,
    Forall2 sameListing servers1 servers2 ->
    handleServersCommand term servers1 = handleServersCommand term servers2.
Proof.
  intros term servers1 servers2 H.
  assert (Hfold : forall markdown,
             fold_left writeServer servers1 markdown
             = fold_left writeServer servers2 markdown).
  { induction H as [|e1 e2 l1 l2 He _ IH]; intros markdown; [done|].
    cbn [fold_left]. by rewrite (writeServer_same e1 e2 He), IH. }
  unfold handleServersCommand, serversMarkdown.
  destruct H as [|e1 e2 l1 l2 He Hl]; [done|].
  by rewrite (Hfold "").
Qed.

Lemma listing_hides_secrets_witness :
  Forall2 sameListing threeServers threeServersRotated
  /\ handleServersCommand plainTerminal threeServers
     = handleServersCommand plainTerminal threeServersRotated.
Proof.
  assert (H : Forall2 sameListing threeServers threeServersRotated).
  { repeat constructor. }
  split; [exact H|]. exact (listing_hides_secrets plainTerminal _ _ H).
Defined.

End CommandFacts.

(* ===================================================================== *)
(** * Start-up and shutdown *)
(* ===================================================================== *)

Module HostFacts.
Import Engine Registry ProviderSetup Host Spec Props Samples MoreSamples.

(** [createProvider] succeeds only on a flag with two parts. *)
Lemma createProvider_parts backends flags Getenv modelString systemPrompt p :
  createProvider backends flags Getenv modelString systemPrompt = inl p ->
  exists provider model,
    strings.SplitN2 modelString ":" = [provider; model].
Proof.
  unfold createProvider.
  destruct (strings.SplitN2 modelString ":") as [|a [|b [|c l]]]; try discriminate.
  intros _. by exists a, b.
Qed.

(** The session loop exits the process only with status 0. *)
Lemma sessionLoop_exit_code fuel provider term mcpClients allTools window inputs :
  forall w code w',
    sessionLoop fuel provider term mcpClients allTools window inputs w
    = (Exited code, w') -> code = 0.
Proof.
  induction inputs as [|input rest IH]; intros w code w'; [discriminate|].
  cbn [sessionLoop]. destruct input as [prompt| |err]; try discriminate.
  destruct (String.eqb prompt ""); [apply IH|].
  destruct (handleSlashCommand prompt); [|apply IH|by intros [= <- _]].
  destruct (pruneBeforeTurn window w) as [w1|]; [|discriminate].
  destruct (runPrompt _ _ _ _ _ _ _) as [[w2 [err|]]|]; try discriminate.
  apply IH.
Qed.

(** The session loop panics only in [pruneMessages], on a negative
    window. *)
Lemma sessionLoop_panic fuel provider term mcpClients allTools window inputs :
  forall w w',
    sessionLoop fuel provider term mcpClients allTools window inputs w
    = (Panicked, w') -> window < 0.
Proof.
  induction inputs as [|input rest IH]; intros w w'; [discriminate|].
  cbn [sessionLoop]. destruct input as [prompt| |err]; try discriminate.
  destruct (String.eqb prompt ""); [apply IH|].
  destruct (handleSlashCommand prompt); [|apply IH|discriminate].
  destruct (pruneBeforeTurn window w) as [w1|] eqn:Ep.
  - destruct (runPrompt _ _ _ _ _ _ _) as [[w2 [err|]]|]; try discriminate.
    apply IH.
  - intros _. destruct (Z.lt_ge_cases window 0) as [H|H]; [done|].
    unfold pruneBeforeTurn in Ep.
    destruct (0 <? length (messages w))%nat; [|discriminate].
    destruct (PrunerMore.pruneMessages_some window (messages w) H) as [h' Eh].
    rewrite Eh in Ep. discriminate.
Qed.

(** The names of the collected tools. *)
Lemma collect_fold env (entries : list (string * MCPClient)) :
  forall acc name,
    In name (map ToolName (fst (fold_left (collectStep env) entries acc)))
    <-> In name (map ToolName (fst acc))
        \/ exists serverName client tools original,
             In (serverName, client) entries
             /\ ListTools env (handle client) = inl tools
             /\ In original tools
             /\ name = namespacedName serverName (ToolName original).
Proof.
  induction entries as [|[s c] entries IH]; intros [allTools log] name.
  - simpl. split; [by left|]. intros [H|(? & ? & ? & ? & [] & _)]. done.
  - cbn [fold_left]. rewrite IH. unfold collectStep. cbn [fst snd].
    destruct (ListTools env (handle c)) as [tools|err] eqn:El; cbn [fst].
    + rewrite map_app, in_app_iff. unfold mcpToolsToAnthropicTools.
      rewrite map_map. cbn [ToolName]. split.
      * intros [[H|H]|(s' & c' & tools' & o & Hin & Hl & Ho & ->)].
        -- by left.
        -- right. apply in_map_iff in H as (o & <- & Ho).
           exists s, c, tools, o. repeat split; [by left|done|done].
        -- right. exists s', c', tools', o. repeat split; [by right|done|done].
      * intros [H|(s' & c' & tools' & o & [Hin|Hin] & Hl & Ho & ->)].
        -- left. by left.
        -- injection Hin as <- <-. left. right. apply in_map_iff.
           exists o. split; [done|]. rewrite El in Hl. by injection Hl as ->.
        -- right. by exists s', c', tools', o.
    + split.
      * intros [H|(s' & c' & tools' & o & Hin & Hl & Ho & ->)]; [by left|].
        right. exists s', c', tools', o. repeat split; [by right|done|done].
      * intros [H|(s' & c' & tools' & o & [Hin|Hin] & Hl & Ho & ->)];
          [by left| |].
        -- injection Hin as <- <-. rewrite El in Hl. discriminate.
        -- right. by exists s', c', tools', o.
Qed.

Lemma collectTools_names env mcpClients name :
  In name (map ToolName (fst (collectTools env mcpClients)))
  <-> exists serverName client tools original,
        mcpClients !! serverName = Some client
        /\ ListTools env (handle client) = inl tools
        /\ In original tools
        /\ name = namespacedName serverName (ToolName original).
Proof.
  unfold collectTools. rewrite collect_fold. cbn [fst map]. split.
  - intros [[]|(s & c & tools & o & Hin & H)]. exists s, c, tools, o.
    split; [|done]. by apply elem_of_map_to_list, list_elem_of_In.
  - intros (s & c & tools & o & Hl & H). right. exists s, c, tools, o.
    split; [|done]. by apply list_elem_of_In, elem_of_map_to_list.
Qed.

(** X23. The catalogue offered to the model holds, under the name
    [server__tool], exactly the tools of the connected servers that
    answered [ListTools]; a server that did not answer is left out and
    does not stop the collection. *)
Theorem catalogue_contents :
  forall env mcpClients name,
    In name (map ToolName (fst (collectTools env mcpClients)))
    <-> exists serverName client tools original,
          mcpClients !! serverName = Some client
          /\ ListTools env (handle client) = inl tools
          /\ In original tools
          /\ name = namespacedName serverName (ToolName original).
Proof. intros env mcpClients name. apply collectTools_names. Qed.

(** X24. A tool of the catalogue can be called: when neither the server name
    followed by [_] nor the tool name holds [__], the advertised name is
    in the catalogue and a call of it is routed to a registered server. *)
Theorem advertised_tool_routable :
  forall env mcpClients serverName client tools original id args,
    mcpClients !! serverName = Some client ->
    ListTools env (handle client) = inl tools ->
    In original tools ->
    strings.Contains (serverName ++ "_") "__" = false ->
    strings.Contains (ToolName original) "__" = false ->
    In (namespacedName serverName (ToolName original))
       (map ToolName (fst (collectTools env mcpClients)))
    /\ resolveToolName (namespacedName serverName (ToolName original))
       = Some (serverName, ToolName original)
    /\ unresolved mcpClients
         {| GetName := namespacedName serverName (ToolName original);
            GetID := id; GetArguments := args |} = None.
Proof.
  intros env mcpClients serverName client tools original id args
         Hl Ht Ho Hs Hn.
  assert (Hr : resolveToolName (namespacedName serverName (ToolName original))
               = Some (serverName, ToolName original)).
  { unfold namespacedName.
    by rewrite (NameFacts.resolve_first_sep serverName (ToolName original) Hs),
               Hn. }
  split; [|split; [exact Hr|]].
  - apply collectTools_names. by exists serverName, client, tools, original.
  - unfold unresolved. cbn [GetName]. by rewrite Hr, Hl.
Qed.

Lemma advertised_tool_routable_witness :
  In "calc__add" (map ToolName (fst (collectTools (sampleHost 10) calcOnly)))
  /\ resolveToolName "calc__add" = Some ("calc", "add")
  /\ unresolved calcOnly callAdd = None.
Proof.
  destruct (sampleCatalogue "calc") as [tools|err] eqn:E; [|discriminate].
  injection E as E.
  refine (advertised_tool_routable (sampleHost 10) calcOnly "calc" calcClient
            tools
            {| ToolName := "add"; Description := "adds two numbers";
               InputSchema := {| SchemaType := "object";
                                 Properties := [("a", "number"); ("b", "number")];
                                 Required := ["a"; "b"] |} |}
            "t1" (ArgsObject [("a", "1"); ("b", "2")]) _ _ _ _ _).
  - reflexivity.
  - by rewrite <- E.
  - rewrite <- E. by left.
  - reflexivity.
  - reflexivity.
Defined.

(** X25. Every way [runMCPHost] returns or panics has had [Close] called
    on every client it created, with one exception. After a start-up in
    which every server came up the deferred function closes them all.
    After a failed start-up [createMCPClients] has closed what it had
    created, except the client of the first server that did not come up
    when that is an SSE client whose [Start] failed: that client is left
    unclosed. Only [/quit] (and a session that is still running) leaves
    every server connected: the process exits with status 0 before the
    deferred function runs. *)
Theorem connections_released :
  forall fuel env inputs servers,
    loadMCPConfig env = inl servers ->
    NoDup (map fst servers) ->
    match ending (runMCPHost fuel env inputs) with
    | Returned _ | Panicked =>
        live (connections (runMCPHost fuel env inputs)) = ∅
        \/ exists pre entry post,
             servers = (pre ++ entry :: post)%list
             /\ forallb (serverUp (mcp env)) pre = true
             /\ serverUp (mcp env) entry = false
             /\ startFails (mcp env) entry = true
             /\ live (connections (runMCPHost fuel env inputs))
                = {[fst entry]}
    | Exited code =>
        code = 0
        /\ shutdown (runMCPHost fuel env inputs) = []
        /\ live (connections (runMCPHost fuel env inputs))
           = list_to_set (map fst servers)
    | AwaitingInput | OutOfFuel =>
        live (connections (runMCPHost fuel env inputs))
        = list_to_set (map fst servers)
    end.
Proof.
  intros fuel env inputs servers Hcfg Hnd. unfold runMCPHost.
  destruct (loadSystemPrompt env (systemPromptFile env)) as [sp|err];
    [|by left].
  destruct (createProvider _ _ _ _ _) as [provider|err]; [|by left].
  destruct (strings.SplitN2 (modelFlag env) ":") as [|a [|b [|c l]]];
    try (by left).
  rewrite Hcfg.
  destruct (createMCPClients (mcp env) servers) as [trace [clients|err]] eqn:Ec.
  2:{ cbn [startupFailure ending connections].
      destruct (RegistryMore.createMCPClients_err _ _ _ _ Hnd Ec)
        as (_ & pre & entry & post & Hs & Hpre & Hdown & Hl).
      destruct (startFails (mcp env) entry) eqn:Hsf; [right|by left].
      by exists pre, entry, post. }
  destruct (RegistryMore.createMCPClients_ok _ _ _ _ Hnd Ec)
    as (Hh & Hlive & Hdom & _).
  assert (Hclosed : live (closeAll clients trace) = ∅).
  { apply RegistryFacts.live_closeAll; [exact Hh|]. by rewrite Hlive. }
  destruct (collectTools env clients) as [allTools toolLog].
  destruct (updateRenderer (term env)) as [err|]; [by left|].
  destruct (sessionLoop _ _ _ _ _ _ _ _) as [e w] eqn:Es.
  destruct e as [r|code| | |]; cbn [ending connections shutdown].
  - by left.
  - split; [exact (sessionLoop_exit_code _ _ _ _ _ _ _ _ _ _ Es)|].
    split; [done|]. by rewrite Hlive.
  - by left.
  - by rewrite Hlive.
  - by rewrite Hlive.
Qed.

Lemma connections_released_witness :
  (live (connections (runMCPHost 5 (sampleHost 10) [UserAborted])) = ∅
   \/ exists pre entry post,
        threeServers = (pre ++ entry :: post)%list
        /\ forallb (serverUp allUp) pre = true
        /\ serverUp allUp entry = false
        /\ startFails allUp entry = true
        /\ live (connections (runMCPHost 5 (sampleHost 10) [UserAborted]))
           = {[fst entry]})
  /\ connections (runMCPHost 5 (sampleHost 10) [UserAborted])
     = [Spawned "files"; Initialized "files"; Constructed "search";
        Started "search"; Initialized "search"; Spawned "calc";
        Initialized "calc"; Closed "search"; Closed "calc"; Closed "files"]
  /\ live (connections
             (runMCPHost 5 (sampleHost 10) [Submitted "hello"; Submitted "/quit"]))
     = list_to_set ["files"; "search"; "calc"]
  /\ connections (runMCPHost 5 (hostOn searchDown 10) [UserAborted])
     = [Spawned "files"; Initialized "files"; Constructed "search";
        Closed "files"]
  /\ (live (connections (runMCPHost 5 (hostOn searchDown 10) [UserAborted]))
      = ∅
      \/ exists pre entry post,
           threeServers = (pre ++ entry :: post)%list
           /\ forallb (serverUp searchDown) pre = true
           /\ serverUp searchDown entry = false
           /\ startFails searchDown entry = true
           /\ live (connections
                      (runMCPHost 5 (hostOn searchDown 10) [UserAborted]))
              = {[fst entry]}).
Proof.
  assert (Hnd : NoDup (map fst threeServers)).
  { apply (bool_decide_unpack _). vm_compute. exact I. }
  split; [|split; [reflexivity|split; [|split; [reflexivity|]]]].
  - exact (connections_released 5 (sampleHost 10) [UserAborted] threeServers
             eq_refl Hnd).
  - exact (proj2 (proj2
             (connections_released 5 (sampleHost 10)
                [Submitted "hello"; Submitted "/quit"] threeServers
                eq_refl Hnd))).
  - exact (connections_released 5 (hostOn searchDown 10) [UserAborted]
             threeServers eq_refl Hnd).
Defined.

(** X26. With a window that is not negative a run never panics. The index
    [parts[1]] that [runMCPHost] takes of the model flag without a check
    is in range whenever it is reached, since [createProvider] has
    refused a flag without colon before; the slice of [pruneMessages] is
    in range for such a window. *)
Theorem no_panic_with_window :
  forall fuel env inputs,
    0 <= messageWindow env ->
    ending (runMCPHost fuel env inputs) <> Panicked.
Proof.
  intros fuel env inputs Hw. unfold runMCPHost.
  destruct (loadSystemPrompt env (systemPromptFile env)) as [sp|err]; [|done].
  destruct (createProvider _ _ _ _ _) as [provider|err] eqn:Ep; [|done].
  destruct (createProvider_parts _ _ _ _ _ _ Ep) as (a & b & ->).
  destruct (loadMCPConfig env) as [servers|err]; [|done].
  destruct (createMCPClients (mcp env) servers) as [trace [clients|err]];
    [|done].
  destruct (collectTools env clients) as [allTools toolLog].
  destruct (updateRenderer (term env)) as [err|]; [done|].
  destruct (sessionLoop _ _ _ _ _ _ _ _) as [e w] eqn:Es.
  destruct e as [r|code| | |]; cbn [ending]; try done.
  apply sessionLoop_panic in Es. lia.
Qed.

Lemma no_panic_with_window_witness :
  ending (runMCPHost 5 (sampleHost 0) [Submitted "hello"; Submitted "again"])
  <> Panicked.
Proof.
  apply (no_panic_with_window 5 (sampleHost 0)
           [Submitted "hello"; Submitted "again"]).
  simpl. lia.
Defined.

End HostFacts.
